(** * Connectly: OAuth session and token lifecycle

    A shallow embedding of [accounts/utils.py], [accounts/models.py] and the
    OAuth views of [linkedIn/views.py] and [twitter/views.py].

    Conventions.
    - A Python [str] is a Rocq [string] holding the UTF-8 bytes of the text
      (the convention of Rocq string literals); [str.encode()] exposes these
      bytes and [bytes.decode()] checks that a byte sequence is well-formed
      UTF-8 before reading it back as text. A [str] is thus a [string] [s]
      with [utf8_valid (str_encode s) = true]; text without a UTF-8
      encoding (a lone surrogate) is outside the model.
    - [bytes] are lists of 8-bit characters; integer operations on a byte
      ([^], [<<], [>>], [&], [|]) are done on [N].
    - Python exceptions are an explicit [result]; a [try]/[except] is a match
      on it.
    - [print] calls are not modelled. *)

From Stdlib Require Import ZArith NArith Ascii String List Lia Bool.
From stdpp Require Import gmap strings list fin_maps pretty.

Open Scope string_scope.

(** ** Exceptions *)

(** The class of an exception is what an [except] clause looks at; its text
    is what [str(e)] gives. *)
Inductive exn_class : Type :=
  | DoesNotExist
  | MultipleObjectsReturned
  | IntegrityError
  | ValueError
  | TypeError
  | AttributeError
  | ZeroDivisionError
  | BinasciiError
  | UnicodeDecodeError
  | JSONDecodeError
  | ValidationError
  | RequestException.

Record exn : Type := Exception { exn_class_of : exn_class; exn_str : string }.

Inductive result (A : Type) : Type :=
  | Ok (a : A)
  | Raise (e : exn).

Arguments Ok {A} a.
Arguments Raise {A} e.

Definition rbind {A B : Type} (m : result A) (k : A -> result B) : result B :=
  match m with
  | Ok a => k a
  | Raise e => Raise e
  end.

Notation "'let?' x := m 'in' k" := (rbind m (fun x => k))
  (at level 10, x name, m at level 100, k at level 200).
Notation "'let?' ' p := m 'in' k" := (rbind m (fun p => k))
  (at level 10, p strict pattern, m at level 100, k at level 200).

(** ** Bytes *)

Definition byte := ascii.
Definition bytes := list byte.

(** [str.encode()] and the text of a byte sequence already known to be
    well-formed. *)
Definition str_encode (s : string) : bytes := list_ascii_of_string s.
Definition str_of_bytes (b : bytes) : string := string_of_list_ascii b.

Definition byte_in (lo hi : N) (b : byte) : bool :=
  ((lo <=? N_of_ascii b) && (N_of_ascii b <=? hi))%N.

Definition is_cont (b : byte) : bool := byte_in 128 191 b.

(** Well-formed UTF-8 as the strict decoder of Python accepts it: shortest
    form only, no surrogates, nothing above U+10FFFF. *)
Fixpoint utf8_valid (l : bytes) : bool :=
  match l with
  | [] => true
  | b0 :: t0 =>
    if byte_in 0 127 b0 then utf8_valid t0
    else match t0 with
    | [] => false
    | b1 :: t1 =>
      if byte_in 194 223 b0 then is_cont b1 && utf8_valid t1
      else match t1 with
      | [] => false
      | b2 :: t2 =>
        if byte_in 224 239 b0 then
          (if byte_in 224 224 b0 then byte_in 160 191 b1
           else if byte_in 237 237 b0 then byte_in 128 159 b1
           else is_cont b1)
          && is_cont b2 && utf8_valid t2
        else match t2 with
        | [] => false
        | b3 :: t3 =>
          if byte_in 240 244 b0 then
            (if byte_in 240 240 b0 then byte_in 144 191 b1
             else if byte_in 244 244 b0 then byte_in 128 143 b1
             else is_cont b1)
            && is_cont b2 && is_cont b3 && utf8_valid t3
          else false
        end
      end
    end
  end.

(** [bytes.decode()] *)
Definition bytes_decode (b : bytes) : result string :=
  if utf8_valid b then Ok (str_of_bytes b)
  else Raise (Exception UnicodeDecodeError
                "'utf-8' codec can't decode bytes").

(** ** base64 (the [base64] and [binascii] modules of the standard library) *)

Module Base64.

Definition alphabet : bytes :=
  list_ascii_of_string
    "ABCDEFGHIJKLMNOPQRSTUVWXYZabcdefghijklmnopqrstuvwxyz0123456789+/".

Definition pad : byte := "="%char.

(** [table_b2a_base64] *)
Definition b2a (n : N) : byte := nth (N.to_nat n) alphabet pad.

Fixpoint index_of (c : byte) (l : bytes) (i : N) : option N :=
  match l with
  | [] => None
  | x :: r => if Ascii.eqb c x then Some i else index_of c r (N.succ i)
  end.

(** [table_a2b_base64]: [None] for a character outside the alphabet. *)
Definition a2b (c : byte) : option N := index_of c alphabet 0.

Definition hi6 (a : byte) : N := N.shiftr (N_of_ascii a) 2.
Definition lo2 (a : byte) : N := N.land (N_of_ascii a) 3.
Definition hi4 (a : byte) : N := N.shiftr (N_of_ascii a) 4.
Definition lo4 (a : byte) : N := N.land (N_of_ascii a) 15.
Definition hi2 (a : byte) : N := N.shiftr (N_of_ascii a) 6.
Definition lo6 (a : byte) : N := N.land (N_of_ascii a) 63.

(** [binascii.b2a_base64(s, newline=False)]: three bytes give four
    characters; one or two trailing bytes are padded with [=]. *)
Fixpoint b2a_base64 (s : bytes) : bytes :=
  match s with
  | [] => []
  | [a] => [b2a (hi6 a); b2a (N.shiftl (lo2 a) 4); pad; pad]
  | [a; b] =>
    [b2a (hi6 a); b2a (N.lor (N.shiftl (lo2 a) 4) (hi4 b));
     b2a (N.shiftl (lo4 b) 2); pad]
  | a :: b :: c :: r =>
    b2a (hi6 a) :: b2a (N.lor (N.shiftl (lo2 a) 4) (hi4 b))
    :: b2a (N.lor (N.shiftl (lo4 b) 2) (hi2 c)) :: b2a (lo6 c)
    :: b2a_base64 r
  end.

Definition b64encode (s : bytes) : bytes := b2a_base64 s.

(** [*bin_data++ = n]: the store keeps the low eight bits. *)
Definition emit (n : N) (k : result bytes) : result bytes :=
  let? l := k in Ok (ascii_of_N n :: l).

(** [binascii.a2b_base64(s)] without strict mode: characters outside the
    alphabet are skipped, a complete pad sequence ends the input, and input
    that ends inside a quad is an error. [quad_pos], [leftchar] and [pads]
    are the decoder's registers. *)
Fixpoint a2b_base64 (s : bytes) (quad_pos : nat) (leftchar : N) (pads : nat)
  : result bytes :=
  match s with
  | [] =>
    match quad_pos with
    | O => Ok []
    | _ => Raise (Exception BinasciiError "Incorrect padding")
    end
  | ch :: r =>
    if Ascii.eqb ch pad then
      if (2 <=? quad_pos)%nat && (4 <=? quad_pos + S pads)%nat then Ok []
      else a2b_base64 r quad_pos leftchar
             (if (2 <=? quad_pos)%nat then S pads else pads)
    else match a2b ch with
    | None => a2b_base64 r quad_pos leftchar pads
    | Some v =>
      match quad_pos with
      | 0%nat => a2b_base64 r 1 v 0
      | 1%nat =>
        emit (N.lor (N.shiftl leftchar 2) (N.shiftr v 4))
             (a2b_base64 r 2 (N.land v 15) 0)
      | 2%nat =>
        emit (N.lor (N.shiftl leftchar 4) (N.shiftr v 2))
             (a2b_base64 r 3 (N.land v 3) 0)
      | _ =>
        emit (N.lor (N.shiftl leftchar 6) v) (a2b_base64 r 0 0 0)
      end
    end
  end.

Definition b64decode (s : bytes) : result bytes := a2b_base64 s 0 0 0.

Definition urlsafe_translate (c : byte) : byte :=
  if Ascii.eqb c "+"%char then "-"%char
  else if Ascii.eqb c "/"%char then "_"%char
  else c.

(** [base64.urlsafe_b64encode] *)
Definition urlsafe_b64encode (s : bytes) : bytes :=
  map urlsafe_translate (b64encode s).

End Base64.

(** ** Python values

    The values that travel through the flows: what a JSON response decodes
    to and what the views put into [user_data]. *)

Inductive pyval : Type :=
  | VNone
  | VStr (s : string)
  | VBool (b : bool)
  | VInt (n : Z)
  | VDict (d : gmap string pyval).

Abbreviation dict := (gmap string pyval).

(** [bool(v)] *)
Definition truthy (v : pyval) : bool :=
  match v with
  | VNone => false
  | VStr s => negb (String.eqb s "")
  | VBool b => b
  | VInt n => negb (Z.eqb n 0)
  | VDict d => negb (Nat.eqb (size d) 0)
  end.

Definition type_name (v : pyval) : string :=
  match v with
  | VNone => "NoneType"
  | VStr _ => "str"
  | VBool _ => "bool"
  | VInt _ => "int"
  | VDict _ => "dict"
  end.

Definition attribute_error (v : pyval) (attr : string) : exn :=
  Exception AttributeError
    ("'" +:+ type_name v +:+ "' object has no attribute '" +:+ attr +:+ "'").

(** [d.get(k, dflt)] on a dictionary. *)
Definition dict_get (d : dict) (k : string) (dflt : pyval) : pyval :=
  default dflt (d !! k).

(** [v.get(k, dflt)] on a value that may not be a dictionary. *)
Definition py_get (v : pyval) (k : string) (dflt : pyval) : result pyval :=
  match v with
  | VDict d => Ok (dict_get d k dflt)
  | _ => Raise (attribute_error v "get")
  end.

(** [a or b] *)
Definition py_or (a b : pyval) : pyval := if truthy a then a else b.

(** An optional [str] as a value, and its truth. *)
Definition of_opt (o : option string) : pyval :=
  match o with
  | Some s => VStr s
  | None => VNone
  end.

(** ** Text helpers *)

Definition upper_char (c : ascii) : ascii :=
  if byte_in 97 122 c then ascii_of_N (N_of_ascii c - 32) else c.

Definition lower_char (c : ascii) : ascii :=
  if byte_in 65 90 c then ascii_of_N (N_of_ascii c + 32) else c.

(** [s.upper()] and [s.lower()], on the letters of ASCII. *)
Definition upper (s : string) : string :=
  str_of_bytes (map upper_char (str_encode s)).
Definition lower (s : string) : string :=
  str_of_bytes (map lower_char (str_encode s)).

(** [s.lstrip(c)] and [s.rstrip(c)] for a single character [c]. *)
Fixpoint lstrip_char (c : ascii) (l : list ascii) : list ascii :=
  match l with
  | x :: r => if Ascii.eqb x c then lstrip_char c r else l
  | [] => []
  end.

Definition rstrip_char (c : ascii) (l : list ascii) : list ascii :=
  rev (lstrip_char c (rev l)).

Definition lstrip (c : ascii) (s : string) : string :=
  str_of_bytes (lstrip_char c (str_encode s)).
Definition rstrip (c : ascii) (s : string) : string :=
  str_of_bytes (rstrip_char c (str_encode s)).

(** [s.split(c)[0]]: the text before the first [c]. *)
Fixpoint before_char (c : ascii) (l : list ascii) : list ascii :=
  match l with
  | x :: r => if Ascii.eqb x c then [] else x :: before_char c r
  | [] => []
  end.

Definition split_first (c : ascii) (s : string) : string :=
  str_of_bytes (before_char c (str_encode s)).

(** *** [int(s)] for a [str]

    Surrounding white space, an optional sign, then decimal digits that
    single underscores may separate. Digits of other scripts are left out. *)

Definition is_space (c : ascii) : bool :=
  byte_in 9 13 c || byte_in 28 32 c.

Definition is_digit (c : ascii) : bool := byte_in 48 57 c.

Definition digit_value (c : ascii) : Z := Z.of_N (N_of_ascii c) - 48.

Fixpoint lstrip_space (l : list ascii) : list ascii :=
  match l with
  | x :: r => if is_space x then lstrip_space r else l
  | [] => []
  end.

Definition strip_space (l : list ascii) : list ascii :=
  rev (lstrip_space (rev (lstrip_space l))).

Fixpoint digits_value (l : list ascii) (acc : Z) (after_digit : bool)
  : option Z :=
  match l with
  | [] => if after_digit then Some acc else None
  | c :: r =>
    if is_digit c then digits_value r (acc * 10 + digit_value c) true
    else if Ascii.eqb c "_" && after_digit then digits_value r acc false
    else None
  end.

Definition parse_int (s : string) : option Z :=
  match strip_space (str_encode s) with
  | c :: r =>
    if Ascii.eqb c "-" then Z.opp <$> digits_value r 0 false
    else if Ascii.eqb c "+" then digits_value r 0 false
    else digits_value (c :: r) 0 false
  | [] => None
  end.

Definition int_of_str (s : string) : result Z :=
  match parse_int s with
  | Some n => Ok n
  | None =>
    Raise (Exception ValueError
             ("invalid literal for int() with base 10: '" +:+ s +:+ "'"))
  end.

(** [int(v)] *)
Definition py_int (v : pyval) : result Z :=
  match v with
  | VInt n => Ok n
  | VBool b => Ok (if b then 1 else 0)%Z
  | VStr s => int_of_str s
  | _ =>
    Raise (Exception TypeError
             ("int() argument must be a string, a bytes-like object or a "
              +:+ "real number, not '" +:+ type_name v +:+ "'"))
  end.

(** ** Time

    An instant is a number of seconds since the epoch; [timezone.now()] is
    read once per request and handed to the operation as [now]. *)

Definition time := Z.

(** [datetime.fromtimestamp(n)]: years 1 to 9999. *)
Definition fromtimestamp (n : Z) : result time :=
  if ((-62135596800 <=? n) && (n <=? 253402300799))%Z then Ok n
  else Raise (Exception ValueError "year is out of range").

(** ** Stored rows (accounts/models.py) *)

Module SocialMediaAccount.

Record t : Type := {
  pk : nat;
  user : nat;
  platform : string;
  platform_user_id : string;
  username : string;
  display_name : string;
  email : string;
  profile_url : string;
  avatar_url : string;
  access_token : string;
  refresh_token : option string;
  token_expires_at : option time;
  scope : string;
  status : string;
  last_sync : option time;
  follower_count : Z;
  following_count : Z;
  posts_count : Z;
  extra_data : gmap string pyval
}.

Definition is_token_expired (now : time) (self : t) : bool :=
  match token_expires_at self with
  | None => false
  | Some expires => (expires <? now)%Z
  end.

Definition set_status (v : string) (a : t) : t :=
  {| pk := pk a; user := user a; platform := platform a;
     platform_user_id := platform_user_id a; username := username a;
     display_name := display_name a; email := email a;
     profile_url := profile_url a; avatar_url := avatar_url a;
     access_token := access_token a; refresh_token := refresh_token a;
     token_expires_at := token_expires_at a; scope := scope a;
     status := v; last_sync := last_sync a;
     follower_count := follower_count a;
     following_count := following_count a; posts_count := posts_count a;
     extra_data := extra_data a |}.

End SocialMediaAccount.

Module SessionData.

Record t : Type := {
  pk : nat;
  user : nat;
  social_account : option nat;
  oauth_state : string;
  code_verifier : string;
  redirect_uri : string;
  temp_data : gmap string pyval;
  expires_at : time
}.

Definition is_expired (now : time) (self : t) : bool :=
  (expires_at self <? now)%Z.

End SessionData.

Module APICallLog.

Record t : Type := {
  pk : nat;
  user : nat;
  social_account : nat;
  endpoint : string;
  method : string;
  status_code : Z;
  response_time : Z;
  rate_limit_remaining : option Z;
  rate_limit_reset : option time;
  error_message : string
}.

End APICallLog.

(** The other tables whose rows point to an account with a cascading
    foreign key: the analytics and the rows of linkedIn/models.py and
    twitter/models.py. *)
Module Related.

Inductive model : Type :=
  | UserAnalytics
  | LinkedInProfile
  | LinkedInPost
  | LinkedInConnection
  | TwitterProfile
  | Tweet
  | TwitterFollower
  | TwitterHashtag.

Definition model_eqb (a b : model) : bool :=
  match a, b with
  | UserAnalytics, UserAnalytics
  | LinkedInProfile, LinkedInProfile
  | LinkedInPost, LinkedInPost
  | LinkedInConnection, LinkedInConnection
  | TwitterProfile, TwitterProfile
  | Tweet, Tweet
  | TwitterFollower, TwitterFollower
  | TwitterHashtag, TwitterHashtag => true
  | _, _ => false
  end.

Record t : Type := {
  table : model;
  pk : nat;
  social_account : nat;
  fields : gmap string pyval
}.

End Related.

(** ** The database *)

Record DB : Type := {
  accounts : list SocialMediaAccount.t;
  sessions : list SessionData.t;
  api_call_logs : list APICallLog.t;
  related : list Related.t;
  next_pk : nat
}.

Definition set_accounts (v : list SocialMediaAccount.t) (db : DB) : DB :=
  {| accounts := v; sessions := sessions db;
     api_call_logs := api_call_logs db; related := related db;
     next_pk := next_pk db |}.

Definition set_sessions (v : list SessionData.t) (db : DB) : DB :=
  {| accounts := accounts db; sessions := v;
     api_call_logs := api_call_logs db; related := related db;
     next_pk := next_pk db |}.

Definition set_api_call_logs (v : list APICallLog.t) (db : DB) : DB :=
  {| accounts := accounts db; sessions := sessions db;
     api_call_logs := v; related := related db;
     next_pk := next_pk db |}.

Definition set_related (v : list Related.t) (db : DB) : DB :=
  {| accounts := accounts db; sessions := sessions db;
     api_call_logs := api_call_logs db; related := v;
     next_pk := next_pk db |}.

Definition set_next_pk (v : nat) (db : DB) : DB :=
  {| accounts := accounts db; sessions := sessions db;
     api_call_logs := api_call_logs db; related := related db;
     next_pk := v |}.

(** ** Code that reads and writes the database and may raise

    There is no transaction in the code: what was written before an
    exception stays written. *)

Definition M (A : Type) : Type := DB -> result A * DB.

Definition ret {A : Type} (a : A) : M A := fun db => (Ok a, db).

Definition raise {A : Type} (e : exn) : M A := fun db => (Raise e, db).

Definition lift {A : Type} (r : result A) : M A := fun db => (r, db).

Definition bind {A B : Type} (m : M A) (k : A -> M B) : M B :=
  fun db =>
    match m db with
    | (Ok a, db') => k a db'
    | (Raise e, db') => (Raise e, db')
    end.

Notation "'let!' x := m 'in' k" := (bind m (fun x => k))
  (at level 10, x name, m at level 100, k at level 200).
Notation "'let!' ' p := m 'in' k" := (bind m (fun p => k))
  (at level 10, p strict pattern, m at level 100, k at level 200).

(** [try: m / except cls: h]: [handler] answers [None] for an exception
    that the clauses do not catch. *)
Definition try_except {A : Type} (m : M A) (handler : exn -> option (M A))
  : M A :=
  fun db =>
    match m db with
    | (Ok a, db') => (Ok a, db')
    | (Raise e, db') =>
      match handler e with
      | Some h => h db'
      | None => (Raise e, db')
      end
    end.

Definition get_db : M DB := fun db => (Ok db, db).
Definition modify (f : DB -> DB) : M unit := fun db => (Ok tt, f db).

(** A fresh primary key. *)
Definition fresh_pk : M nat :=
  fun db => (Ok (next_pk db), set_next_pk (S (next_pk db)) db).

(** [Model.objects.get(...)] over the rows that pass the filter. *)
Definition objects_get {A : Type} (rows : list A) (cond : A -> bool)
  : result A :=
  match List.filter cond rows with
  | [] =>
    Raise (Exception DoesNotExist "matching query does not exist.")
  | [r] => Ok r
  | _ :: _ :: _ =>
    Raise (Exception MultipleObjectsReturned
             "get() returned more than one row")
  end.

(** ** Settings read by the code *)

Record Settings : Type := {
  SECRET_KEY : string;
  LINKEDIN_CLIENT_ID : string;
  LINKEDIN_CLIENT_SECRET : string;
  LINKEDIN_REDIRECT_URI : string;
  TWITTER_CLIENT_ID : string;
  TWITTER_CLIENT_SECRET : string;
  TWITTER_REDIRECT_URI : string
}.

(** ** The key stream of the token codec *)

(** [l * k] on a Python sequence. *)
Definition py_repeat {A : Type} (l : list A) (k : nat) : list A :=
  concat (replicate k l).

Definition xor_byte (a b : byte) : byte :=
  ascii_of_N (N.lxor (N_of_ascii a) (N_of_ascii b)).

(** [bytes(a ^ b for a, b in zip(data, key * (len(data) // len(key) + 1)))];
    the division raises for an empty key. *)
Definition xor_with_key (data key : bytes) : result bytes :=
  match length key with
  | O =>
    Raise (Exception ZeroDivisionError "integer division or modulo by zero")
  | S _ =>
    Ok (zip_with xor_byte data
          (py_repeat key (length data / length key + 1)))
  end.

(** ** Outbound HTTP (the [requests] library)

    The network is a function from the request to what [requests] gives
    back for it: a response or an exception. *)

Module Request.
Record t : Type := {
  method : string;
  url : string;
  params : option (gmap string pyval);
  data : option (gmap string pyval);
  json : pyval;
  headers : gmap string string
}.
End Request.

Module Response.
Record t : Type := {
  status_code : Z;
  (** header names are kept in lower case: the look-up ignores case *)
  headers : gmap string string;
  text : string;
  (** what [response.json()] returns or raises *)
  json : result pyval
}.
End Response.

(** [headers.get(name)] *)
Definition headers_get (h : gmap string string) (name : string)
  : option string :=
  h !! lower name.

(** ** Query strings ([urllib.parse.urlencode] on text) *)

Definition hex_digit (n : N) : ascii :=
  nth (N.to_nat n) (list_ascii_of_string "0123456789ABCDEF") "0"%char.

Definition is_unreserved (c : ascii) : bool :=
  byte_in 65 90 c || byte_in 97 122 c || byte_in 48 57 c
  || Ascii.eqb c "_" || Ascii.eqb c "." || Ascii.eqb c "-"
  || Ascii.eqb c "~".

Definition quote_plus_char (c : ascii) : list ascii :=
  if is_unreserved c then [c]
  else if Ascii.eqb c " " then ["+"%char]
  else ["%"%char; hex_digit (N_of_ascii c / 16);
        hex_digit (N_of_ascii c mod 16)].

Definition quote_plus (s : string) : string :=
  str_of_bytes (concat (map quote_plus_char (str_encode s))).

Fixpoint urlencode (query : list (string * string)) : string :=
  match query with
  | [] => ""
  | [(k, v)] => quote_plus k +:+ "=" +:+ quote_plus v
  | (k, v) :: r => quote_plus k +:+ "=" +:+ quote_plus v +:+ "&" +:+ urlencode r
  end.

(** ** The inbound request and the answer of a view *)

Module HttpRequest.
Record t : Type := {
  user : nat;
  method : string;
  GET : gmap string string
}.
End HttpRequest.

Module messages.
Inductive level : Type := error | warning | success.
End messages.

Record HttpResponse : Type := {
  redirect_to : string;
  message : option (messages.level * string);
  response_headers : gmap string string
}.

(** The kinds of column that the related tables have. *)
Inductive column : Type := CharColumn | IntegerColumn | BooleanColumn.

Definition column_default (c : column) : pyval :=
  match c with
  | CharColumn => VStr ""
  | IntegerColumn => VInt 0
  | BooleanColumn => VBool false
  end.

Section Connectly.

Context (settings : Settings).
(** [str(d)] for a dictionary [d] *)
Context (dict_repr : gmap string pyval -> string).
(** [hashlib.sha256(b).digest()] *)
Context (sha256 : bytes -> bytes).
Context (http : Request.t -> result Response.t).

(** [str(v)] *)
Definition py_str (v : pyval) : string :=
  match v with
  | VNone => "None"
  | VStr s => s
  | VBool b => if b then "True" else "False"
  | VInt n => pretty n
  | VDict d => dict_repr d
  end.

(** What a [CharField] or [TextField] without [null=True] stores for the
    value assigned to it. *)
Definition char_column (name : string) (v : pyval) : result string :=
  match v with
  | VNone =>
    Raise (Exception IntegrityError
             ("NOT NULL constraint failed: " +:+ name))
  | _ => Ok (py_str v)
  end.

(** What an [IntegerField] without [null=True] stores. *)
Definition int_column (name : string) (v : pyval) : result pyval :=
  match v with
  | VNone =>
    Raise (Exception IntegrityError
             ("NOT NULL constraint failed: " +:+ name))
  | _ => let? n := py_int v in Ok (VInt n)
  end.

(** What a [BooleanField] without [null=True] stores. *)
Definition bool_column (name : string) (v : pyval) : result pyval :=
  let invalid :=
    Raise (Exception ValidationError
             (name +:+ " value must be either True or False.")) in
  match v with
  | VBool b => Ok (VBool b)
  | VInt n =>
    if Z.eqb n 1 then Ok (VBool true)
    else if Z.eqb n 0 then Ok (VBool false) else invalid
  | VStr s =>
    if String.eqb s "t" || String.eqb s "True" || String.eqb s "1"
    then Ok (VBool true)
    else if String.eqb s "f" || String.eqb s "False" || String.eqb s "0"
    then Ok (VBool false) else invalid
  | _ => invalid
  end.

Definition store_column (c : column) (name : string) (v : pyval)
  : result pyval :=
  match c with
  | CharColumn => let? s := char_column name v in Ok (VStr s)
  | IntegerColumn => int_column name v
  | BooleanColumn => bool_column name v
  end.

(** *** Rows *)

Definition is_DoesNotExist (e : exn) : bool :=
  match exn_class_of e with
  | DoesNotExist => true
  | _ => false
  end.

(** [social_account.save()] for a row that has a primary key. *)
Definition save_account (a : SocialMediaAccount.t) : M unit :=
  modify (fun db =>
    let same r := Nat.eqb (SocialMediaAccount.pk r) (SocialMediaAccount.pk a) in
    if existsb same (accounts db)
    then set_accounts
           (map (fun r => if same r then a else r) (accounts db)) db
    else set_accounts (accounts db ++ [a]) db).

(** [social_account.delete()]: the row and, by cascade, every row that
    points to it. *)
Definition delete_account (a : SocialMediaAccount.t) : M unit :=
  modify (fun db =>
    let i := SocialMediaAccount.pk a in
    {| accounts :=
         List.filter (fun r => negb (Nat.eqb (SocialMediaAccount.pk r) i))
           (accounts db);
       sessions :=
         List.filter
           (fun r => negb (bool_decide (SessionData.social_account r = Some i)))
           (sessions db);
       api_call_logs :=
         List.filter (fun r => negb (Nat.eqb (APICallLog.social_account r) i))
           (api_call_logs db);
       related :=
         List.filter (fun r => negb (Nat.eqb (Related.social_account r) i))
           (related db);
       next_pk := next_pk db |}).

(** [session.delete()] *)
Definition delete_session (s : SessionData.t) : M unit :=
  modify (fun db =>
    set_sessions
      (List.filter
         (fun r => negb (Nat.eqb (SessionData.pk r) (SessionData.pk s)))
         (sessions db)) db).

(** [Model.objects.filter(social_account=a).delete()] on a related table. *)
Definition delete_related (m : Related.model) (a : SocialMediaAccount.t)
  : M unit :=
  modify (fun db =>
    set_related
      (List.filter
         (fun r => negb (Related.model_eqb (Related.table r) m
                         && Nat.eqb (Related.social_account r)
                                    (SocialMediaAccount.pk a)))
         (related db)) db).

(** ** class TokenManager *)

Definition encrypt_token (token : pyval) : result string :=
  if negb (truthy token) then Ok ""
  else
    match token with
    | VStr s =>
      let key := str_encode (SECRET_KEY settings) in
      let token_bytes := str_encode s in
      let? encrypted := xor_with_key token_bytes key in
      bytes_decode (Base64.b64encode encrypted)
    | _ => Raise (attribute_error token "encode")
    end.

Definition decrypt_token (encrypted_token : string) : string :=
  if String.eqb encrypted_token "" then ""
  else
    let attempt :=
      let key := str_encode (SECRET_KEY settings) in
      let? encrypted_bytes := Base64.b64decode (str_encode encrypted_token) in
      let? decrypted := xor_with_key encrypted_bytes key in
      bytes_decode decrypted in
    match attempt with
    | Ok s => s
    | Raise _ => ""
    end.

(** The two token columns as [store_tokens] writes them, in both of its
    branches. *)
Definition token_columns (access_token refresh_token : pyval)
  : result (string * string) :=
  let? access := encrypt_token access_token in
  let? refresh :=
    if truthy refresh_token then encrypt_token refresh_token else Ok "" in
  Ok (access, refresh).

(** The rows that [store_tokens] looks up. *)
Definition natural_key (user : nat) (platform platform_user_id : string)
  (a : SocialMediaAccount.t) : bool :=
  Nat.eqb (SocialMediaAccount.user a) user
  && String.eqb (SocialMediaAccount.platform a) platform
  && String.eqb (SocialMediaAccount.platform_user_id a) platform_user_id.

(** The update branch of [store_tokens]: the row that [save()] writes for
    the existing [social_account]. *)
Definition updated_account (now : time)
  (access_token refresh_token scope : pyval) (expires_at : option time)
  (user_data : gmap string pyval) (social_account : SocialMediaAccount.t)
  : result SocialMediaAccount.t :=
  let? '(access, refresh) := token_columns access_token refresh_token in
  let? scope_text := char_column "scope" (py_or scope (VStr "")) in
  let? username :=
    char_column "username"
      (dict_get user_data "username"
         (VStr (SocialMediaAccount.username social_account))) in
  let? display_name :=
    char_column "display_name"
      (dict_get user_data "name"
         (VStr (SocialMediaAccount.display_name social_account))) in
  let? email :=
    char_column "email"
      (dict_get user_data "email"
         (VStr (SocialMediaAccount.email social_account))) in
  let? profile_url :=
    char_column "profile_url"
      (dict_get user_data "profile_url"
         (VStr (SocialMediaAccount.profile_url social_account))) in
  let? avatar_url :=
    char_column "avatar_url"
      (dict_get user_data "avatar_url"
         (VStr (SocialMediaAccount.avatar_url social_account))) in
  Ok {| SocialMediaAccount.pk := SocialMediaAccount.pk social_account;
        SocialMediaAccount.user := SocialMediaAccount.user social_account;
        SocialMediaAccount.platform :=
          SocialMediaAccount.platform social_account;
        SocialMediaAccount.platform_user_id :=
          SocialMediaAccount.platform_user_id social_account;
        SocialMediaAccount.username := username;
        SocialMediaAccount.display_name := display_name;
        SocialMediaAccount.email := email;
        SocialMediaAccount.profile_url := profile_url;
        SocialMediaAccount.avatar_url := avatar_url;
        SocialMediaAccount.access_token := access;
        SocialMediaAccount.refresh_token := Some refresh;
        SocialMediaAccount.token_expires_at := expires_at;
        SocialMediaAccount.scope := scope_text;
        SocialMediaAccount.status := "active";
        SocialMediaAccount.last_sync := Some now;
        SocialMediaAccount.follower_count :=
          SocialMediaAccount.follower_count social_account;
        SocialMediaAccount.following_count :=
          SocialMediaAccount.following_count social_account;
        SocialMediaAccount.posts_count :=
          SocialMediaAccount.posts_count social_account;
        SocialMediaAccount.extra_data :=
          user_data ∪ SocialMediaAccount.extra_data social_account |}.

(** The create branch of [store_tokens]: the row that
    [SocialMediaAccount.objects.create(...)] inserts under the key [pk]. *)
Definition created_account (pk user : nat)
  (platform platform_user_id : string)
  (access_token refresh_token scope : pyval) (expires_at : option time)
  (user_data : gmap string pyval) : result SocialMediaAccount.t :=
  let? '(access, refresh) := token_columns access_token refresh_token in
  let? scope_text := char_column "scope" (py_or scope (VStr "")) in
  let? username :=
    char_column "username" (dict_get user_data "username" (VStr "")) in
  let? display_name :=
    char_column "display_name" (dict_get user_data "name" (VStr "")) in
  let? email := char_column "email" (dict_get user_data "email" (VStr "")) in
  let? profile_url :=
    char_column "profile_url" (dict_get user_data "profile_url" (VStr "")) in
  let? avatar_url :=
    char_column "avatar_url" (dict_get user_data "avatar_url" (VStr "")) in
  Ok {| SocialMediaAccount.pk := pk;
        SocialMediaAccount.user := user;
        SocialMediaAccount.platform := platform;
        SocialMediaAccount.platform_user_id := platform_user_id;
        SocialMediaAccount.username := username;
        SocialMediaAccount.display_name := display_name;
        SocialMediaAccount.email := email;
        SocialMediaAccount.profile_url := profile_url;
        SocialMediaAccount.avatar_url := avatar_url;
        SocialMediaAccount.access_token := access;
        SocialMediaAccount.refresh_token := Some refresh;
        SocialMediaAccount.token_expires_at := expires_at;
        SocialMediaAccount.scope := scope_text;
        SocialMediaAccount.status := "active";
        SocialMediaAccount.last_sync := None;
        SocialMediaAccount.follower_count := 0%Z;
        SocialMediaAccount.following_count := 0%Z;
        SocialMediaAccount.posts_count := 0%Z;
        SocialMediaAccount.extra_data := user_data |}.

Definition store_tokens (now : time) (user : nat) (platform : string)
  (access_token refresh_token expires_in scope : pyval)
  (user_data : option (gmap string pyval)) : M SocialMediaAccount.t :=
  (* Calculate expiration time *)
  let! expires_at :=
    lift (if truthy expires_in
          then let? n := py_int expires_in in Ok (Some (now + n)%Z)
          else Ok None) in
  (* Ensure we have user_data and platform_user_id *)
  let missing :=
    raise (Exception ValueError
             ("Missing user_data or platform user ID for " +:+ platform)) in
  match user_data with
  | None => missing
  | Some user_data =>
    if negb (truthy (VDict user_data))
       || negb (truthy (dict_get user_data "id" VNone))
    then missing
    else
      let platform_user_id := py_str (dict_get user_data "id" VNone) in
      try_except
        (let! db := get_db in
         let! social_account :=
           lift (objects_get (accounts db)
                   (natural_key user platform platform_user_id)) in
         (* Update existing account *)
         let! updated :=
           lift (updated_account now access_token refresh_token scope
                   expires_at user_data social_account) in
         let! _ := save_account updated in
         ret updated)
        (fun e =>
           if is_DoesNotExist e then Some (
             (* Create new account *)
             let! db := get_db in
             let! created :=
               lift (created_account (next_pk db) user platform
                       platform_user_id access_token refresh_token scope
                       expires_at user_data) in
             let! _ := fresh_pk in
             let! _ :=
               modify (fun db => set_accounts (accounts db ++ [created]) db) in
             ret created)
           else None)
  end.

(** [requests.post(url, data=data, headers=headers)] *)
Definition requests_post_form (url : string) (data : gmap string pyval)
  (headers : gmap string string) : result Response.t :=
  http {| Request.method := "POST"; Request.url := url;
          Request.params := None; Request.data := Some data;
          Request.json := VNone; Request.headers := headers |}.

Definition basic_credentials (client_id client_secret : string) : string :=
  str_of_bytes
    (Base64.b64encode (str_encode (client_id +:+ ":" +:+ client_secret))).

Definition _revoke_platform_token (social_account : SocialMediaAccount.t)
  (platform : string) : M unit :=
  try_except
    (let access_token :=
       decrypt_token (SocialMediaAccount.access_token social_account) in
     if String.eqb access_token "" then ret tt
     else if String.eqb platform "linkedin" then
       let revoke_url := "https://www.linkedin.com/oauth/v2/revoke" in
       let data : gmap string pyval :=
         {[ "token" := VStr access_token;
            "client_id" := VStr (LINKEDIN_CLIENT_ID settings);
            "client_secret" := VStr (LINKEDIN_CLIENT_SECRET settings) ]} in
       let! response := lift (requests_post_form revoke_url data ∅) in
       ret tt
     else if String.eqb platform "twitter" then
       let revoke_url := "https://api.twitter.com/2/oauth2/revoke" in
       let data : gmap string pyval :=
         {[ "token" := VStr access_token;
            "client_id" := VStr (TWITTER_CLIENT_ID settings) ]} in
       let encoded_credentials :=
         basic_credentials (TWITTER_CLIENT_ID settings)
                           (TWITTER_CLIENT_SECRET settings) in
       let headers : gmap string string :=
         {[ "Authorization" := "Basic " +:+ encoded_credentials;
            "Content-Type" := "application/x-www-form-urlencoded" ]} in
       let! response := lift (requests_post_form revoke_url data headers) in
       ret tt
     else ret tt)
    (fun e => Some (ret tt)).

(** [SessionData.objects.filter(user=user, temp_data__platform=platform)
    .delete()] *)
Definition session_tagged (user : nat) (platform : string)
  (s : SessionData.t) : bool :=
  Nat.eqb (SessionData.user s) user
  && match SessionData.temp_data s !! "platform" with
     | Some (VStr p) => String.eqb p platform
     | _ => false
     end.

Definition cleanup_user_platform_sessions (user : nat) (platform : string)
  : M unit :=
  modify (fun db =>
    set_sessions
      (List.filter (fun s => negb (session_tagged user platform s))
         (sessions db)) db).

(** The rows that [disconnect_account] looks up. *)
Definition of_user_platform (user : nat) (platform : string)
  (a : SocialMediaAccount.t) : bool :=
  Nat.eqb (SocialMediaAccount.user a) user
  && String.eqb (SocialMediaAccount.platform a) platform.

Definition disconnect_account (user : nat) (platform : string) : M bool :=
  try_except
    (let! db := get_db in
     let! social_account :=
       lift (objects_get (accounts db) (of_user_platform user platform)) in
     let i := SocialMediaAccount.pk social_account in
     (* Revoke tokens on the platform side before local cleanup *)
     let! _ := _revoke_platform_token social_account platform in
     (* Clean up API call logs *)
     let! _ :=
       modify (fun db =>
         set_api_call_logs
           (List.filter
              (fun r => negb (Nat.eqb (APICallLog.social_account r) i))
              (api_call_logs db)) db) in
     (* Clean up analytics data *)
     let! _ := delete_related Related.UserAnalytics social_account in
     (* Clean up session data *)
     let! _ :=
       modify (fun db =>
         set_sessions
           (List.filter
              (fun r =>
                 negb (bool_decide (SessionData.social_account r = Some i)))
              (sessions db)) db) in
     (* Clean up platform-specific sessions *)
     let! _ := cleanup_user_platform_sessions user platform in
     (* Delete platform-specific profile data *)
     let! _ :=
       if String.eqb platform "linkedin" then
         delete_related Related.LinkedInProfile social_account
       else if String.eqb platform "twitter" then
         let! _ := delete_related Related.TwitterProfile social_account in
         let! _ := delete_related Related.Tweet social_account in
         let! _ := delete_related Related.TwitterFollower social_account in
         delete_related Related.TwitterHashtag social_account
       else ret tt in
     (* Finally, delete the social media account *)
     let! _ := delete_account social_account in
     ret true)
    (fun e => Some (ret false)).

Definition get_user_social_account (user : nat) (platform : string)
  : M (option SocialMediaAccount.t) :=
  try_except
    (let! db := get_db in
     let! a :=
       lift (objects_get (accounts db)
               (fun a =>
                  Nat.eqb (SocialMediaAccount.user a) user
                  && String.eqb (SocialMediaAccount.platform a) platform
                  && String.eqb (SocialMediaAccount.status a) "active")) in
     ret (Some a))
    (fun e => if is_DoesNotExist e then Some (ret None) else None).

Definition refresh_access_token (social_account : SocialMediaAccount.t)
  : option unit := None.

(** The second component is [social_account] as the call leaves it. *)
Definition get_valid_token (now : time)
  (social_account : SocialMediaAccount.t)
  : M (option string * SocialMediaAccount.t) :=
  if SocialMediaAccount.is_token_expired now social_account then
    let refreshed :=
      if truthy (of_opt (SocialMediaAccount.refresh_token social_account))
      then
        match refresh_access_token social_account with
        | Some _ =>
          Some (decrypt_token (SocialMediaAccount.access_token social_account))
        | None => None
        end
      else None in
    match refreshed with
    | Some token => ret (Some token, social_account)
    | None =>
      (* Mark as expired if refresh failed *)
      let social_account :=
        SocialMediaAccount.set_status "expired" social_account in
      let! _ := save_account social_account in
      ret (None, social_account)
    end
  else
    ret (Some (decrypt_token (SocialMediaAccount.access_token social_account)),
         social_account).

(** ** class APIClient *)

Definition _get_base_url (social_account : SocialMediaAccount.t) : string :=
  let platform := SocialMediaAccount.platform social_account in
  if String.eqb platform "linkedin" then "https://api.linkedin.com/v2"
  else if String.eqb platform "twitter" then "https://api.twitter.com/2"
  else if String.eqb platform "facebook" then "https://graph.facebook.com/v18.0"
  else "".

(** [int(x) if x else None] for a header value. *)
Definition int_if_present (x : option string) : result (option Z) :=
  match x with
  | Some s => if String.eqb s "" then Ok None
              else let? n := int_of_str s in Ok (Some n)
  | None => Ok None
  end.

Definition _log_api_call (social_account : SocialMediaAccount.t)
  (endpoint method : string) (status_code : Z) (response_time : Z)
  (headers : gmap string string) (error_message : string) : M unit :=
  let platform := SocialMediaAccount.platform social_account in
  (* Extract rate limit info from headers *)
  let! '(rate_limit_remaining, rate_limit_reset) :=
    lift (if String.eqb platform "linkedin" then
            Ok (headers_get headers "X-Restli-Protocol-Version", None)
          else if String.eqb platform "twitter" then
            let rate_limit_remaining :=
              headers_get headers "x-rate-limit-remaining" in
            let reset_timestamp := headers_get headers "x-rate-limit-reset" in
            let? rate_limit_reset :=
              match reset_timestamp with
              | Some s =>
                if String.eqb s "" then Ok None
                else let? n := int_of_str s in
                     let? t := fromtimestamp n in Ok (Some t)
              | None => Ok None
              end in
            Ok (rate_limit_remaining, rate_limit_reset)
          else Ok (None, None)) in
  let! remaining := lift (int_if_present rate_limit_remaining) in
  let! pk := fresh_pk in
  modify (fun db =>
    set_api_call_logs
      (api_call_logs db ++
       [{| APICallLog.pk := pk;
           APICallLog.user := SocialMediaAccount.user social_account;
           APICallLog.social_account := SocialMediaAccount.pk social_account;
           APICallLog.endpoint := endpoint;
           APICallLog.method := upper method;
           APICallLog.status_code := status_code;
           APICallLog.response_time := response_time;
           APICallLog.rate_limit_remaining := remaining;
           APICallLog.rate_limit_reset := rate_limit_reset;
           APICallLog.error_message := error_message |}]) db).

(** [response_time] is the latency that the two readings of [time.time()]
    give. *)
Definition make_request (now : time) (response_time : Z)
  (social_account : SocialMediaAccount.t) (endpoint method : string)
  (params : option (gmap string pyval)) (data : pyval)
  (headers : option (gmap string string)) : M (option pyval) :=
  (* Get valid access token *)
  let! '(access_token, social_account) :=
    get_valid_token now social_account in
  if negb (truthy (of_opt access_token)) then ret None
  else
    let access_token := default "" access_token in
    let platform := SocialMediaAccount.platform social_account in
    (* Prepare headers *)
    let headers := default ∅ headers in
    (* Add authorization header (platform-specific) *)
    let headers :=
      if String.eqb platform "linkedin" || String.eqb platform "twitter"
      then <["Authorization" := "Bearer " +:+ access_token]> headers
      else headers in
    let params :=
      if String.eqb platform "linkedin" || String.eqb platform "twitter"
      then params
      else if String.eqb platform "facebook"
      then Some (<["access_token" := VStr access_token]> (default ∅ params))
      else params in
    (* Make request *)
    let url := _get_base_url social_account +:+ "/" +:+ lstrip "/" endpoint in
    let send (m : string) (body : pyval) :=
      http {| Request.method := m; Request.url := url;
              Request.params := params; Request.data := None;
              Request.json := body; Request.headers := headers |} in
    try_except
      (let! response :=
         lift (if String.eqb (upper method) "GET" then send "GET" VNone
               else if String.eqb (upper method) "POST" then send "POST" data
               else if String.eqb (upper method) "PUT" then send "PUT" data
               else if String.eqb (upper method) "DELETE"
               then send "DELETE" VNone
               else Raise (Exception ValueError
                             ("Unsupported HTTP method: " +:+ method))) in
       (* Log API call *)
       let! _ :=
         _log_api_call social_account endpoint method
           (Response.status_code response) response_time
           (Response.headers response) "" in
       if Z.eqb (Response.status_code response) 200 then
         let! payload := lift (Response.json response) in
         ret (Some payload)
       else
         let! _ :=
           _log_api_call social_account endpoint method
             (Response.status_code response) response_time
             (Response.headers response) (Response.text response) in
         ret None)
      (fun e =>
         Some (let! _ :=
                 _log_api_call social_account endpoint method 0
                   response_time ∅ (exn_str e) in
               ret None)).

(** ** class SessionManager *)

(** [secrets.token_bytes(n)] read from a tape of random bytes, and
    [secrets.token_urlsafe(n)]. *)
Definition token_bytes (rng : nat -> byte) (n : nat) : bytes :=
  map rng (seq 0 n).

Definition token_urlsafe (rng : nat -> byte) (n : nat) : string :=
  str_of_bytes
    (rstrip_char "=" (Base64.urlsafe_b64encode (token_bytes rng n))).

Definition create_oauth_session (now : time) (rng : nat -> byte) (user : nat)
  (platform redirect_uri : string) (state code_verifier : option string)
  : M SessionData.t :=
  let state :=
    if negb (truthy (of_opt state)) then token_urlsafe rng 32
    else default "" state in
  let expires_at := (now + 30 * 60)%Z in
  let! pk := fresh_pk in
  let session_data :=
    {| SessionData.pk := pk;
       SessionData.user := user;
       SessionData.social_account := None;
       SessionData.oauth_state := state;
       SessionData.code_verifier :=
         if truthy (of_opt code_verifier) then default "" code_verifier
         else "";
       SessionData.redirect_uri := redirect_uri;
       SessionData.temp_data := {[ "platform" := VStr platform ]};
       SessionData.expires_at := expires_at |} in
  let! _ := modify (fun db => set_sessions (sessions db ++ [session_data]) db) in
  ret session_data.

Definition get_oauth_session (now : time) (state : string)
  : M (option SessionData.t) :=
  try_except
    (let! db := get_db in
     let! session :=
       lift (objects_get (sessions db)
               (fun s => String.eqb (SessionData.oauth_state s) state)) in
     if SessionData.is_expired now session then
       let! _ := delete_session session in
       ret None
     else ret (Some session))
    (fun e => if is_DoesNotExist e then Some (ret None) else None).

Definition cleanup_expired_sessions (now : time) : M unit :=
  modify (fun db =>
    set_sessions
      (List.filter (fun s => negb (SessionData.expires_at s <? now)%Z)
         (sessions db)) db).

(** ** The OAuth views (linkedIn/views.py, twitter/views.py) *)

(** [Model.objects.get_or_create(social_account=a, defaults=...)] on a
    related table whose columns are given by [schema]. *)
Fixpoint store_columns (schema : list (string * column))
  (values : gmap string pyval) : result (gmap string pyval) :=
  match schema with
  | [] => Ok ∅
  | (name, c) :: r =>
    let? v :=
      match values !! name with
      | Some v => store_column c name v
      | None => Ok (column_default c)
      end in
    let? rest := store_columns r values in
    Ok (<[name := v]> rest)
  end.

Definition related_to (m : Related.model) (a : SocialMediaAccount.t)
  (r : Related.t) : bool :=
  Related.model_eqb (Related.table r) m
  && Nat.eqb (Related.social_account r) (SocialMediaAccount.pk a).

Definition get_or_create_related (m : Related.model)
  (schema : list (string * column)) (a : SocialMediaAccount.t)
  (defaults : gmap string pyval) : M (Related.t * bool) :=
  try_except
    (let! db := get_db in
     let! row := lift (objects_get (related db) (related_to m a)) in
     ret (row, false))
    (fun e =>
       if is_DoesNotExist e then Some (
         let! fields := lift (store_columns schema defaults) in
         let! pk := fresh_pk in
         let row :=
           {| Related.table := m; Related.pk := pk;
              Related.social_account := SocialMediaAccount.pk a;
              Related.fields := fields |} in
         let! _ := modify (fun db => set_related (related db ++ [row]) db) in
         ret (row, true))
       else None).

(** [row.save()] after the listed attributes were assigned. *)
Definition save_related (schema : list (string * column)) (row : Related.t)
  (assigned : gmap string pyval) : M unit :=
  let! fields := lift (store_columns schema assigned) in
  let row' :=
    {| Related.table := Related.table row; Related.pk := Related.pk row;
       Related.social_account := Related.social_account row;
       Related.fields := fields ∪ Related.fields row |} in
  modify (fun db =>
    let same r :=
      Related.model_eqb (Related.table r) (Related.table row)
      && Nat.eqb (Related.pk r) (Related.pk row) in
    if existsb same (related db)
    then set_related (map (fun r => if same r then row' else r) (related db)) db
    else set_related (related db ++ [row']) db).

Definition no_cache : gmap string string :=
  {[ "Cache-Control" := "no-cache, no-store, must-revalidate";
     "Pragma" := "no-cache";
     "Expires" := "0" ]}.

(** [messages.error(request, text); return redirect('dashboard')] and the
    like. *)
Definition dashboard (l : messages.level) (text : string) : HttpResponse :=
  {| redirect_to := "dashboard"; message := Some (l, text);
     response_headers := ∅ |}.

Definition requests_get (url : string) (headers : gmap string string)
  : result Response.t :=
  http {| Request.method := "GET"; Request.url := url;
          Request.params := None; Request.data := None;
          Request.json := VNone; Request.headers := headers |}.

(** *** LinkedIn *)

Definition linkedin_login (now : time) (rng : nat -> byte)
  (request : HttpRequest.t) : M HttpResponse :=
  (* Clean up any existing sessions for this user and platform *)
  let! _ :=
    modify (fun db =>
      set_sessions
        (List.filter
           (fun s =>
              negb (session_tagged (HttpRequest.user request) "linkedin" s))
           (sessions db)) db) in
  (* Generate state parameter for security *)
  let state := token_urlsafe rng 32 in
  let timestamp := pretty now in
  let! _ :=
    create_oauth_session now (fun i => rng (32 + i)%nat)
      (HttpRequest.user request) "linkedin"
      (LINKEDIN_REDIRECT_URI settings) (Some state) None in
  let auth_url :=
    "https://www.linkedin.com/oauth/v2/authorization"
    +:+ "?response_type=code"
    +:+ "&client_id=" +:+ LINKEDIN_CLIENT_ID settings
    +:+ "&redirect_uri=" +:+ LINKEDIN_REDIRECT_URI settings
    +:+ "&scope=openid%20profile%20email"
    +:+ "&state=" +:+ state
    +:+ "&prompt=consent"
    +:+ "&approval_prompt=force"
    +:+ "&access_type=offline"
    +:+ "&_t=" +:+ timestamp in
  ret {| redirect_to := auth_url; message := None;
         response_headers := no_cache |}.

Definition linkedin_profile_schema : list (string * column) :=
  [("headline", CharColumn); ("summary", CharColumn);
   ("industry", CharColumn); ("location", CharColumn)].

Definition linkedin_callback (now : time) (request : HttpRequest.t)
  : M HttpResponse :=
  let code := HttpRequest.GET request !! "code" in
  let error := HttpRequest.GET request !! "error" in
  let state := HttpRequest.GET request !! "state" in
  if truthy (of_opt error) then
    ret (dashboard messages.error
           ("LinkedIn authorization failed: " +:+ default "" error))
  else if negb (truthy (of_opt code)) || negb (truthy (of_opt state)) then
    ret (dashboard messages.error "Invalid LinkedIn callback")
  else
    let code := default "" code in
    let state := default "" state in
    (* Verify state parameter and ensure session belongs to current user *)
    let! session_data := get_oauth_session now state in
    match session_data with
    | None =>
      ret (dashboard messages.error "Invalid or expired session state")
    | Some session_data =>
      if negb (Nat.eqb (SessionData.user session_data)
                       (HttpRequest.user request))
      then
        (* Clean up invalid session *)
        let! _ := delete_session session_data in
        ret (dashboard messages.error
               "Session does not belong to current user")
      else
        try_except
          ((* Exchange code for access token *)
           let token_url := "https://www.linkedin.com/oauth/v2/accessToken" in
           let token_data : gmap string pyval :=
             {[ "grant_type" := VStr "authorization_code";
                "code" := VStr code;
                "redirect_uri" := VStr (LINKEDIN_REDIRECT_URI settings);
                "client_id" := VStr (LINKEDIN_CLIENT_ID settings);
                "client_secret" := VStr (LINKEDIN_CLIENT_SECRET settings) ]} in
           let! token_response :=
             lift (requests_post_form token_url token_data ∅) in
           if negb (Z.eqb (Response.status_code token_response) 200) then
             ret (dashboard messages.error
                    "Failed to get access token from LinkedIn")
           else
             let! token_info := lift (Response.json token_response) in
             let! access_token :=
               lift (py_get token_info "access_token" VNone) in
             let! expires_in := lift (py_get token_info "expires_in" VNone) in
             if negb (truthy access_token) then
               ret (dashboard messages.error
                      "No access token received from LinkedIn")
             else
               (* Get user profile information *)
               let! profile_response :=
                 lift (requests_get "https://api.linkedin.com/v2/userinfo"
                         {[ "Authorization" :=
                              "Bearer " +:+ py_str access_token ]}) in
               if negb (Z.eqb (Response.status_code profile_response) 200)
               then
                 ret (dashboard messages.error
                        "Failed to get profile information from LinkedIn")
               else
                 let! profile_data :=
                   lift (Response.json profile_response) in
                 (* Store tokens and user data *)
                 let! user_data :=
                   lift (let? sub := py_get profile_data "sub" VNone in
                         let? email0 := py_get profile_data "email" (VStr "") in
                         let? username :=
                           match email0 with
                           | VStr s => Ok (VStr (split_first "@" s))
                           | v => Raise (attribute_error v "split")
                           end in
                         let? name := py_get profile_data "name" (VStr "") in
                         let? email := py_get profile_data "email" (VStr "") in
                         let? profile :=
                           py_get profile_data "profile" (VStr "") in
                         let? picture :=
                           py_get profile_data "picture" (VStr "") in
                         let? given_name :=
                           py_get profile_data "given_name" (VStr "") in
                         let? family_name :=
                           py_get profile_data "family_name" (VStr "") in
                         Ok (({[ "id" := sub;
                                 "username" := username;
                                 "name" := name;
                                 "email" := email;
                                 "profile_url" := profile;
                                 "avatar_url" := picture;
                                 "given_name" := given_name;
                                 "family_name" := family_name ]})
                             : gmap string pyval)) in
                 let! scope := lift (py_get token_info "scope" (VStr "")) in
                 let! social_account :=
                   store_tokens now (HttpRequest.user request) "linkedin"
                     access_token VNone expires_in scope (Some user_data) in
                 (* Create or update LinkedIn profile *)
                 let! locale := lift (py_get profile_data "locale" (VStr "")) in
                 let! _ :=
                   get_or_create_related Related.LinkedInProfile
                     linkedin_profile_schema social_account
                     {[ "headline" := VStr ""; "summary" := VStr "";
                        "industry" := VStr ""; "location" := locale ]} in
                 (* Clean up session data *)
                 let! _ := delete_session session_data in
                 ret (dashboard messages.success
                        "LinkedIn account connected successfully!"))
          (fun e =>
             Some (ret (dashboard messages.error
                          ("Error connecting LinkedIn account: "
                           +:+ exn_str e))))
    end.

(** *** Twitter *)

Definition twitter_profile_schema : list (string * column) :=
  [("screen_name", CharColumn); ("description", CharColumn);
   ("location", CharColumn); ("followers_count", IntegerColumn);
   ("following_count", IntegerColumn); ("tweet_count", IntegerColumn);
   ("like_count", IntegerColumn); ("is_verified", BooleanColumn);
   ("profile_image_url", CharColumn)].

(** The PKCE pair of [twitter_login], from the random bytes drawn for it. *)
Definition pkce_code_verifier (random : bytes) : result string :=
  let? text := bytes_decode (Base64.urlsafe_b64encode random) in
  Ok (rstrip "=" text).

Definition pkce_code_challenge (code_verifier : string) : result string :=
  let? text :=
    bytes_decode (Base64.urlsafe_b64encode (sha256 (str_encode code_verifier)))
  in
  Ok (rstrip "=" text).

Definition twitter_auth_params (state code_challenge timestamp : string)
  : list (string * string) :=
  [("response_type", "code");
   ("client_id", TWITTER_CLIENT_ID settings);
   ("redirect_uri", TWITTER_REDIRECT_URI settings);
   ("scope", "tweet.read users.read follows.read offline.access");
   ("state", state);
   ("code_challenge", code_challenge);
   ("code_challenge_method", "S256");
   ("force_login", "true");
   ("_t", timestamp)].

Definition twitter_login (now : time) (rng : nat -> byte)
  (request : HttpRequest.t) : M HttpResponse :=
  (* Clean up any existing sessions for this user and platform *)
  let! _ :=
    modify (fun db =>
      set_sessions
        (List.filter
           (fun s =>
              negb (session_tagged (HttpRequest.user request) "twitter" s))
           (sessions db)) db) in
  (* Generate PKCE parameters *)
  let! code_verifier := lift (pkce_code_verifier (token_bytes rng 32)) in
  let! code_challenge := lift (pkce_code_challenge code_verifier) in
  let state := token_urlsafe (fun i => rng (32 + i)%nat) 32 in
  let timestamp := pretty now in
  (* Create session data with PKCE parameters *)
  let! _ :=
    create_oauth_session now (fun i => rng (64 + i)%nat)
      (HttpRequest.user request) "twitter"
      (TWITTER_REDIRECT_URI settings) (Some state) (Some code_verifier) in
  (* Build authorization URL *)
  let auth_params := twitter_auth_params state code_challenge timestamp in
  let auth_url :=
    "https://twitter.com/i/oauth2/authorize?" +:+ urlencode auth_params in
  ret {| redirect_to := auth_url; message := None;
         response_headers := no_cache |}.

Definition twitter_callback (now : time) (request : HttpRequest.t)
  : M HttpResponse :=
  let code := HttpRequest.GET request !! "code" in
  let error := HttpRequest.GET request !! "error" in
  let state := HttpRequest.GET request !! "state" in
  if truthy (of_opt error) then
    ret (dashboard messages.error
           ("Twitter authorization failed: " +:+ default "" error))
  else if negb (truthy (of_opt code)) || negb (truthy (of_opt state)) then
    ret (dashboard messages.error "Invalid Twitter callback")
  else
    let code := default "" code in
    let state := default "" state in
    (* Verify state parameter and get session data *)
    let! session_data := get_oauth_session now state in
    match session_data with
    | None => ret (dashboard messages.error "Invalid session state")
    | Some session_data =>
      if negb (Nat.eqb (SessionData.user session_data)
                       (HttpRequest.user request))
      then ret (dashboard messages.error "Invalid session state")
      else
        try_except
          ((* Exchange code for access token *)
           let token_url := "https://api.twitter.com/2/oauth2/token" in
           let token_data : gmap string pyval :=
             {[ "grant_type" := VStr "authorization_code";
                "code" := VStr code;
                "redirect_uri" := VStr (TWITTER_REDIRECT_URI settings);
                "client_id" := VStr (TWITTER_CLIENT_ID settings);
                "code_verifier" :=
                  VStr (SessionData.code_verifier session_data) ]} in
           (* Create Basic Auth header *)
           let encoded_credentials :=
             basic_credentials (TWITTER_CLIENT_ID settings)
                               (TWITTER_CLIENT_SECRET settings) in
           let headers : gmap string string :=
             {[ "Authorization" := "Basic " +:+ encoded_credentials;
                "Content-Type" := "application/x-www-form-urlencoded" ]} in
           let! token_response :=
             lift (requests_post_form token_url token_data headers) in
           if negb (Z.eqb (Response.status_code token_response) 200) then
             ret (dashboard messages.error
                    "Failed to get access token from Twitter")
           else
             let! token_info := lift (Response.json token_response) in
             let! access_token :=
               lift (py_get token_info "access_token" VNone) in
             let! refresh_token :=
               lift (py_get token_info "refresh_token" VNone) in
             let! expires_in := lift (py_get token_info "expires_in" VNone) in
             if negb (truthy access_token) then
               ret (dashboard messages.error
                      "No access token received from Twitter")
             else
               (* Get user profile information *)
               let! profile_response :=
                 lift (requests_get
                         ("https://api.twitter.com/2/users/me?user.fields="
                          +:+ "description,location,profile_image_url,"
                          +:+ "public_metrics,verified,created_at")
                         {[ "Authorization" :=
                              "Bearer " +:+ py_str access_token ]}) in
               if negb (Z.eqb (Response.status_code profile_response) 200)
               then
                 ret (dashboard messages.error
                        "Failed to get profile information from Twitter")
               else
                 let! body := lift (Response.json profile_response) in
                 let! profile_data := lift (py_get body "data" (VDict ∅)) in
                 let get k dflt := py_get profile_data k dflt in
                 (* Store tokens and user data *)
                 let! user_data :=
                   lift (let? id := get "id" VNone in
                         let? username := get "username" (VStr "") in
                         let? name := get "name" (VStr "") in
                         let? username' := get "username" (VStr "") in
                         let? avatar := get "profile_image_url" (VStr "") in
                         let? description := get "description" (VStr "") in
                         let? location := get "location" (VStr "") in
                         let? verified := get "verified" (VBool false) in
                         let? created_at := get "created_at" (VStr "") in
                         let? public_metrics :=
                           get "public_metrics" (VDict ∅) in
                         Ok (({[ "id" := id;
                                 "username" := username;
                                 "name" := name;
                                 "profile_url" :=
                                   VStr ("https://twitter.com/"
                                         +:+ py_str username');
                                 "avatar_url" := avatar;
                                 "description" := description;
                                 "location" := location;
                                 "verified" := verified;
                                 "created_at" := created_at;
                                 "public_metrics" := public_metrics ]})
                             : gmap string pyval)) in
                 let! scope := lift (py_get token_info "scope" (VStr "")) in
                 let! social_account :=
                   store_tokens now (HttpRequest.user request) "twitter"
                     access_token refresh_token expires_in scope
                     (Some user_data) in
                 (* Create or update Twitter profile *)
                 let! public_metrics := lift (get "public_metrics" (VDict ∅)) in
                 let metric k := py_get public_metrics k (VInt 0) in
                 let profile_values :=
                   let? screen_name := get "username" (VStr "") in
                   let? description := get "description" (VStr "") in
                   let? location := get "location" (VStr "") in
                   let? followers_count := metric "followers_count" in
                   let? following_count := metric "following_count" in
                   let? tweet_count := metric "tweet_count" in
                   let? like_count := metric "like_count" in
                   let? is_verified := get "verified" (VBool false) in
                   let? image := get "profile_image_url" (VStr "") in
                   Ok (({[ "screen_name" := screen_name;
                           "description" := description;
                           "location" := location;
                           "followers_count" := followers_count;
                           "following_count" := following_count;
                           "tweet_count" := tweet_count;
                           "like_count" := like_count;
                           "is_verified" := is_verified;
                           "profile_image_url" := image ]})
                       : gmap string pyval) in
                 let! defaults := lift profile_values in
                 let! '(twitter_profile, created) :=
                   get_or_create_related Related.TwitterProfile
                     twitter_profile_schema social_account defaults in
                 let! _ :=
                   if negb created then
                     (* Update existing profile *)
                     let! assigned := lift profile_values in
                     save_related twitter_profile_schema twitter_profile
                       assigned
                   else ret tt in
                 (* Clean up session data *)
                 let! _ := delete_session session_data in
                 ret (dashboard messages.success
                        "Twitter account connected successfully!"))
          (fun e =>
             Some (ret (dashboard messages.error
                          ("Error connecting Twitter account: "
                           +:+ exn_str e))))
    end.

End Connectly.

(** ** The rest of accounts/models.py, accounts/utils.py and the views *)

(** What the disconnect views answer: the redirect, its headers and the
    cookies that the response tells the browser to drop. *)
Record HttpResponseRedirect : Type := {
  location : string;
  redirect_headers : gmap string string;
  deleted_cookies : list string
}.

(** What the profile views hand to the template. *)
Record ProfileContext : Type := {
  template : string;
  is_connected : bool;
  success : bool;
  context_message : option string;
  profile : option (gmap string pyval)
}.

Section Remaining.

Context (settings : Settings).
Context (dict_repr : gmap string pyval -> string).
Context (http : Request.t -> result Response.t).
(** [django.urls.reverse(name)]: the URL configuration of the project is
    not part of these files. *)
Context (reverse : string -> string).
(** [repr(v)] *)
Context (repr : pyval -> string).

(** *** SocialMediaAccount.disconnect (accounts/models.py) *)

Definition disconnect (self : SocialMediaAccount.t) : M unit :=
  (* Clear sensitive data before deletion *)
  let self :=
    {| SocialMediaAccount.pk := SocialMediaAccount.pk self;
       SocialMediaAccount.user := SocialMediaAccount.user self;
       SocialMediaAccount.platform := SocialMediaAccount.platform self;
       SocialMediaAccount.platform_user_id :=
         SocialMediaAccount.platform_user_id self;
       SocialMediaAccount.username := SocialMediaAccount.username self;
       SocialMediaAccount.display_name :=
         SocialMediaAccount.display_name self;
       SocialMediaAccount.email := SocialMediaAccount.email self;
       SocialMediaAccount.profile_url := SocialMediaAccount.profile_url self;
       SocialMediaAccount.avatar_url := SocialMediaAccount.avatar_url self;
       SocialMediaAccount.access_token := "";
       SocialMediaAccount.refresh_token := Some "";
       SocialMediaAccount.token_expires_at :=
         SocialMediaAccount.token_expires_at self;
       SocialMediaAccount.scope := SocialMediaAccount.scope self;
       SocialMediaAccount.status := "inactive";
       SocialMediaAccount.last_sync := SocialMediaAccount.last_sync self;
       SocialMediaAccount.follower_count :=
         SocialMediaAccount.follower_count self;
       SocialMediaAccount.following_count :=
         SocialMediaAccount.following_count self;
       SocialMediaAccount.posts_count :=
         SocialMediaAccount.posts_count self;
       SocialMediaAccount.extra_data :=
         SocialMediaAccount.extra_data self |} in
  let! _ := save_account self in
  (* Delete the account (cascading will handle related data) *)
  delete_account self.

(** *** class AnalyticsCollector *)

(** What [save()] does with the value of an [IntegerField]: the value is
    converted when the statement is built, and a column without
    [null=True] refuses [None] when the statement is run. *)
Definition integer_prep (name : string) (v : pyval) : result (option Z) :=
  match v with
  | VNone => Ok None
  | _ =>
    match py_int v with
    | Ok n => Ok (Some n)
    | Raise e =>
      Raise (Exception (exn_class_of e)
               ("Field '" +:+ name +:+ "' expected a number but got "
                +:+ repr v +:+ "."))
    end
  end.

Definition not_null (name : string) (v : option Z) : result Z :=
  match v with
  | Some n => Ok n
  | None =>
    Raise (Exception IntegrityError
             ("NOT NULL constraint failed: " +:+ name))
  end.

Definition with_metrics (follower_count following_count posts_count : Z)
  (last_sync : option time) (a : SocialMediaAccount.t)
  : SocialMediaAccount.t :=
  {| SocialMediaAccount.pk := SocialMediaAccount.pk a;
     SocialMediaAccount.user := SocialMediaAccount.user a;
     SocialMediaAccount.platform := SocialMediaAccount.platform a;
     SocialMediaAccount.platform_user_id :=
       SocialMediaAccount.platform_user_id a;
     SocialMediaAccount.username := SocialMediaAccount.username a;
     SocialMediaAccount.display_name := SocialMediaAccount.display_name a;
     SocialMediaAccount.email := SocialMediaAccount.email a;
     SocialMediaAccount.profile_url := SocialMediaAccount.profile_url a;
     SocialMediaAccount.avatar_url := SocialMediaAccount.avatar_url a;
     SocialMediaAccount.access_token := SocialMediaAccount.access_token a;
     SocialMediaAccount.refresh_token := SocialMediaAccount.refresh_token a;
     SocialMediaAccount.token_expires_at :=
       SocialMediaAccount.token_expires_at a;
     SocialMediaAccount.scope := SocialMediaAccount.scope a;
     SocialMediaAccount.status := SocialMediaAccount.status a;
     SocialMediaAccount.last_sync := last_sync;
     SocialMediaAccount.follower_count := follower_count;
     SocialMediaAccount.following_count := following_count;
     SocialMediaAccount.posts_count := posts_count;
     SocialMediaAccount.extra_data := SocialMediaAccount.extra_data a |}.

(** Returns [social_account] as the call leaves it. *)
Definition update_profile_metrics (now : time)
  (social_account : SocialMediaAccount.t) (metrics_data : pyval)
  : M SocialMediaAccount.t :=
  let platform := SocialMediaAccount.platform social_account in
  let stored_followers := VInt (SocialMediaAccount.follower_count social_account) in
  let stored_following := VInt (SocialMediaAccount.following_count social_account) in
  let stored_posts := VInt (SocialMediaAccount.posts_count social_account) in
  let! '(followers, following, posts) :=
    lift (if String.eqb platform "linkedin" then
            let? followers := py_get metrics_data "connection_count" (VInt 0) in
            Ok (followers, stored_following, stored_posts)
          else if String.eqb platform "twitter" then
            let? followers := py_get metrics_data "followers_count" (VInt 0) in
            let? following := py_get metrics_data "following_count" (VInt 0) in
            let? posts := py_get metrics_data "tweet_count" (VInt 0) in
            Ok (followers, following, posts)
          else Ok (stored_followers, stored_following, stored_posts)) in
  (* social_account.save() *)
  let! followers := lift (integer_prep "follower_count" followers) in
  let! following := lift (integer_prep "following_count" following) in
  let! posts := lift (integer_prep "posts_count" posts) in
  let! follower_count := lift (not_null "follower_count" followers) in
  let! following_count := lift (not_null "following_count" following) in
  let! posts_count := lift (not_null "posts_count" posts) in
  let social_account :=
    with_metrics follower_count following_count posts_count (Some now)
      social_account in
  let! _ := save_account social_account in
  ret social_account.

(** [timezone.now().date()]: the day of an instant, counted from the
    epoch. *)
Definition date_of (now : time) : Z := (now / 86400)%Z.

(** The rows that [collect_daily_analytics] looks up. *)
Definition analytics_of (user social_account : nat) (date : Z)
  (r : Related.t) : bool :=
  Related.model_eqb (Related.table r) Related.UserAnalytics
  && Nat.eqb (Related.social_account r) social_account
  && match Related.fields r !! "user" with
     | Some (VInt u) => Z.eqb u (Z.of_nat user)
     | _ => false
     end
  && match Related.fields r !! "date" with
     | Some (VInt d) => Z.eqb d date
     | _ => false
     end.

Definition collect_daily_analytics (now : time)
  (social_account : SocialMediaAccount.t) (date : option Z) : M Related.t :=
  let date :=
    match date with
    | None => date_of now
    | Some d => d
    end in
  let user := SocialMediaAccount.user social_account in
  try_except
    (let! db := get_db in
     let! analytics :=
       lift (objects_get (related db)
               (analytics_of user (SocialMediaAccount.pk social_account) date))
     in
     ret analytics)
    (fun e =>
       if is_DoesNotExist e then Some (
         let! pk := fresh_pk in
         let analytics :=
           {| Related.table := Related.UserAnalytics;
              Related.pk := pk;
              Related.social_account := SocialMediaAccount.pk social_account;
              Related.fields :=
                <["user" := VInt (Z.of_nat user)]> (<["date" := VInt date]>
                {[ "likes_received" := VInt 0;
                   "comments_received" := VInt 0;
                   "shares_received" := VInt 0;
                   "profile_views" := VInt 0;
                   "posts_published" := VInt 0;
                   "likes_given" := VInt 0;
                   "comments_made" := VInt 0;
                   "followers_gained" := VInt 0;
                   "followers_lost" := VInt 0;
                   "following_gained" := VInt 0;
                   "following_lost" := VInt 0;
                   "custom_metrics" := VDict ∅ ]}) |} in
         let! _ :=
           modify (fun db => set_related (related db ++ [analytics]) db) in
         ret analytics)
       else None).

(** *** The disconnect views *)

Definition no_cache_private : gmap string string :=
  {[ "Cache-Control" := "no-cache, no-store, must-revalidate, private";
     "Pragma" := "no-cache";
     "Expires" := "0" ]}.

Definition linkedin_disconnect (now : time) (request : HttpRequest.t)
  : M (messages.level * string * HttpResponseRedirect) :=
  let! message :=
    if String.eqb (HttpRequest.method request) "POST" then
      let! success :=
        disconnect_account settings http (HttpRequest.user request) "linkedin"
      in
      if success then
        ret (messages.success,
             "✅ LinkedIn account disconnected successfully! "
             +:+ "All data has been removed.")
      else
        ret (messages.warning, "⚠️ No LinkedIn account found to disconnect.")
    else ret (messages.error, "❌ Invalid request method.") in
  (* Create response with cache-busting headers and disconnected parameter;
     clear any LinkedIn-related cookies *)
  let response :=
    {| location := reverse "linkedin_profile";
       redirect_headers := no_cache_private;
       deleted_cookies := ["linkedin_oauth_state"; "linkedin_session"] |} in
  (* Add query parameter to trigger JavaScript cache clearing *)
  let redirect_url := reverse "linkedin_profile" in
  let params := urlencode [("disconnected", "true"); ("_", pretty now)] in
  let full_url := redirect_url +:+ "?" +:+ params in
  let response :=
    {| location := full_url;
       redirect_headers := no_cache_private;
       deleted_cookies := [] |} in
  ret (message, response).

Definition twitter_disconnect (now : time) (request : HttpRequest.t)
  : M (messages.level * string * HttpResponseRedirect) :=
  let! message :=
    if String.eqb (HttpRequest.method request) "POST" then
      let! success :=
        disconnect_account settings http (HttpRequest.user request) "twitter"
      in
      if success then
        ret (messages.success,
             "✅ Twitter account disconnected successfully! "
             +:+ "All data has been removed.")
      else
        ret (messages.warning, "⚠️ No Twitter account found to disconnect.")
    else ret (messages.error, "❌ Invalid request method.") in
  let response :=
    {| location := reverse "twitter_profile";
       redirect_headers := no_cache_private;
       deleted_cookies := ["twitter_oauth_state"; "twitter_session"] |} in
  let redirect_url := reverse "twitter_profile" in
  let params := urlencode [("disconnected", "true"); ("_", pretty now)] in
  let full_url := redirect_url +:+ "?" +:+ params in
  let response :=
    {| location := full_url;
       redirect_headers := no_cache_private;
       deleted_cookies := [] |} in
  ret (message, response).

(** *** The profile views *)

(** [getattr(social_account, name, None)] for the reverse side of the
    one-to-one field of a profile table. *)
Definition related_profile (m : Related.model) (a : SocialMediaAccount.t)
  : M (option Related.t) :=
  try_except
    (let! db := get_db in
     let! row := lift (objects_get (related db) (related_to m a)) in
     ret (Some row))
    (fun e => if is_DoesNotExist e then Some (ret None) else None).

Definition field_or_none (row : Related.t) (name : string) : pyval :=
  dict_get (Related.fields row) name VNone.

Definition linkedin_profile (request : HttpRequest.t) : M ProfileContext :=
  (* Use the utility function to get user's social account *)
  let! social_account :=
    get_user_social_account (HttpRequest.user request) "linkedin" in
  match social_account with
  | None =>
    ret {| template := "linkedin/profile.html";
           is_connected := false;
           success := false;
           context_message :=
             Some "Click the link below to connect your LinkedIn account";
           profile := None |}
  | Some social_account =>
    let! linkedin_profile :=
      related_profile Related.LinkedInProfile social_account in
    let extra_data := SocialMediaAccount.extra_data social_account in
    if truthy (match linkedin_profile with
               | Some _ => VBool true
               | None => VNone
               end)
       && truthy (VDict extra_data)
    then
      (* Format profile data to match template expectations *)
      ret {| template := "linkedin/profile.html";
             is_connected := true;
             success := true;
             context_message := None;
             profile :=
               Some {[ "sub" :=
                         VStr (SocialMediaAccount.platform_user_id
                                 social_account);
                       "name" :=
                         VStr (SocialMediaAccount.display_name social_account);
                       "given_name" :=
                         dict_get extra_data "given_name" (VStr "");
                       "family_name" :=
                         dict_get extra_data "family_name" (VStr "");
                       "email" :=
                         VStr (SocialMediaAccount.email social_account);
                       "picture" :=
                         VStr (SocialMediaAccount.avatar_url social_account);
                       "locale" :=
                         dict_get extra_data "locale" (VStr "Not available");
                       "profile" :=
                         VStr (SocialMediaAccount.profile_url social_account)
                    ]} |}
    else
      (* Account exists but missing profile data: basic profile data.
         [social_account] is an object, hence true: the last branch of the
         source is never taken. *)
      ret {| template := "linkedin/profile.html";
             is_connected := true;
             success := true;
             context_message := None;
             profile :=
               Some {[ "sub" :=
                         VStr (SocialMediaAccount.platform_user_id
                                 social_account);
                       "name" :=
                         py_or (VStr (SocialMediaAccount.display_name
                                        social_account))
                               (VStr "Name not available");
                       "given_name" := VStr "Not available";
                       "family_name" := VStr "Not available";
                       "email" :=
                         py_or (VStr (SocialMediaAccount.email social_account))
                               (VStr "Email not available");
                       "picture" :=
                         VStr (SocialMediaAccount.avatar_url social_account);
                       "locale" := VStr "Not available";
                       "profile" :=
                         VStr (SocialMediaAccount.profile_url social_account)
                    ]} |}
  end.

Definition twitter_profile (request : HttpRequest.t) : M ProfileContext :=
  let! social_account :=
    get_user_social_account (HttpRequest.user request) "twitter" in
  match social_account with
  | None =>
    ret {| template := "twitter/profile.html";
           is_connected := false;
           success := false;
           context_message :=
             Some "Click the link below to connect your Twitter account";
           profile := None |}
  | Some social_account =>
    let! twitter_profile :=
      related_profile Related.TwitterProfile social_account in
    match twitter_profile with
    | Some twitter_profile =>
      ret {| template := "twitter/profile.html";
             is_connected := true;
             success := true;
             context_message := None;
             profile :=
               Some {[ "id" :=
                         VStr (SocialMediaAccount.platform_user_id
                                 social_account);
                       "name" :=
                         VStr (SocialMediaAccount.display_name social_account);
                       "username" :=
                         VStr (SocialMediaAccount.username social_account);
                       "description" :=
                         field_or_none twitter_profile "description";
                       "profile_image_url" :=
                         field_or_none twitter_profile "profile_image_url";
                       "public_metrics" :=
                         VDict
                           {[ "followers_count" :=
                                field_or_none twitter_profile "followers_count";
                              "following_count" :=
                                field_or_none twitter_profile "following_count";
                              "tweet_count" :=
                                field_or_none twitter_profile "tweet_count";
                              "listed_count" := VInt 0 ]} ]} |}
    | None =>
      ret {| template := "twitter/profile.html";
             is_connected := true;
             success := false;
             context_message :=
               Some ("Twitter account connected but profile data is being "
                     +:+ "loaded...");
             profile := None |}
    end
  end.

End Remaining.

(** ** Definitions used by the proofs *)

(** Every byte, for properties checked by enumeration. *)
Definition all_bytes : bytes := map ascii_of_nat (seq 0 256).

Module Base64Check.
Import Base64.

(** The second and third characters of a quad. *)
Definition mid1 (a b : byte) : N := N.lor (N.shiftl (lo2 a) 4) (hi4 b).
Definition mid2 (b c : byte) : N := N.lor (N.shiftl (lo4 b) 2) (hi2 c).

(** The character of [n] is not the pad and decodes to [n]. *)
Definition sextet_ok (n : N) : bool :=
  match a2b (b2a n) with
  | Some m => N.eqb m n
  | None => false
  end && negb (Ascii.eqb (b2a n) pad).

Definition pair_ok (a b : byte) : bool :=
  sextet_ok (hi6 a) && sextet_ok (lo6 a) && sextet_ok (mid1 a b)
  && sextet_ok (mid2 a b)
  && Ascii.eqb (ascii_of_N (N.lor (N.shiftl (hi6 a) 2) (N.shiftr (mid1 a b) 4))) a
  && N.eqb (N.land (mid1 a b) 15) (hi4 b)
  && Ascii.eqb (ascii_of_N (N.lor (N.shiftl (hi4 a) 4) (N.shiftr (mid2 a b) 2))) a
  && N.eqb (N.land (mid2 a b) 3) (hi2 b)
  && Ascii.eqb (ascii_of_N (N.lor (N.shiftl (hi2 a) 6) (lo6 a))) a.

End Base64Check.

(** The URL-safe base64 encoding without padding, as RFC 7636 words it for
    PKCE: every three bytes give four characters of the URL-safe alphabet,
    one trailing byte gives two characters and two trailing bytes give
    three; no [=] is written. *)
Fixpoint base64url_nopad (s : bytes) : bytes :=
  let enc n := Base64.urlsafe_translate (Base64.b2a n) in
  match s with
  | [] => []
  | [a] => [enc (Base64.hi6 a); enc (N.shiftl (Base64.lo2 a) 4)]
  | [a; b] =>
    [enc (Base64.hi6 a); enc (Base64Check.mid1 a b);
     enc (N.shiftl (Base64.lo4 b) 2)]
  | a :: b :: c :: r =>
    enc (Base64.hi6 a) :: enc (Base64Check.mid1 a b)
    :: enc (Base64Check.mid2 b c) :: enc (Base64.lo6 c)
    :: base64url_nopad r
  end.

(** A callback with a code and the state of the stored, unexpired session
    [s], sent by a user who does not own [s]. *)
Record foreign_callback (now : time) (request : HttpRequest.t) (db : DB)
  (s : SessionData.t) : Prop := {
  fc_error : HttpRequest.GET request !! "error" = None;
  fc_code : exists code, HttpRequest.GET request !! "code" = Some code
                         /\ code <> "";
  fc_state : HttpRequest.GET request !! "state"
             = Some (SessionData.oauth_state s);
  fc_state_text : SessionData.oauth_state s <> "";
  fc_keys : List.NoDup (map SessionData.pk (sessions db));
  fc_stored : In s (sessions db);
  fc_only : forall r, In r (sessions db) ->
              SessionData.oauth_state r = SessionData.oauth_state s -> r = s;
  fc_live : (now <= SessionData.expires_at s)%Z;
  fc_foreign : SessionData.user s <> HttpRequest.user request
}.

(** The entry that [_log_api_call] writes when the headers hold no
    rate-limit information. *)
Definition plain_entry (pk : nat) (a : SocialMediaAccount.t)
  (endpoint method : string) (status_code response_time : Z)
  (error_message : string) : APICallLog.t :=
  {| APICallLog.pk := pk;
     APICallLog.user := SocialMediaAccount.user a;
     APICallLog.social_account := SocialMediaAccount.pk a;
     APICallLog.endpoint := endpoint;
     APICallLog.method := upper method;
     APICallLog.status_code := status_code;
     APICallLog.response_time := response_time;
     APICallLog.rate_limit_remaining := None;
     APICallLog.rate_limit_reset := None;
     APICallLog.error_message := error_message |}.

(** An account whose token is usable as it is. *)
Definition token_usable (settings : Settings) (now : time)
  (a : SocialMediaAccount.t) : Prop :=
  SocialMediaAccount.is_token_expired now a = false
  /\ decrypt_token settings (SocialMediaAccount.access_token a) <> "".

(** Every account row of [db'] was already in [db] or has an empty refresh
    token. *)
Definition no_new_refresh (db db' : DB) : Prop :=
  forall r, In r (accounts db') ->
    In r (accounts db) \/ SocialMediaAccount.refresh_token r = Some "".

Definition keeps {A : Type} (m : M A) : Prop :=
  forall db, no_new_refresh db (snd (m db)).

(** The update branch as the specification words it: a display field is
    overwritten only where the new value is non-empty and keeps the stored
    value otherwise. *)
Definition overwrites_only_nonempty : Prop :=
  forall settings dict_repr now user platform access_token refresh_token
         expires_in scope (ud : gmap string pyval) db db' old acc,
    List.filter
      (natural_key user platform (py_str dict_repr (dict_get ud "id" VNone)))
      (accounts db) = [old] ->
    store_tokens settings dict_repr now user platform access_token
      refresh_token expires_in scope (Some ud) db = (Ok acc, db') ->
    let kept (key : string) (stored : string) :=
      if truthy (dict_get ud key VNone)
      then py_str dict_repr (dict_get ud key VNone)
      else stored in
    SocialMediaAccount.username acc
    = kept "username" (SocialMediaAccount.username old)
    /\ SocialMediaAccount.display_name acc
       = kept "name" (SocialMediaAccount.display_name old)
    /\ SocialMediaAccount.email acc
       = kept "email" (SocialMediaAccount.email old)
    /\ SocialMediaAccount.profile_url acc
       = kept "profile_url" (SocialMediaAccount.profile_url old)
    /\ SocialMediaAccount.avatar_url acc
       = kept "avatar_url" (SocialMediaAccount.avatar_url old).

(** ** Concrete data for the examples *)

Module EX.

Definition settings : Settings :=
  {| SECRET_KEY := "django-insecure-k3y";
     LINKEDIN_CLIENT_ID := "li-client";
     LINKEDIN_CLIENT_SECRET := "li-secret";
     LINKEDIN_REDIRECT_URI := "https://app.example/linkedin/callback/";
     TWITTER_CLIENT_ID := "tw-client";
     TWITTER_CLIENT_SECRET := "tw-secret";
     TWITTER_REDIRECT_URI := "https://app.example/twitter/callback/" |}.

Definition access_token : string := "AQX-token/9f+é".

Definition cipher (s : string) : string :=
  match encrypt_token settings (VStr s) with
  | Ok c => c
  | Raise _ => ""
  end.

Definition dict_repr (d : gmap string pyval) : string := "{...}".

(** A stand-in for the hash function. *)
Definition digest (b : bytes) : bytes := rev b.

Definition rng (i : nat) : byte := ascii_of_nat (7 * i + 3).

(** A network that is down, and one that answers 404 to everything. *)
Definition offline (rq : Request.t) : result Response.t :=
  Raise (Exception RequestException "Connection refused").

Definition not_found (rq : Request.t) : result Response.t :=
  Ok {| Response.status_code := 404%Z;
        Response.headers := ∅;
        Response.text := "Not Found";
        Response.json := Raise (Exception JSONDecodeError "Expecting value") |}.

(** LinkedIn answering 200 with its protocol version header. *)
Definition restli (rq : Request.t) : result Response.t :=
  Ok {| Response.status_code := 200%Z;
        Response.headers := {[ "x-restli-protocol-version" := "2.0.0" ]};
        Response.text := "{}";
        Response.json := Ok (VDict ∅) |}.

Definition now : time := 1000%Z.

(** User 1 has two LinkedIn identities, user 2 a Twitter account whose
    token ran out. *)
Definition alice : SocialMediaAccount.t :=
  {| SocialMediaAccount.pk := 1;
     SocialMediaAccount.user := 1;
     SocialMediaAccount.platform := "linkedin";
     SocialMediaAccount.platform_user_id := "li-1";
     SocialMediaAccount.username := "alice";
     SocialMediaAccount.display_name := "Alice";
     SocialMediaAccount.email := "alice@example.org";
     SocialMediaAccount.profile_url := "";
     SocialMediaAccount.avatar_url := "";
     SocialMediaAccount.access_token := cipher access_token;
     SocialMediaAccount.refresh_token := Some (cipher "refresh-1");
     SocialMediaAccount.token_expires_at := Some 9000%Z;
     SocialMediaAccount.scope := "openid profile email";
     SocialMediaAccount.status := "active";
     SocialMediaAccount.last_sync := None;
     SocialMediaAccount.follower_count := 0%Z;
     SocialMediaAccount.following_count := 0%Z;
     SocialMediaAccount.posts_count := 0%Z;
     SocialMediaAccount.extra_data := {[ "locale" := VStr "en" ]} |}.

Definition alice_second : SocialMediaAccount.t :=
  {| SocialMediaAccount.pk := 2;
     SocialMediaAccount.user := 1;
     SocialMediaAccount.platform := "linkedin";
     SocialMediaAccount.platform_user_id := "li-2";
     SocialMediaAccount.username := "alice.work";
     SocialMediaAccount.display_name := "Alice at work";
     SocialMediaAccount.email := "alice@work.example";
     SocialMediaAccount.profile_url := "";
     SocialMediaAccount.avatar_url := "";
     SocialMediaAccount.access_token := cipher "second-token";
     SocialMediaAccount.refresh_token := Some "";
     SocialMediaAccount.token_expires_at := None;
     SocialMediaAccount.scope := "";
     SocialMediaAccount.status := "active";
     SocialMediaAccount.last_sync := None;
     SocialMediaAccount.follower_count := 0%Z;
     SocialMediaAccount.following_count := 0%Z;
     SocialMediaAccount.posts_count := 0%Z;
     SocialMediaAccount.extra_data := ∅ |}.

Definition bob : SocialMediaAccount.t :=
  {| SocialMediaAccount.pk := 3;
     SocialMediaAccount.user := 2;
     SocialMediaAccount.platform := "twitter";
     SocialMediaAccount.platform_user_id := "tw-7";
     SocialMediaAccount.username := "bob";
     SocialMediaAccount.display_name := "Bob";
     SocialMediaAccount.email := "";
     SocialMediaAccount.profile_url := "https://twitter.com/bob";
     SocialMediaAccount.avatar_url := "";
     SocialMediaAccount.access_token := cipher "bob-token";
     SocialMediaAccount.refresh_token := None;
     SocialMediaAccount.token_expires_at := Some 900%Z;
     SocialMediaAccount.scope := "tweet.read";
     SocialMediaAccount.status := "active";
     SocialMediaAccount.last_sync := None;
     SocialMediaAccount.follower_count := 0%Z;
     SocialMediaAccount.following_count := 0%Z;
     SocialMediaAccount.posts_count := 0%Z;
     SocialMediaAccount.extra_data := ∅ |}.

(** A session of user 1 that ran out and one that is still good. *)
Definition stale : SessionData.t :=
  {| SessionData.pk := 10;
     SessionData.user := 1;
     SessionData.social_account := None;
     SessionData.oauth_state := "state-stale";
     SessionData.code_verifier := "";
     SessionData.redirect_uri := "https://app.example/linkedin/callback/";
     SessionData.temp_data := {[ "platform" := VStr "linkedin" ]};
     SessionData.expires_at := 500%Z |}.

Definition live : SessionData.t :=
  {| SessionData.pk := 11;
     SessionData.user := 1;
     SessionData.social_account := None;
     SessionData.oauth_state := "state-live";
     SessionData.code_verifier := "verifier";
     SessionData.redirect_uri := "https://app.example/twitter/callback/";
     SessionData.temp_data := {[ "platform" := VStr "twitter" ]};
     SessionData.expires_at := 5000%Z |}.

Definition bob_log : APICallLog.t :=
  {| APICallLog.pk := 20;
     APICallLog.user := 2;
     APICallLog.social_account := 3;
     APICallLog.endpoint := "users/me";
     APICallLog.method := "GET";
     APICallLog.status_code := 200%Z;
     APICallLog.response_time := 12%Z;
     APICallLog.rate_limit_remaining := Some 74%Z;
     APICallLog.rate_limit_reset := None;
     APICallLog.error_message := "" |}.

Definition bob_profile : Related.t :=
  {| Related.table := Related.TwitterProfile;
     Related.pk := 30;
     Related.social_account := 3;
     Related.fields := {[ "screen_name" := VStr "bob" ]} |}.

Definition db : DB :=
  {| accounts := [alice; alice_second; bob];
     sessions := [stale; live];
     api_call_logs := [bob_log];
     related := [bob_profile];
     next_pk := 40 |}.

(** The storage before user 1 connected the second identity. *)
Definition before : DB :=
  {| accounts := [alice; bob];
     sessions := [stale; live];
     api_call_logs := [bob_log];
     related := [bob_profile];
     next_pk := 40 |}.

(** The callback of user 2 with the state of the session of user 1. *)
Definition foreign_request : HttpRequest.t :=
  {| HttpRequest.user := 2;
     HttpRequest.method := "GET";
     HttpRequest.GET := {[ "code" := "abc"; "state" := "state-live" ]} |}.

(** A profile that comes back with an empty name. *)
Definition nameless : gmap string pyval :=
  {[ "id" := VStr "li-1"; "name" := VStr "" ]}.

(** User 1 connects the first LinkedIn identity again; the profile has no
    name and the answer of the token endpoint has no refresh token. *)
Definition reauth : result SocialMediaAccount.t * DB :=
  store_tokens settings dict_repr now 1 "linkedin" (VStr "new-token") VNone
    VNone VNone (Some nameless) db.

Definition reauth_account : SocialMediaAccount.t :=
  match fst reauth with
  | Ok a => a
  | Raise _ => alice
  end.

End EX.

(** The natural key of an account row. *)
Definition natural_key_of (a : SocialMediaAccount.t)
  : nat * string * string :=
  (SocialMediaAccount.user a, SocialMediaAccount.platform a,
   SocialMediaAccount.platform_user_id a).

(** A well-formed table of accounts: primary keys are distinct and below the
    counter, and no two rows share a natural key. *)
Definition accounts_ok (db : DB) : Prop :=
  List.NoDup (map SocialMediaAccount.pk (accounts db))
  /\ List.NoDup (map natural_key_of (accounts db))
  /\ (forall r, In r (accounts db) -> SocialMediaAccount.pk r < next_pk db).


(** The characters of the URL-safe alphabet pass [quote_plus] unchanged. *)
Definition urlsafe_char_ok (n : N) : bool :=
  is_unreserved (Base64.urlsafe_translate (Base64.b2a n)).

Definition urlsafe_pair_ok (a b : byte) : bool :=
  urlsafe_char_ok (Base64.hi6 a) && urlsafe_char_ok (Base64.lo6 a)
  && urlsafe_char_ok (Base64Check.mid1 a b)
  && urlsafe_char_ok (Base64Check.mid2 a b).

(** A callback with a code and the state of the stored, unexpired session
    [s] of the user who sends it. *)
Record own_callback (now : time) (request : HttpRequest.t) (db : DB)
  (s : SessionData.t) : Prop := {
  oc_error : truthy (of_opt (HttpRequest.GET request !! "error")) = false;
  oc_code : exists code, HttpRequest.GET request !! "code" = Some code
                         /\ code <> "";
  oc_state : HttpRequest.GET request !! "state"
             = Some (SessionData.oauth_state s);
  oc_state_text : SessionData.oauth_state s <> "";
  oc_keys : List.NoDup (map SessionData.pk (sessions db));
  oc_stored : In s (sessions db);
  oc_only : forall r, In r (sessions db) ->
              SessionData.oauth_state r = SessionData.oauth_state s -> r = s;
  oc_live : (now <= SessionData.expires_at s)%Z;
  oc_own : SessionData.user s = HttpRequest.user request
}.

(** Every answer of [m] satisfies [P]. *)
Definition yields {A : Type} (P : A -> Prop) (m : M A) : Prop :=
  forall db,
    match fst (m db) with
    | Ok a => P a
    | Raise _ => True
    end.

(** What a login view leaves in storage: the sessions tagged for the user
    and the platform are replaced by the one new session [s], which runs
    out in 30 minutes; nothing else changes. *)
Definition login_session (user : nat) (platform : string) (now : time)
  (db db' : DB) (s : SessionData.t) : Prop :=
  sessions db'
  = (List.filter (fun r => negb (session_tagged user platform r))
       (sessions db) ++ [s])%list
  /\ session_tagged user platform s = true
  /\ SessionData.pk s = next_pk db
  /\ SessionData.expires_at s = (now + 1800)%Z
  /\ accounts db' = accounts db
  /\ api_call_logs db' = api_call_logs db
  /\ related db' = related db.

(** ** More concrete data *)

Module Sample.

(** An instant at which the token of [EX.alice] has run out. *)
Definition later : time := 10000%Z.

(** A profile that names nobody. *)
Definition anonymous : gmap string pyval := {[ "name" := VStr "Nobody" ]}.

(** User 2 connects a LinkedIn identity for the first time. *)
Definition newcomer : gmap string pyval :=
  {[ "id" := VStr "li-9"; "username" := VStr "bob";
     "name" := VStr "Bob B." ]}.

Definition connect : result SocialMediaAccount.t * DB :=
  store_tokens EX.settings EX.dict_repr EX.now 2 "linkedin"
    (VStr "fresh-token") VNone (VInt 3600) (VStr "openid")
    (Some newcomer) EX.db.

Definition connect_account : SocialMediaAccount.t :=
  match fst connect with
  | Ok a => a
  | Raise _ => EX.bob
  end.

(** Callbacks of user 1: with the state of the session [EX.live], with an
    error from the platform, and with a state that nobody stored. *)
Definition own_request : HttpRequest.t :=
  {| HttpRequest.user := 1;
     HttpRequest.method := "GET";
     HttpRequest.GET := {[ "code" := "abc"; "state" := "state-live" ]} |}.

Definition denied_request : HttpRequest.t :=
  {| HttpRequest.user := 1;
     HttpRequest.method := "GET";
     HttpRequest.GET := {[ "error" := "access_denied" ]} |}.

Definition unknown_request : HttpRequest.t :=
  {| HttpRequest.user := 1;
     HttpRequest.method := "GET";
     HttpRequest.GET := {[ "code" := "abc"; "state" := "state-unknown" ]} |}.

(** The platforms granting a token and answering with the profile. *)
Definition answer (body : gmap string pyval) : result Response.t :=
  Ok {| Response.status_code := 200%Z;
        Response.headers := ∅;
        Response.text := "";
        Response.json := Ok (VDict body) |}.

Definition linkedin_api (rq : Request.t) : result Response.t :=
  if String.eqb (Request.method rq) "POST" then
    answer {[ "access_token" := VStr "li-token";
              "expires_in" := VInt 5184000;
              "scope" := VStr "openid,profile,email" ]}
  else
    answer {[ "sub" := VStr "li-1"; "name" := VStr "Alice A.";
              "email" := VStr "alice@example.org";
              "locale" := VStr "en_US" ]}.


Definition linkedin_connected : result HttpResponse * DB :=
  linkedin_callback EX.settings EX.dict_repr linkedin_api EX.now own_request
    EX.db.


(** The analytics of [EX.alice] for the day of [EX.now]. *)
Definition collected : result Related.t * DB :=
  collect_daily_analytics EX.now EX.alice None EX.db.

Definition collected_row : Related.t :=
  match fst collected with
  | Ok r => r
  | Raise _ => EX.bob_profile
  end.

(** User 2 has a Twitter account and no profile row yet. *)
Definition loading : DB :=
  {| accounts := [EX.bob];
     sessions := [];
     api_call_logs := [];
     related := [];
     next_pk := 40 |}.

Definition bob_request : HttpRequest.t :=
  {| HttpRequest.user := 2;
     HttpRequest.method := "GET";
     HttpRequest.GET := ∅ |}.



End Sample.

(** * Theorems *)

Set Default Proof Using "Type".

(** ** Enumerating bytes *)

Lemma all_bytes_complete (b : byte) : In b all_bytes.
Proof.
  unfold all_bytes. rewrite <- (ascii_nat_embedding b).
  apply in_map, in_seq. pose proof (nat_ascii_bounded b). lia.
Qed.

Lemma forall_byte (P : byte -> bool) :
  forallb P all_bytes = true -> forall b, P b = true.
Proof.
  intros H b. rewrite forallb_forall in H. apply H, all_bytes_complete.
Qed.

Lemma forall_byte2 (P : byte -> byte -> bool) :
  forallb (fun a => forallb (P a) all_bytes) all_bytes = true ->
  forall a b, P a b = true.
Proof.
  intros H a b.
  apply (forall_byte (P a)). apply (forall_byte _ H a).
Qed.

(** ** base64 round trip *)

Module Base64Facts.
Import Base64 Base64Check.

Lemma pair_ok_all (a b : byte) : pair_ok a b = true.
Proof. revert a b. apply forall_byte2. vm_compute. reflexivity. Qed.

Lemma sextet_a2b (n : N) : sextet_ok n = true -> a2b (b2a n) = Some n.
Proof.
  unfold sextet_ok. intros H. apply andb_prop in H as [H _].
  destruct (a2b (b2a n)) as [m|]; [|discriminate].
  apply N.eqb_eq in H. now subst.
Qed.

Lemma sextet_not_pad (n : N) :
  sextet_ok n = true -> Ascii.eqb (b2a n) pad = false.
Proof.
  unfold sextet_ok. intros H. apply andb_prop in H as [_ H].
  now apply negb_true_iff in H.
Qed.

Lemma pair_facts (a b : byte) :
  sextet_ok (hi6 a) = true /\ sextet_ok (lo6 a) = true
  /\ sextet_ok (mid1 a b) = true /\ sextet_ok (mid2 a b) = true
  /\ ascii_of_N (N.lor (N.shiftl (hi6 a) 2) (N.shiftr (mid1 a b) 4)) = a
  /\ N.land (mid1 a b) 15 = hi4 b
  /\ ascii_of_N (N.lor (N.shiftl (hi4 a) 4) (N.shiftr (mid2 a b) 2)) = a
  /\ N.land (mid2 a b) 3 = hi2 b
  /\ ascii_of_N (N.lor (N.shiftl (hi2 a) 6) (lo6 a)) = a.
Proof.
  pose proof (pair_ok_all a b) as H. unfold pair_ok in H.
  rewrite !andb_true_iff, !Ascii.eqb_eq, !N.eqb_eq in H.
  tauto.
Qed.

Lemma zero_hi4 : hi4 zero = 0%N.
Proof. reflexivity. Qed.

Lemma zero_hi2 : hi2 zero = 0%N.
Proof. reflexivity. Qed.

(** One character of the alphabet moves the decoder one step. *)
Lemma a2b_step (n : N) (r : bytes) (q : nat) (lc : N) (p : nat) :
  sextet_ok n = true ->
  a2b_base64 (b2a n :: r) q lc p =
  match q with
  | 0%nat => a2b_base64 r 1 n 0
  | 1%nat => emit (N.lor (N.shiftl lc 2) (N.shiftr n 4))
                  (a2b_base64 r 2 (N.land n 15) 0)
  | 2%nat => emit (N.lor (N.shiftl lc 4) (N.shiftr n 2))
                  (a2b_base64 r 3 (N.land n 3) 0)
  | _ => emit (N.lor (N.shiftl lc 6) n) (a2b_base64 r 0 0 0)
  end.
Proof.
  intros H. cbn [a2b_base64].
  rewrite (sextet_not_pad _ H), (sextet_a2b _ H). reflexivity.
Qed.

Lemma decode_quad (a b c : byte) (r : bytes) :
  a2b_base64 (b2a (hi6 a) :: b2a (mid1 a b) :: b2a (mid2 b c)
              :: b2a (lo6 c) :: r) 0 0 0
  = emit (N_of_ascii a) (emit (N_of_ascii b) (emit (N_of_ascii c)
      (a2b_base64 r 0 0 0))).
Proof.
  destruct (pair_facts a b) as (A1 & _ & A3 & _ & A5 & A6 & _).
  destruct (pair_facts b c) as (_ & _ & _ & B4 & _ & _ & B7 & B8 & _).
  destruct (pair_facts c c) as (_ & C2 & _ & _ & _ & _ & _ & _ & C9).
  rewrite !a2b_step by assumption.
  rewrite A6, B8. unfold emit, rbind.
  destruct (a2b_base64 r 0 0 0); [|reflexivity].
  now rewrite A5, B7, C9, !ascii_N_embedding.
Qed.

Lemma decode_tail1 (a : byte) :
  a2b_base64 [b2a (hi6 a); b2a (N.shiftl (lo2 a) 4); pad; pad] 0 0 0
  = Ok [a].
Proof.
  destruct (pair_facts a zero) as (A1 & _ & A3 & _ & A5 & _).
  unfold mid1 in A3, A5. rewrite zero_hi4, N.lor_0_r in A3, A5.
  rewrite !a2b_step by assumption. cbn. now rewrite A5.
Qed.

Lemma decode_tail2 (a b : byte) :
  a2b_base64 [b2a (hi6 a); b2a (mid1 a b); b2a (N.shiftl (lo4 b) 2); pad]
             0 0 0
  = Ok [a; b].
Proof.
  destruct (pair_facts a b) as (A1 & _ & A3 & _ & A5 & A6 & _).
  destruct (pair_facts b zero) as (_ & _ & _ & B4 & _ & _ & B7 & _).
  unfold mid2 in B4, B7. rewrite zero_hi2, N.lor_0_r in B4, B7.
  rewrite !a2b_step by assumption. rewrite A6. cbn. now rewrite A5, B7.
Qed.

Lemma triple_ind {A : Type} (P : list A -> Prop) :
  P [] -> (forall a, P [a]) -> (forall a b, P [a; b]) ->
  (forall a b c r, P r -> P (a :: b :: c :: r)) ->
  forall l, P l.
Proof.
  intros H0 H1 H2 H3.
  fix IH 1. intros [|a [|b [|c r]]].
  - exact H0.
  - apply H1.
  - apply H2.
  - apply H3, IH.
Qed.

Lemma b64decode_b64encode (s : bytes) : b64decode (b64encode s) = Ok s.
Proof.
  unfold b64decode, b64encode.
  induction s as [|a|a b|a b c r IH] using triple_ind.
  - reflexivity.
  - apply decode_tail1.
  - apply decode_tail2.
  - cbn [b2a_base64]. fold (mid1 a b). fold (mid2 b c).
    rewrite decode_quad, IH. unfold emit, rbind.
    now rewrite !ascii_N_embedding.
Qed.

Lemma b2a_ascii (n : N) : byte_in 0 127 (b2a n) = true.
Proof.
  unfold b2a.
  destruct (Nat.lt_ge_cases (N.to_nat n) 64) as [Hlt|Hge].
  - remember (N.to_nat n) as k. clear Heqk n.
    do 64 (destruct k as [|k]; [reflexivity|]). lia.
  - rewrite nth_overflow; [reflexivity|]. exact Hge.
Qed.

Lemma utf8_valid_ascii (l : bytes) :
  Forall (fun b => byte_in 0 127 b = true) l -> utf8_valid l = true.
Proof.
  induction 1 as [|b l Hb _ IH]; [reflexivity|].
  cbn [utf8_valid]. now rewrite Hb.
Qed.

Lemma b64encode_ascii (s : bytes) :
  Forall (fun b => byte_in 0 127 b = true) (b64encode s).
Proof.
  unfold b64encode.
  induction s as [|a|a b|a b c r IH] using triple_ind; cbn [b2a_base64];
    repeat constructor; auto using b2a_ascii.
Qed.

End Base64Facts.

(** ** The token codec *)

Section Codec.

Context (settings : Settings).

Lemma xor_byte_cancel (a k : byte) : xor_byte (xor_byte a k) k = a.
Proof.
  apply Ascii.eqb_eq. revert a k.
  apply (forall_byte2 (fun a k => Ascii.eqb (xor_byte (xor_byte a k) k) a)).
  vm_compute. reflexivity.
Qed.

Lemma zip_xor_cancel (d ks : bytes) :
  length d <= length ks ->
  zip_with xor_byte (zip_with xor_byte d ks) ks = d.
Proof.
  revert ks. induction d as [|a d IH]; intros [|k ks] H; cbn in *;
    try reflexivity; try lia.
  rewrite xor_byte_cancel, IH by lia. reflexivity.
Qed.

Lemma length_zip_xor (d ks : bytes) :
  length d <= length ks -> length (zip_with xor_byte d ks) = length d.
Proof.
  revert ks. induction d as [|a d IH]; intros [|k ks] H; cbn in *;
    try reflexivity; try lia.
  rewrite IH by lia. reflexivity.
Qed.

Lemma length_py_repeat {A : Type} (l : list A) (k : nat) :
  length (py_repeat l k) = k * length l.
Proof.
  unfold py_repeat. induction k as [|k IH]; cbn; [reflexivity|].
  rewrite length_app, IH. reflexivity.
Qed.

(** The repeated key always covers the data. *)
Lemma key_stream_covers (n m : nat) : m <> 0 -> n <= (n / m + 1) * m.
Proof.
  intros Hm. pose proof (Nat.div_mod_eq n m) as E.
  pose proof (Nat.mod_upper_bound n m Hm). nia.
Qed.

Lemma xor_with_key_ok (data key : bytes) :
  key <> [] ->
  exists enc, xor_with_key data key = Ok enc
              /\ length enc = length data
              /\ xor_with_key enc key = Ok data.
Proof.
  intros Hk. unfold xor_with_key.
  destruct key as [|k0 key]; [congruence|]. cbn [length].
  set (K := k0 :: key).
  assert (HK : length K = S (length key)) by reflexivity.
  rewrite <- !HK.
  assert (Hc : length data <= length (py_repeat K (length data / length K + 1))).
  { rewrite length_py_repeat. apply key_stream_covers. rewrite HK. lia. }
  eexists. split; [reflexivity|].
  rewrite length_zip_xor by exact Hc. split; [reflexivity|].
  now rewrite zip_xor_cancel.
Qed.

Lemma str_encode_of_bytes (l : bytes) : str_encode (str_of_bytes l) = l.
Proof. apply list_ascii_of_string_of_list_ascii. Qed.

Lemma str_of_bytes_encode (s : string) : str_of_bytes (str_encode s) = s.
Proof. apply string_of_list_ascii_of_string. Qed.

Lemma str_encode_nonempty (s : string) : s <> "" -> str_encode s <> [].
Proof. destruct s; [congruence|discriminate]. Qed.

Lemma b64encode_nonempty (l : bytes) :
  l <> [] -> str_of_bytes (Base64.b64encode l) <> "".
Proof. destruct l as [|a [|b [|c r]]]; [congruence|discriminate..]. Qed.

Lemma eqb_empty_false (s : string) : s <> "" -> String.eqb s "" = false.
Proof. intros H. now apply String.eqb_neq. Qed.

Lemma bytes_decode_b64 (l : bytes) :
  bytes_decode (Base64.b64encode l) = Ok (str_of_bytes (Base64.b64encode l)).
Proof.
  unfold bytes_decode.
  now rewrite Base64Facts.utf8_valid_ascii by apply Base64Facts.b64encode_ascii.
Qed.

Lemma encrypt_then_decrypt (s : string) :
  SECRET_KEY settings <> "" ->
  s <> "" ->
  utf8_valid (str_encode s) = true ->
  exists c, encrypt_token settings (VStr s) = Ok c
            /\ c <> "" /\ decrypt_token settings c = s.
Proof.
  intros Hkey Hs Hv.
  destruct (xor_with_key_ok (str_encode s) (str_encode (SECRET_KEY settings)))
    as (enc & E1 & Hlen & E2).
  { now apply str_encode_nonempty. }
  assert (Hne : enc <> []).
  { intros ->. apply (str_encode_nonempty s Hs).
    destruct (str_encode s); [reflexivity|discriminate]. }
  exists (str_of_bytes (Base64.b64encode enc)). split; [|split].
  - unfold encrypt_token, truthy. rewrite eqb_empty_false by exact Hs.
    cbn [negb]. cbn zeta. rewrite E1. cbn [rbind].
    apply bytes_decode_b64.
  - now apply b64encode_nonempty.
  - unfold decrypt_token.
    rewrite eqb_empty_false by now apply b64encode_nonempty.
    rewrite str_encode_of_bytes.
    rewrite Base64Facts.b64decode_b64encode. cbn [rbind].
    rewrite E2. cbn [rbind]. unfold bytes_decode. rewrite Hv.
    apply str_of_bytes_encode.
Qed.

(** C1. With the secret key fixed (and not empty, which the framework
    refuses), [decrypt_token] returns every non-empty text [s] from what
    [encrypt_token] made of it, and both functions map the empty string to
    the empty string. *)
Theorem token_codec_round_trip (s : string) :
  SECRET_KEY settings <> "" ->
  utf8_valid (str_encode s) = true ->
  (s <> "" ->
   exists c, encrypt_token settings (VStr s) = Ok c
             /\ decrypt_token settings c = s)
  /\ encrypt_token settings (VStr "") = Ok ""
  /\ decrypt_token settings "" = "".
Proof.
  intros Hkey Hv. split; [|split; reflexivity].
  intros Hs.
  destruct (encrypt_then_decrypt s Hkey Hs Hv) as (c & E & _ & D).
  now exists c.
Qed.

End Codec.

Lemma token_codec_round_trip_witness :
  (EX.access_token <> "" ->
   exists c, encrypt_token EX.settings (VStr EX.access_token) = Ok c
             /\ decrypt_token EX.settings c = EX.access_token)
  /\ encrypt_token EX.settings (VStr "") = Ok ""
  /\ decrypt_token EX.settings "" = "".
Proof.
  apply (token_codec_round_trip EX.settings EX.access_token).
  - discriminate.
  - reflexivity.
Defined.

(** ** Rows and their primary keys *)

(** A filter that only [s] passes, among rows without duplicates. *)
Lemma filter_only {A : Type} (cond : A -> bool) (l : list A) (s : A) :
  List.NoDup l -> In s l -> cond s = true ->
  (forall r, In r l -> cond r = true -> r = s) ->
  List.filter cond l = [s].
Proof.
  induction l as [|x l IH]; cbn; [tauto|].
  intros Hnd Hin Hs Hall. apply List.NoDup_cons_iff in Hnd as [Hx Hnd].
  destruct (cond x) eqn:Ex.
  - assert (x = s) as -> by (apply Hall; auto).
    f_equal. destruct (List.filter cond l) as [|y t] eqn:Ef; [reflexivity|].
    exfalso. assert (Hy : In y (List.filter cond l)) by (rewrite Ef; now left).
    apply filter_In in Hy as [Hy1 Hy2].
    assert (y = s) as -> by (apply Hall; auto). contradiction.
  - destruct Hin as [->|Hin]; [congruence|]. apply IH; auto.
Qed.

Lemma filter_none {A : Type} (cond : A -> bool) (l : list A) :
  (forall r, In r l -> cond r = false) -> List.filter cond l = [].
Proof.
  induction l as [|x l IH]; cbn; [reflexivity|].
  intros H. rewrite (H x) by now left. apply IH. auto.
Qed.

Lemma filter_all {A : Type} (cond : A -> bool) (l : list A) :
  (forall r, In r l -> cond r = true) -> List.filter cond l = l.
Proof.
  induction l as [|x l IH]; cbn; [reflexivity|].
  intros H. rewrite (H x) by now left. f_equal. apply IH. auto.
Qed.

Section Rows.

Context {A : Type} (key : A -> nat).

Lemma key_injective_in (l : list A) (r s : A) :
  List.NoDup (map key l) -> In r l -> In s l -> key r = key s -> r = s.
Proof.
  induction l as [|x l IH]; cbn; [tauto|].
  intros Hnd Hr Hs E. apply List.NoDup_cons_iff in Hnd as [Hx Hnd].
  destruct Hr as [->|Hr], Hs as [->|Hs]; auto.
  - exfalso. apply Hx. rewrite E. now apply in_map.
  - exfalso. apply Hx. rewrite <- E. now apply in_map.
Qed.

Lemma NoDup_of_keys (l : list A) : List.NoDup (map key l) -> List.NoDup l.
Proof. apply List.NoDup_map_inv. Qed.

(** Deleting by primary key removes exactly the row. *)
Lemma in_delete_by_key (l : list A) (s r : A) :
  List.NoDup (map key l) -> In s l ->
  In r (List.filter (fun x => negb (Nat.eqb (key x) (key s))) l)
  <-> In r l /\ r <> s.
Proof.
  intros Hnd Hs. rewrite filter_In, negb_true_iff, Nat.eqb_neq.
  split; intros [Hr Hne]; split; auto.
  - intros ->. now apply Hne.
  - intros E. apply Hne. now apply (key_injective_in l).
Qed.

End Rows.

(** ** OAuth sessions *)

Section Sessions.

Lemma objects_get_only {A : Type} (rows : list A) (cond : A -> bool) (s : A) :
  List.filter cond rows = [s] -> objects_get rows cond = Ok s.
Proof. unfold objects_get. now intros ->. Qed.

Lemma get_oauth_session_found (now : time) (db : DB) (s : SessionData.t) :
  List.filter (fun r => String.eqb (SessionData.oauth_state r)
                                   (SessionData.oauth_state s))
              (sessions db) = [s] ->
  get_oauth_session now (SessionData.oauth_state s) db =
  if SessionData.is_expired now s
  then (Ok None, snd (delete_session s db))
  else (Ok (Some s), db).
Proof.
  intros Hf. unfold get_oauth_session, try_except, bind, get_db, lift.
  rewrite (objects_get_only _ _ s Hf).
  destruct (SessionData.is_expired now s); reflexivity.
Qed.

Lemma get_oauth_session_missing (now : time) (db : DB) (state : string) :
  List.filter (fun r => String.eqb (SessionData.oauth_state r) state)
              (sessions db) = [] ->
  get_oauth_session now state db = (Ok None, db).
Proof.
  intros Hf. unfold get_oauth_session, try_except, bind, get_db, lift,
    objects_get.
  now rewrite Hf.
Qed.

Lemma session_found_by_state (db : DB) (s : SessionData.t) :
  List.NoDup (map SessionData.pk (sessions db)) ->
  In s (sessions db) ->
  (forall r, In r (sessions db) ->
             SessionData.oauth_state r = SessionData.oauth_state s -> r = s) ->
  List.filter (fun r => String.eqb (SessionData.oauth_state r)
                                   (SessionData.oauth_state s))
              (sessions db) = [s].
Proof.
  intros Hnd Hin Huniq. apply filter_only; auto.
  - now apply (NoDup_of_keys SessionData.pk).
  - apply String.eqb_refl.
  - intros r Hr E. apply Huniq; auto. now apply String.eqb_eq.
Qed.

(** C2. A stored session, found by its state, whose expiry is in the past:
    the lookup answers not-found and the row is gone from storage afterwards
    (nothing else changes); an unexpired one is returned and storage is left
    as it was. *)
Theorem get_oauth_session_expiry (now : time) (db : DB) (s : SessionData.t) :
  List.NoDup (map SessionData.pk (sessions db)) ->
  In s (sessions db) ->
  (forall r, In r (sessions db) ->
             SessionData.oauth_state r = SessionData.oauth_state s -> r = s) ->
  ((SessionData.expires_at s < now)%Z ->
   exists db',
     get_oauth_session now (SessionData.oauth_state s) db = (Ok None, db')
     /\ (forall r, In r (sessions db') <-> In r (sessions db) /\ r <> s)
     /\ accounts db' = accounts db
     /\ api_call_logs db' = api_call_logs db
     /\ related db' = related db)
  /\ ((now <= SessionData.expires_at s)%Z ->
      get_oauth_session now (SessionData.oauth_state s) db = (Ok (Some s), db)).
Proof.
  intros Hnd Hin Huniq.
  pose proof (session_found_by_state db s Hnd Hin Huniq) as Hf.
  rewrite (get_oauth_session_found now db s Hf).
  unfold SessionData.is_expired. split; intros Ht.
  - apply Z.ltb_lt in Ht. rewrite Ht. eexists. split; [reflexivity|].
    split; [|repeat split; reflexivity].
    intros r. cbn. now apply (in_delete_by_key SessionData.pk).
  - apply Z.ltb_ge in Ht. now rewrite Ht.
Qed.

End Sessions.

(** ** Token validity *)

Section Validity.

Context (settings : Settings).

(** What [save()] leaves in the table of accounts. *)
Lemma save_account_rows (a : SocialMediaAccount.t) (db : DB) :
  let db' := snd (save_account a db) in
  In a (accounts db')
  /\ (forall r, In r (accounts db') ->
                SocialMediaAccount.pk r = SocialMediaAccount.pk a -> r = a)
  /\ (forall r, SocialMediaAccount.pk r <> SocialMediaAccount.pk a ->
                (In r (accounts db') <-> In r (accounts db)))
  /\ sessions db' = sessions db
  /\ api_call_logs db' = api_call_logs db
  /\ related db' = related db.
Proof.
  unfold save_account, modify. cbv zeta. cbn [snd].
  destruct (existsb _ (accounts db)) eqn:Ex;
    cbn [accounts set_accounts sessions api_call_logs related].
  - apply existsb_exists in Ex as (x & Hx & Sx).
    repeat split; try reflexivity.
    + apply in_map_iff. exists x. now rewrite Sx.
    + intros r Hr E. apply in_map_iff in Hr as (y & Ey & Hy).
      destruct (Nat.eqb_spec (SocialMediaAccount.pk y)
                             (SocialMediaAccount.pk a)); congruence.
    + intros Hr. apply in_map_iff in Hr as (y & Ey & Hy).
      destruct (Nat.eqb_spec (SocialMediaAccount.pk y)
                             (SocialMediaAccount.pk a)); congruence.
    + intros Hr. apply in_map_iff. exists r. split; [|exact Hr].
      apply Nat.eqb_neq in H. now rewrite H.
  - repeat split; try reflexivity.
    + apply in_or_app. right. now left.
    + intros r Hr E. apply in_app_or in Hr as [Hr|[<-|[]]]; [|reflexivity].
      exfalso. apply Bool.not_true_iff_false in Ex. apply Ex.
      apply existsb_exists. exists r. split; [exact Hr|].
      now apply Nat.eqb_eq.
    + intros Hr. apply in_app_or in Hr as [Hr|[<-|[]]]; [exact Hr|congruence].
    + intros Hr. apply in_or_app. now left.
Qed.

(** C3. An account whose token expiry is set and in the past and that has
    no refresh token: [get_valid_token] returns no token and the account,
    in memory and in storage, has status "expired". An account whose expiry
    is unset or in the future: the decrypted access token is returned and
    nothing changes. *)
Theorem get_valid_token_expiry (now : time) (db : DB)
  (a : SocialMediaAccount.t) :
  (forall e,
     SocialMediaAccount.token_expires_at a = Some e -> (e < now)%Z ->
     truthy (of_opt (SocialMediaAccount.refresh_token a)) = false ->
     exists db',
       get_valid_token settings now a db =
         (Ok (None, SocialMediaAccount.set_status "expired" a), db')
       /\ In (SocialMediaAccount.set_status "expired" a) (accounts db')
       /\ (forall r, In r (accounts db') ->
                     SocialMediaAccount.pk r = SocialMediaAccount.pk a ->
                     SocialMediaAccount.status r = "expired")
       /\ (forall r, SocialMediaAccount.pk r <> SocialMediaAccount.pk a ->
                     (In r (accounts db') <-> In r (accounts db))))
  /\ (SocialMediaAccount.token_expires_at a = None
      \/ (exists e, SocialMediaAccount.token_expires_at a = Some e
                    /\ (now < e)%Z) ->
      get_valid_token settings now a db =
        (Ok (Some (decrypt_token settings
                     (SocialMediaAccount.access_token a)), a), db)).
Proof.
  split.
  - intros e He Hlt Hr. unfold get_valid_token, SocialMediaAccount.is_token_expired.
    rewrite He. apply Z.ltb_lt in Hlt. rewrite Hlt, Hr.
    unfold bind, ret.
    pose proof (save_account_rows
                  (SocialMediaAccount.set_status "expired" a) db) as H.
    cbv zeta in H. destruct H as (H1 & H2 & H3 & _).
    destruct (save_account (SocialMediaAccount.set_status "expired" a) db)
      as [[[]|x] db'] eqn:Es; [|discriminate Es].
    exists db'. cbn [snd] in *. repeat split; auto.
    + intros r Hin E. now rewrite (H2 r Hin E).
    + now apply H3.
    + now apply H3.
  - intros [Hn|(e & He & Hlt)];
      unfold get_valid_token, SocialMediaAccount.is_token_expired.
    + now rewrite Hn.
    + rewrite He. assert ((e <? now)%Z = false) as -> by (apply Z.ltb_ge; lia).
      reflexivity.
Qed.

End Validity.

(** ** Callbacks that carry the state of another user's session *)

Section Ownership.

Context (settings : Settings).
Context (dict_repr : gmap string pyval -> string).
Context (http : Request.t -> result Response.t).

Lemma foreign_session_lookup now request db s :
  foreign_callback now request db s ->
  get_oauth_session now (SessionData.oauth_state s) db = (Ok (Some s), db).
Proof.
  intros [].
  rewrite get_oauth_session_found by now apply session_found_by_state.
  unfold SessionData.is_expired.
  now assert ((SessionData.expires_at s <? now)%Z = false) as ->
    by (apply Z.ltb_ge; lia).
Qed.

(** The LinkedIn callback does what the claim says. *)
Lemma linkedin_callback_foreign_session now request db s :
  foreign_callback now request db s ->
  exists db',
    linkedin_callback settings dict_repr http now request db =
      (Ok (dashboard messages.error "Session does not belong to current user"),
       db')
    /\ (forall r, In r (sessions db') <-> In r (sessions db) /\ r <> s)
    /\ accounts db' = accounts db.
Proof.
  intros H. pose proof (foreign_session_lookup _ _ _ _ H) as Hget.
  destruct H as [He (code & Hc & Hcne) Hs Hsne Hnd Hin Huniq Hlive Hf].
  unfold linkedin_callback. rewrite He, Hc, Hs.
  cbn [of_opt truthy default from_option id negb orb].
  rewrite !eqb_empty_false by assumption. cbn [negb orb].
  unfold bind at 1. rewrite Hget.
  apply Nat.eqb_neq in Hf. rewrite Hf. cbn [negb].
  unfold bind, delete_session, modify, ret. eexists. split; [reflexivity|].
  split; [|reflexivity].
  intros r. cbn. now apply (in_delete_by_key SessionData.pk).
Qed.

(** C4, at the Twitter callback: the request is turned away with the same
    message as an unknown state, and the session of the other user is still
    in storage afterwards. *)
Theorem twitter_callback_foreign_session now request db s :
  foreign_callback now request db s ->
  twitter_callback settings dict_repr http now request db =
    (Ok (dashboard messages.error "Invalid session state"), db)
  /\ In s (sessions db).
Proof.
  intros H. pose proof (foreign_session_lookup _ _ _ _ H) as Hget.
  destruct H as [He (code & Hc & Hcne) Hs Hsne Hnd Hin Huniq Hlive Hf].
  split; [|exact Hin].
  unfold twitter_callback. rewrite He, Hc, Hs.
  cbn [of_opt truthy default from_option id negb orb].
  rewrite !eqb_empty_false by assumption. cbn [negb orb].
  unfold bind at 1. rewrite Hget.
  apply Nat.eqb_neq in Hf. rewrite Hf. reflexivity.
Qed.

End Ownership.

(** ** Disconnect *)

Section Disconnect.

Context (settings : Settings).
Context (http : Request.t -> result Response.t).

(** Whatever the stored token and whatever the network answers, the
    revocation neither raises nor writes. *)
Lemma revoke_never_raises (a : SocialMediaAccount.t) (platform : string)
  (db : DB) :
  _revoke_platform_token settings http a platform db = (Ok tt, db).
Proof.
  unfold _revoke_platform_token, try_except.
  destruct (String.eqb (decrypt_token settings _) ""); [reflexivity|].
  destruct (String.eqb platform "linkedin").
  - unfold bind, lift. now destruct (requests_post_form _ _ _ _).
  - destruct (String.eqb platform "twitter"); [|reflexivity].
    unfold bind, lift. now destruct (requests_post_form _ _ _ _).
Qed.

Lemma disconnect_account_none (user : nat) (platform : string) (db : DB) :
  List.filter (of_user_platform user platform) (accounts db) = [] ->
  disconnect_account settings http user platform db = (Ok false, db).
Proof.
  intros Hf. unfold disconnect_account, try_except, bind, get_db, lift,
    objects_get.
  now rewrite Hf.
Qed.

Lemma disconnect_account_several (user : nat) (platform : string) (db : DB)
  (a b : SocialMediaAccount.t) (rest : list SocialMediaAccount.t) :
  List.filter (of_user_platform user platform) (accounts db) = a :: b :: rest ->
  disconnect_account settings http user platform db = (Ok false, db).
Proof.
  intros Hf. unfold disconnect_account, try_except, bind, get_db, lift,
    objects_get.
  now rewrite Hf.
Qed.

Ltac filter_members :=
  repeat rewrite filter_In;
  repeat rewrite negb_true_iff;
  repeat rewrite andb_false_iff;
  repeat rewrite Nat.eqb_neq.

Lemma disconnect_account_one (user : nat) (platform : string) (db : DB)
  (a : SocialMediaAccount.t) :
  List.filter (of_user_platform user platform) (accounts db) = [a] ->
  exists db',
    disconnect_account settings http user platform db = (Ok true, db')
    /\ (forall r, In r (accounts db') <->
          In r (accounts db)
          /\ SocialMediaAccount.pk r <> SocialMediaAccount.pk a)
    /\ (forall r, In r (api_call_logs db') <->
          In r (api_call_logs db)
          /\ APICallLog.social_account r <> SocialMediaAccount.pk a)
    /\ (forall r, In r (related db') <->
          In r (related db)
          /\ Related.social_account r <> SocialMediaAccount.pk a)
    /\ (forall r, In r (sessions db') <->
          In r (sessions db)
          /\ SessionData.social_account r <> Some (SocialMediaAccount.pk a)
          /\ session_tagged user platform r = false).
Proof.
  intros Hf. unfold disconnect_account, try_except.
  unfold bind at 1. unfold get_db. unfold bind at 1. unfold lift, objects_get.
  rewrite Hf.
  unfold bind at 1. rewrite revoke_never_raises.
  unfold cleanup_user_platform_sessions, delete_related, delete_account.
  destruct (String.eqb platform "linkedin") eqn:El;
    [|destruct (String.eqb platform "twitter") eqn:Et];
    unfold bind, modify, ret; cbn [fst snd];
    (eexists; split; [reflexivity|]);
    cbn [accounts sessions api_call_logs related set_accounts set_sessions
         set_api_call_logs set_related];
    (split; [|split; [|split]]); intros r; filter_members;
    rewrite ?bool_decide_eq_false; tauto.
Qed.

(** C5, where the code departs from it: with more than one account of the
    user on the platform, [disconnect_account] returns false and writes
    nothing, although accounts match. *)
Theorem disconnect_account_several_matches (user : nat) (platform : string)
  (db : DB) (a b : SocialMediaAccount.t) :
  In a (accounts db) -> In b (accounts db) -> a <> b ->
  SocialMediaAccount.user a = user -> SocialMediaAccount.platform a = platform ->
  SocialMediaAccount.user b = user -> SocialMediaAccount.platform b = platform ->
  disconnect_account settings http user platform db = (Ok false, db).
Proof.
  intros Ha Hb Hne Ua Pa Ub Pb.
  assert (Ma : of_user_platform user platform a = true).
  { unfold of_user_platform. now rewrite Ua, Pa, Nat.eqb_refl, String.eqb_refl. }
  assert (Mb : of_user_platform user platform b = true).
  { unfold of_user_platform. now rewrite Ub, Pb, Nat.eqb_refl, String.eqb_refl. }
  assert (Fa : In a (List.filter (of_user_platform user platform) (accounts db)))
    by now apply filter_In.
  assert (Fb : In b (List.filter (of_user_platform user platform) (accounts db)))
    by now apply filter_In.
  destruct (List.filter (of_user_platform user platform) (accounts db))
    as [|x [|y rest]] eqn:Hf.
  - destruct Fa.
  - destruct Fa as [<-|[]], Fb as [<-|[]]. congruence.
  - now apply (disconnect_account_several user platform db x y rest).
Qed.

(** C6. For an account that the lookup finds, the revocation never raises
    and never writes, whatever the stored token decrypts to and whatever
    the network does; [disconnect_account] then returns true, and the
    account, its call logs, its related rows, its sessions and the sessions
    tagged for the user and the platform are gone. *)
Theorem disconnect_survives_revocation_failure (user : nat)
  (platform : string) (db : DB) (a : SocialMediaAccount.t) :
  List.NoDup (map SocialMediaAccount.pk (accounts db)) ->
  In a (accounts db) ->
  SocialMediaAccount.user a = user ->
  SocialMediaAccount.platform a = platform ->
  (forall r, In r (accounts db) -> SocialMediaAccount.user r = user ->
             SocialMediaAccount.platform r = platform -> r = a) ->
  _revoke_platform_token settings http a platform db = (Ok tt, db)
  /\ exists db',
       disconnect_account settings http user platform db = (Ok true, db')
       /\ (forall r, In r (accounts db') <-> In r (accounts db) /\ r <> a)
       /\ (forall r, In r (api_call_logs db') <->
             In r (api_call_logs db)
             /\ APICallLog.social_account r <> SocialMediaAccount.pk a)
       /\ (forall r, In r (related db') <->
             In r (related db)
             /\ Related.social_account r <> SocialMediaAccount.pk a)
       /\ (forall r, In r (sessions db') <->
             In r (sessions db)
             /\ SessionData.social_account r
                <> Some (SocialMediaAccount.pk a)
             /\ session_tagged user platform r = false).
Proof.
  intros Hnd Hin Hu Hp Huniq. split; [apply revoke_never_raises|].
  assert (Hf : List.filter (of_user_platform user platform) (accounts db) = [a]).
  { apply filter_only; auto.
    - now apply (NoDup_of_keys SocialMediaAccount.pk).
    - unfold of_user_platform. now rewrite Hu, Hp, Nat.eqb_refl, String.eqb_refl.
    - intros r Hr Hm. unfold of_user_platform in Hm.
      apply andb_prop in Hm as [H1 H2].
      apply Nat.eqb_eq in H1. apply String.eqb_eq in H2. now apply Huniq. }
  destruct (disconnect_account_one user platform db a Hf)
    as (db' & E & Ha & Hl & Hr & Hs).
  exists db'. split; [exact E|].
  split; [|split; [exact Hl|split; [exact Hr|exact Hs]]].
  intros r. rewrite Ha. split; intros [H1 H2]; (split; [exact H1|]).
  - intros ->. now apply H2.
  - intros E'. apply H2.
    now apply (key_injective_in SocialMediaAccount.pk (accounts db)).
Qed.

End Disconnect.

(** ** The authenticated request client *)

Section Client.

Context (settings : Settings).
Context (http : Request.t -> result Response.t).

Lemma log_without_headers (a : SocialMediaAccount.t)
  (endpoint method : string) (status_code response_time : Z)
  (error_message : string) (db : DB) :
  _log_api_call a endpoint method status_code response_time ∅ error_message db
  = (Ok tt,
     set_api_call_logs
       (api_call_logs db ++
        [plain_entry (next_pk db) a endpoint method status_code response_time
           error_message])
       (set_next_pk (S (next_pk db)) db)).
Proof.
  unfold _log_api_call, headers_get. rewrite !lookup_empty.
  destruct (String.eqb (SocialMediaAccount.platform a) "linkedin");
    [reflexivity|].
  destruct (String.eqb (SocialMediaAccount.platform a) "twitter");
    reflexivity.
Qed.

Lemma valid_token_obtained (now : time) (a : SocialMediaAccount.t) (db : DB) :
  token_usable settings now a ->
  get_valid_token settings now a db =
    (Ok (Some (decrypt_token settings (SocialMediaAccount.access_token a)),
         a), db).
Proof. intros [H _]. unfold get_valid_token. now rewrite H. Qed.

Ltac start_request Ha :=
  unfold make_request; unfold bind at 1;
  rewrite (valid_token_obtained _ _ _ Ha);
  destruct Ha as [_ Ha];
  cbn [of_opt truthy]; rewrite (eqb_empty_false _ Ha); cbn [negb];
  unfold try_except, bind, lift, ret.

(** C7, where the code departs from it: a request that was sent and
    answered with a status other than 200 leaves two entries in the call
    log, the second one with the body of the answer as error message. *)
Theorem make_request_logs_twice (now : time) (response_time : Z)
  (a : SocialMediaAccount.t) (endpoint : string)
  (params : option (gmap string pyval)) (headers : option (gmap string string))
  (response : Response.t) (db : DB) :
  token_usable settings now a ->
  (forall rq, http rq = Ok response) ->
  Response.status_code response <> 200%Z ->
  Response.headers response = ∅ ->
  exists db',
    make_request settings http now response_time a endpoint "GET" params
      VNone headers db = (Ok None, db')
    /\ api_call_logs db' =
       (api_call_logs db ++
        [plain_entry (next_pk db) a endpoint "GET"
           (Response.status_code response) response_time "";
         plain_entry (S (next_pk db)) a endpoint "GET"
           (Response.status_code response) response_time
           (Response.text response)])%list.
Proof.
  intros Ha Hnet Hst Hh. start_request Ha.
  change (String.eqb (upper "GET") "GET") with true. cbv iota.
  rewrite Hnet, Hh, !log_without_headers.
  apply Z.eqb_neq in Hst. rewrite Hst, !log_without_headers.
  eexists. split; [reflexivity|].
  cbn [api_call_logs set_api_call_logs set_next_pk next_pk].
  now rewrite <- app_assoc.
Qed.

(** The other outcomes, for comparison: one entry each. *)
Lemma make_request_success (now : time) (response_time : Z)
  (a : SocialMediaAccount.t) (endpoint : string)
  (params : option (gmap string pyval)) (headers : option (gmap string string))
  (response : Response.t) (payload : pyval) (db : DB) :
  token_usable settings now a ->
  (forall rq, http rq = Ok response) ->
  Response.status_code response = 200%Z ->
  Response.headers response = ∅ ->
  Response.json response = Ok payload ->
  exists db',
    make_request settings http now response_time a endpoint "GET" params
      VNone headers db = (Ok (Some payload), db')
    /\ api_call_logs db' =
       (api_call_logs db ++
        [plain_entry (next_pk db) a endpoint "GET" 200 response_time ""])%list.
Proof.
  intros Ha Hnet Hst Hh Hj. start_request Ha.
  change (String.eqb (upper "GET") "GET") with true. cbv iota.
  rewrite Hnet, Hh, !log_without_headers, Hst, Hj.
  eexists. split; reflexivity.
Qed.

Lemma make_request_transport_failure (now : time) (response_time : Z)
  (a : SocialMediaAccount.t) (endpoint : string)
  (params : option (gmap string pyval)) (headers : option (gmap string string))
  (e : exn) (db : DB) :
  token_usable settings now a ->
  (forall rq, http rq = Raise e) ->
  exists db',
    make_request settings http now response_time a endpoint "GET" params
      VNone headers db = (Ok None, db')
    /\ api_call_logs db' =
       (api_call_logs db ++
        [plain_entry (next_pk db) a endpoint "GET" 0 response_time
           (exn_str e)])%list.
Proof.
  intros Ha Hnet. start_request Ha.
  change (String.eqb (upper "GET") "GET") with true. cbv iota.
  rewrite Hnet, !log_without_headers.
  eexists. split; reflexivity.
Qed.

End Client.

(** ** Storing tokens *)

Lemma rbind_ok {A B : Type} (m : result A) (k : A -> result B) (b : B) :
  rbind m k = Ok b -> exists a, m = Ok a /\ k a = Ok b.
Proof. destruct m as [a|e]; cbn; [eauto|discriminate]. Qed.

Lemma rbind_raise {A B : Type} (m : result A) (k : A -> result B) (e : exn) :
  rbind m k = Raise e -> m = Raise e \/ exists a, m = Ok a /\ k a = Raise e.
Proof. destruct m as [a|e']; cbn; [eauto|]. intros [= ->]. now left. Qed.

Ltac invert_ok H :=
  repeat match type of H with
         | rbind _ _ = Ok _ =>
           let a := fresh "v" in
           let E := fresh "E" in
           apply rbind_ok in H as (a & E & H)
         | (let (_, _) := ?p in _) = Ok _ => destruct p
         end.

Section Store.

Context (settings : Settings).
Context (dict_repr : gmap string pyval -> string).

Lemma encrypt_token_class (v : pyval) (e : exn) :
  encrypt_token settings v = Raise e -> is_DoesNotExist e = false.
Proof.
  unfold encrypt_token. destruct (negb (truthy v)); [discriminate|].
  destruct v; try (intros [= <-]; reflexivity).
  unfold xor_with_key, bytes_decode.
  destruct (length (str_encode (SECRET_KEY settings)));
    cbn [rbind]; [intros [= <-]; reflexivity|].
  destruct (utf8_valid _); [discriminate|]. intros [= <-]. reflexivity.
Qed.

Lemma token_columns_class (access_token refresh_token : pyval) (e : exn) :
  token_columns settings access_token refresh_token = Raise e ->
  is_DoesNotExist e = false.
Proof.
  unfold token_columns. intros H.
  apply rbind_raise in H as [H|(a & _ & H)];
    [now apply encrypt_token_class in H|].
  apply rbind_raise in H as [H|(r & _ & H)]; [|discriminate].
  destruct (truthy refresh_token); [|discriminate].
  now apply encrypt_token_class in H.
Qed.

Lemma char_column_class (name : string) (v : pyval) (e : exn) :
  char_column dict_repr name v = Raise e -> is_DoesNotExist e = false.
Proof. destruct v; cbn; try discriminate. intros [= <-]. reflexivity. Qed.

(** The text that a column keeps of a value. *)
Lemma char_column_text (name : string) (v : pyval) (s : string) :
  char_column dict_repr name v = Ok s -> s = py_str dict_repr v.
Proof. destruct v; cbn; congruence. Qed.

Ltac raise_class H :=
  repeat match type of H with
         | rbind _ _ = Raise _ =>
           let a := fresh "v" in
           apply rbind_raise in H as [H|(a & _ & H)]
         | (let (_, _) := ?p in _) = Raise _ => destruct p
         end;
  first [ now apply token_columns_class in H
        | now apply char_column_class in H
        | discriminate H ].

Lemma updated_account_class now access_token refresh_token scope expires_at
  user_data old (e : exn) :
  updated_account settings dict_repr now access_token refresh_token scope
    expires_at user_data old = Raise e ->
  is_DoesNotExist e = false.
Proof. unfold updated_account. intros H. raise_class H. Qed.

(** The outcome of a successful [store_tokens]: the only row under the
    natural key was rewritten, or there was none and one was inserted. *)
Lemma store_tokens_ok (now : time) (user : nat) (platform : string)
  (access_token refresh_token expires_in scope : pyval)
  (user_data : option (gmap string pyval)) (db db' : DB)
  (acc : SocialMediaAccount.t) :
  store_tokens settings dict_repr now user platform access_token
    refresh_token expires_in scope user_data db = (Ok acc, db') ->
  exists ud expires_at,
    user_data = Some ud
    /\ ((exists old,
           List.filter
             (natural_key user platform
                (py_str dict_repr (dict_get ud "id" VNone)))
             (accounts db) = [old]
           /\ updated_account settings dict_repr now access_token
                refresh_token scope expires_at ud old = Ok acc
           /\ db' = snd (save_account acc db))
        \/ (List.filter
              (natural_key user platform
                 (py_str dict_repr (dict_get ud "id" VNone)))
              (accounts db) = []
            /\ created_account settings dict_repr (next_pk db) user platform
                 (py_str dict_repr (dict_get ud "id" VNone)) access_token
                 refresh_token scope expires_at ud = Ok acc
            /\ db' = set_accounts (accounts db ++ [acc])
                       (set_next_pk (S (next_pk db)) db))).
Proof.
  unfold store_tokens. unfold bind at 1. unfold lift at 1.
  destruct (if truthy expires_in then _ else _) as [expires_at|e];
    [|discriminate].
  destruct user_data as [ud|]; [|discriminate].
  destruct (negb (truthy (VDict ud)) || _); [discriminate|].
  intros H. exists ud, expires_at. split; [reflexivity|].
  revert H. unfold try_except. unfold bind at 1. unfold get_db.
  unfold bind at 1. unfold lift at 1. unfold objects_get.
  destruct (List.filter _ (accounts db)) as [|old [|x rest]] eqn:Hf.
  - (* no row: create *)
    cbn [is_DoesNotExist exn_class_of]. unfold bind at 1.
    unfold bind at 1. unfold lift at 1.
    destruct (created_account _ _ _ _ _ _ _ _ _ _ _) as [created|e] eqn:Ec;
      [|discriminate].
    unfold bind, fresh_pk, modify, ret. intros [= <- <-].
    right. auto.
  - (* one row: update *)
    unfold bind at 1. unfold lift at 1.
    destruct (updated_account _ _ _ _ _ _ _ _ _) as [updated|e] eqn:Eu.
    + unfold bind, ret.
      destruct (save_account updated db) as [[[]|e] db1] eqn:Es;
        [|discriminate Es].
      intros [= <- <-]. left. exists old. rewrite Es. auto.
    + rewrite (updated_account_class _ _ _ _ _ _ _ _ Eu). discriminate.
  - discriminate.
Qed.

Lemma dict_get_lookup (d : gmap string pyval) (k : string) (dflt : pyval) :
  dict_get d k dflt = match d !! k with Some v => v | None => dflt end.
Proof. unfold dict_get. now destruct (d !! k). Qed.

Lemma updated_account_fields now access_token refresh_token scope expires_at
  (ud : gmap string pyval) (old acc : SocialMediaAccount.t) :
  updated_account settings dict_repr now access_token refresh_token scope
    expires_at ud old = Ok acc ->
  let kept (key : string) (stored : string) :=
    match ud !! key with
    | Some v => py_str dict_repr v
    | None => stored
    end in
  SocialMediaAccount.pk acc = SocialMediaAccount.pk old
  /\ SocialMediaAccount.username acc
     = kept "username" (SocialMediaAccount.username old)
  /\ SocialMediaAccount.display_name acc
     = kept "name" (SocialMediaAccount.display_name old)
  /\ SocialMediaAccount.email acc = kept "email" (SocialMediaAccount.email old)
  /\ SocialMediaAccount.profile_url acc
     = kept "profile_url" (SocialMediaAccount.profile_url old)
  /\ SocialMediaAccount.avatar_url acc
     = kept "avatar_url" (SocialMediaAccount.avatar_url old)
  /\ SocialMediaAccount.extra_data acc
     = ud ∪ SocialMediaAccount.extra_data old
  /\ SocialMediaAccount.status acc = "active"
  /\ (truthy refresh_token = false ->
      SocialMediaAccount.refresh_token acc = Some "").
Proof.
  unfold updated_account, token_columns. intros H. invert_ok H.
  injection H as <-. cbn.
  apply char_column_text in E1, E2, E3, E4, E5.
  rewrite dict_get_lookup in E1, E2, E3, E4, E5.
  repeat split.
  - rewrite E1. now destruct (ud !! "username").
  - rewrite E2. now destruct (ud !! "name").
  - rewrite E3. now destruct (ud !! "email").
  - rewrite E4. now destruct (ud !! "profile_url").
  - rewrite E5. now destruct (ud !! "avatar_url").
  - intros Hr. rewrite Hr in *. invert_ok E. congruence.
Qed.

Lemma created_account_fields pk user platform platform_user_id access_token
  refresh_token scope expires_at (ud : gmap string pyval)
  (acc : SocialMediaAccount.t) :
  created_account settings dict_repr pk user platform platform_user_id
    access_token refresh_token scope expires_at ud = Ok acc ->
  SocialMediaAccount.pk acc = pk
  /\ (truthy refresh_token = false ->
      SocialMediaAccount.refresh_token acc = Some "").
Proof.
  unfold created_account, token_columns. intros H. invert_ok H.
  injection H as <-. cbn. split; [reflexivity|].
  intros Hr. rewrite Hr in *. invert_ok E. congruence.
Qed.

Lemma natural_key_only (db : DB) (user : nat) (platform id : string)
  (old : SocialMediaAccount.t) :
  List.NoDup (map SocialMediaAccount.pk (accounts db)) ->
  In old (accounts db) ->
  natural_key user platform id old = true ->
  (forall r, In r (accounts db) -> natural_key user platform id r = true ->
             r = old) ->
  List.filter (natural_key user platform id) (accounts db) = [old].
Proof.
  intros Hnd Hin Hk Huniq. apply filter_only; auto.
  now apply (NoDup_of_keys SocialMediaAccount.pk).
Qed.

(** C8, as the code has it. When [store_tokens] finds the account of the
    natural key, each display field takes the text of the value that
    [user_data] has under its key, empty or not, and keeps the stored value
    only where [user_data] lacks the key; the attribute bag is [user_data]
    merged over the stored bag; the status is "active"; the row is written
    back under its primary key. *)
Theorem store_tokens_updates_existing (now : time) (user : nat)
  (platform : string) (access_token refresh_token expires_in scope : pyval)
  (ud : gmap string pyval) (db db' : DB) (old acc : SocialMediaAccount.t) :
  List.NoDup (map SocialMediaAccount.pk (accounts db)) ->
  In old (accounts db) ->
  natural_key user platform (py_str dict_repr (dict_get ud "id" VNone)) old
  = true ->
  (forall r, In r (accounts db) ->
     natural_key user platform (py_str dict_repr (dict_get ud "id" VNone)) r
     = true -> r = old) ->
  store_tokens settings dict_repr now user platform access_token
    refresh_token expires_in scope (Some ud) db = (Ok acc, db') ->
  let kept (key : string) (stored : string) :=
    match ud !! key with
    | Some v => py_str dict_repr v
    | None => stored
    end in
  SocialMediaAccount.username acc
  = kept "username" (SocialMediaAccount.username old)
  /\ SocialMediaAccount.display_name acc
     = kept "name" (SocialMediaAccount.display_name old)
  /\ SocialMediaAccount.email acc = kept "email" (SocialMediaAccount.email old)
  /\ SocialMediaAccount.profile_url acc
     = kept "profile_url" (SocialMediaAccount.profile_url old)
  /\ SocialMediaAccount.avatar_url acc
     = kept "avatar_url" (SocialMediaAccount.avatar_url old)
  /\ (forall k,
        SocialMediaAccount.extra_data acc !! k =
        match ud !! k with
        | Some v => Some v
        | None => SocialMediaAccount.extra_data old !! k
        end)
  /\ SocialMediaAccount.status acc = "active"
  /\ SocialMediaAccount.pk acc = SocialMediaAccount.pk old
  /\ In acc (accounts db')
  /\ (forall r, In r (accounts db') ->
        SocialMediaAccount.pk r = SocialMediaAccount.pk old -> r = acc).
Proof.
  intros Hnd Hin Hk Huniq Hs kept.
  pose proof (natural_key_only db user platform _ old Hnd Hin Hk Huniq) as Hf.
  apply store_tokens_ok in Hs as (ud' & expires_at & [= <-] & Hs).
  destruct Hs as [(old' & Hf' & Hu & ->)|(Hf' & _)]; [|congruence].
  assert (old' = old) as -> by congruence.
  pose proof (updated_account_fields _ _ _ _ _ _ _ _ Hu) as F.
  cbv zeta in F. destruct F as (Fpk & F1 & F2 & F3 & F4 & F5 & Fx & Fs & _).
  pose proof (save_account_rows acc db) as S. cbv zeta in S.
  destruct S as (S1 & S2 & _).
  repeat split; auto.
  - intros k. rewrite Fx, lookup_union.
    destruct (ud !! k), (SocialMediaAccount.extra_data old !! k); reflexivity.
  - intros r Hr E. apply S2; congruence.
Qed.

(** Without a refresh token, the row that [store_tokens] writes has the
    empty string in that column, whatever was stored before. *)
Lemma store_tokens_falsy_refresh (now : time) (user : nat)
  (platform : string) (access_token refresh_token expires_in scope : pyval)
  (user_data : option (gmap string pyval)) (db db' : DB)
  (acc : SocialMediaAccount.t) :
  truthy refresh_token = false ->
  (forall r, In r (accounts db) -> SocialMediaAccount.pk r < next_pk db) ->
  store_tokens settings dict_repr now user platform access_token
    refresh_token expires_in scope user_data db = (Ok acc, db') ->
  SocialMediaAccount.refresh_token acc = Some ""
  /\ In acc (accounts db')
  /\ (forall r, In r (accounts db') ->
        SocialMediaAccount.pk r = SocialMediaAccount.pk acc -> r = acc)
  /\ (forall r, In r (accounts db') -> r = acc \/ In r (accounts db)).
Proof.
  intros Hr Hfresh Hs.
  apply store_tokens_ok in Hs as (ud & expires_at & -> & Hs).
  destruct Hs as [(old & Hf & Hu & ->)|(Hf & Hc & ->)].
  - pose proof (updated_account_fields _ _ _ _ _ _ _ _ Hu) as F.
    cbv zeta in F. destruct F as (_ & _ & _ & _ & _ & _ & _ & _ & F).
    pose proof (save_account_rows acc db) as S. cbv zeta in S.
    destruct S as (S1 & S2 & S3 & _).
    repeat split; auto.
    intros r Hin.
    destruct (Nat.eq_dec (SocialMediaAccount.pk r) (SocialMediaAccount.pk acc))
      as [E|E]; [left; now apply S2|right; now apply S3].
  - apply created_account_fields in Hc as (Hpk & F).
    cbn [accounts set_accounts set_next_pk].
    repeat split; auto.
    + apply in_or_app. right. now left.
    + intros r Hin E. apply in_app_or in Hin as [Hin|[<-|[]]]; [|reflexivity].
      apply Hfresh in Hin. lia.
    + intros r Hin. apply in_app_or in Hin as [Hin|[<-|[]]]; auto.
Qed.

End Store.

(** ** What the LinkedIn callback writes into the accounts *)

Section Keeps.

Lemma no_new_refresh_same (db db' : DB) :
  accounts db' = accounts db -> no_new_refresh db db'.
Proof. intros E r Hr. left. now rewrite <- E. Qed.

Lemma no_new_refresh_trans (a b c : DB) :
  no_new_refresh a b -> no_new_refresh b c -> no_new_refresh a c.
Proof.
  intros Hab Hbc r Hr. destruct (Hbc r Hr) as [H|H]; [|now right].
  now apply Hab.
Qed.

Lemma keeps_ret {A : Type} (a : A) : keeps (ret a).
Proof. intros db. now apply no_new_refresh_same. Qed.

Lemma keeps_lift {A : Type} (r : result A) : keeps (lift r).
Proof. intros db. now apply no_new_refresh_same. Qed.

Lemma keeps_get_db : keeps get_db.
Proof. intros db. now apply no_new_refresh_same. Qed.

Lemma keeps_fresh_pk : keeps fresh_pk.
Proof. intros db. now apply no_new_refresh_same. Qed.

Lemma keeps_modify (f : DB -> DB) :
  (forall db, accounts (f db) = accounts db) -> keeps (modify f).
Proof. intros H db. apply no_new_refresh_same, H. Qed.

Lemma keeps_bind {A B : Type} (m : M A) (k : A -> M B) :
  keeps m -> (forall a, keeps (k a)) -> keeps (bind m k).
Proof.
  intros Hm Hk db. unfold bind. specialize (Hm db).
  destruct (m db) as [[a|e] db1]; cbn [snd] in *; [|exact Hm].
  eapply no_new_refresh_trans; [exact Hm|apply Hk].
Qed.

Lemma keeps_try {A : Type} (m : M A) (handler : exn -> option (M A)) :
  keeps m -> (forall e h, handler e = Some h -> keeps h) ->
  keeps (try_except m handler).
Proof.
  intros Hm Hh db. unfold try_except. specialize (Hm db).
  destruct (m db) as [[a|e] db1]; cbn [snd] in *; [exact Hm|].
  destruct (handler e) as [h|] eqn:E; [|exact Hm].
  eapply no_new_refresh_trans; [exact Hm|]. now apply (Hh e h).
Qed.

Ltac keeps_step :=
  first
    [ apply keeps_ret | apply keeps_lift | apply keeps_get_db
    | apply keeps_fresh_pk
    | apply keeps_modify; intros ?; reflexivity
    | apply keeps_bind; [|intros ?]
    | apply keeps_try; [|intros ? ? ?]
    | match goal with
      | H : (if ?c then _ else _) = Some _ |- _ => destruct c
      | H : Some _ = Some _ |- _ => injection H as <-
      | H : None = Some _ |- _ => discriminate H
      | |- keeps (if ?c then _ else _) => destruct c
      | |- keeps (match ?x with _ => _ end) => destruct x
      end ].

Lemma keeps_delete_session (s : SessionData.t) : keeps (delete_session s).
Proof. unfold delete_session. repeat keeps_step. Qed.

Lemma keeps_get_oauth_session (now : time) (state : string) :
  keeps (get_oauth_session now state).
Proof.
  unfold get_oauth_session.
  repeat first [apply keeps_delete_session | keeps_step].
Qed.

Context (settings : Settings).
Context (dict_repr : gmap string pyval -> string).
Context (http : Request.t -> result Response.t).

Lemma keeps_get_or_create_related m schema a defaults :
  keeps (get_or_create_related dict_repr m schema a defaults).
Proof. unfold get_or_create_related. repeat keeps_step. Qed.

Lemma keeps_save_account (a : SocialMediaAccount.t) :
  SocialMediaAccount.refresh_token a = Some "" -> keeps (save_account a).
Proof.
  intros Ha db r Hr.
  pose proof (save_account_rows a db) as S. cbv zeta in S.
  destruct S as (_ & S2 & S3 & _).
  destruct (Nat.eq_dec (SocialMediaAccount.pk r) (SocialMediaAccount.pk a))
    as [E|E].
  - right. now rewrite (S2 r Hr E).
  - left. now apply S3.
Qed.

Lemma keeps_store_tokens now user platform access_token refresh_token
  expires_in scope user_data :
  truthy refresh_token = false ->
  keeps (store_tokens settings dict_repr now user platform access_token
           refresh_token expires_in scope user_data).
Proof.
  intros Hr. unfold store_tokens.
  apply keeps_bind; [apply keeps_lift|intros expires_at].
  destruct user_data as [ud|]; [|intros db; now apply no_new_refresh_same].
  destruct (_ || _); [intros db; now apply no_new_refresh_same|].
  apply keeps_try.
  - apply keeps_bind; [apply keeps_get_db|intros db0].
    apply keeps_bind; [apply keeps_lift|intros old].
    intros db. unfold bind, lift.
    destruct (updated_account _ _ _ _ _ _ _ _ _) as [updated|e] eqn:Eu;
      [|now apply no_new_refresh_same].
    apply updated_account_fields in Eu. cbv zeta in Eu.
    destruct Eu as (_ & _ & _ & _ & _ & _ & _ & _ & F).
    pose proof (keeps_save_account updated (F Hr) db) as K.
    destruct (save_account updated db) as [[[]|e] db1]; exact K.
  - intros e h He. destruct (is_DoesNotExist e); [|discriminate].
    injection He as <-.
    apply keeps_bind; [apply keeps_get_db|intros db0].
    intros db. unfold bind, lift.
    destruct (created_account _ _ _ _ _ _ _ _ _ _ _) as [created|e'] eqn:Ec;
      [|now apply no_new_refresh_same].
    apply created_account_fields in Ec as (_ & F).
    cbn. intros r Hin. apply in_app_or in Hin as [Hin|[<-|[]]]; auto.
Qed.

Lemma keeps_linkedin_callback (now : time) (request : HttpRequest.t) :
  keeps (linkedin_callback settings dict_repr http now request).
Proof.
  unfold linkedin_callback.
  repeat first
    [ apply keeps_delete_session | apply keeps_get_oauth_session
    | apply keeps_get_or_create_related
    | apply keeps_store_tokens; reflexivity
    | keeps_step ].
Qed.

End Keeps.

(** C10. A call of [store_tokens] with a refresh token that is [None] or
    otherwise false, when it succeeds, leaves one row under the primary key
    of the account and that row has the empty string as refresh token:
    what was stored before is gone. The LinkedIn callback only ever passes
    [None]: whatever the request and the network do, every account row in
    storage after it was there before or has an empty refresh token. *)
Theorem store_tokens_erases_refresh_token (settings : Settings)
  (dict_repr : gmap string pyval -> string) (now : time) (user : nat)
  (platform : string) (access_token refresh_token expires_in scope : pyval)
  (user_data : option (gmap string pyval)) (db db' : DB)
  (acc : SocialMediaAccount.t) :
  truthy refresh_token = false ->
  (forall r, In r (accounts db) -> SocialMediaAccount.pk r < next_pk db) ->
  store_tokens settings dict_repr now user platform access_token
    refresh_token expires_in scope user_data db = (Ok acc, db') ->
  (SocialMediaAccount.refresh_token acc = Some ""
   /\ In acc (accounts db')
   /\ (forall r, In r (accounts db') ->
         SocialMediaAccount.pk r = SocialMediaAccount.pk acc ->
         SocialMediaAccount.refresh_token r = Some ""))
  /\ (forall http now' request db0 r,
        In r (accounts
                (snd (linkedin_callback settings dict_repr http now' request
                        db0))) ->
        In r (accounts db0)
        \/ SocialMediaAccount.refresh_token r = Some "").
Proof.
  intros Hr Hfresh Hs. split.
  - destruct (store_tokens_falsy_refresh _ _ _ _ _ _ _ _ _ _ _ _ _ Hr Hfresh Hs)
      as (H1 & H2 & H3 & _).
    repeat split; auto. intros r Hin E. now rewrite (H3 r Hin E).
  - intros http now' request db0. apply keeps_linkedin_callback.
Qed.

(** ** PKCE *)

Module PkceFacts.
Import Base64 Base64Check Base64Facts.

Lemma translate_pad : urlsafe_translate pad = pad.
Proof. reflexivity. Qed.

Lemma translate_not_pad (c : byte) :
  Ascii.eqb c pad = false -> urlsafe_translate c <> pad.
Proof.
  unfold urlsafe_translate. intros H.
  destruct (Ascii.eqb c "+"); [discriminate|].
  destruct (Ascii.eqb c "/"); [discriminate|].
  intros ->. discriminate.
Qed.

Lemma enc_not_pad (n : N) :
  sextet_ok n = true -> urlsafe_translate (b2a n) <> pad.
Proof. intros H. apply translate_not_pad. now apply sextet_not_pad. Qed.

Lemma tail1_ok (a : byte) : sextet_ok (N.shiftl (lo2 a) 4) = true.
Proof.
  destruct (pair_facts a zero) as (_ & _ & A3 & _).
  unfold mid1 in A3. now rewrite zero_hi4, N.lor_0_r in A3.
Qed.

Lemma tail2_ok (b : byte) : sextet_ok (N.shiftl (lo4 b) 2) = true.
Proof.
  destruct (pair_facts b zero) as (_ & _ & _ & B4 & _).
  unfold mid2 in B4. now rewrite zero_hi2, N.lor_0_r in B4.
Qed.

Lemma hi6_ok (a : byte) : sextet_ok (hi6 a) = true.
Proof. now destruct (pair_facts a a). Qed.

Lemma lo6_ok (a : byte) : sextet_ok (lo6 a) = true.
Proof. now destruct (pair_facts a a) as (_ & ? & _). Qed.

Lemma mid1_ok (a b : byte) : sextet_ok (mid1 a b) = true.
Proof. now destruct (pair_facts a b) as (_ & _ & ? & _). Qed.

Lemma mid2_ok (a b : byte) : sextet_ok (mid2 a b) = true.
Proof. now destruct (pair_facts a b) as (_ & _ & _ & ? & _). Qed.

(** The padded encoding is the unpadded one followed by pads only. *)
Lemma urlsafe_split (s : bytes) :
  exists k, urlsafe_b64encode s = (base64url_nopad s ++ replicate k pad)%list.
Proof.
  unfold urlsafe_b64encode, b64encode.
  induction s as [|a|a b|a b c r [k IH]] using triple_ind.
  - now exists 0.
  - now exists 2.
  - now exists 1.
  - exists k. cbn [b2a_base64 map base64url_nopad]. rewrite IH. reflexivity.
Qed.

Lemma nopad_has_no_pad (s : bytes) :
  Forall (fun c => c <> pad) (base64url_nopad s).
Proof.
  induction s as [|a|a b|a b c r IH] using triple_ind;
    cbn [base64url_nopad]; repeat constructor;
    auto using enc_not_pad, hi6_ok, lo6_ok, mid1_ok, mid2_ok, tail1_ok,
      tail2_ok.
Qed.

Lemma lstrip_replicate (c : ascii) (k : nat) (l : list ascii) :
  lstrip_char c (replicate k c ++ l) = lstrip_char c l.
Proof.
  induction k as [|k IH]; [reflexivity|].
  cbn. now rewrite Ascii.eqb_refl.
Qed.

Lemma lstrip_noop (c : ascii) (l : list ascii) :
  Forall (fun x => x <> c) l -> lstrip_char c l = l.
Proof.
  destruct 1 as [|x l Hx _]; [reflexivity|].
  cbn. apply Ascii.eqb_neq in Hx. now rewrite Hx.
Qed.

Lemma rev_replicate {A : Type} (k : nat) (x : A) :
  rev (replicate k x) = replicate k x.
Proof.
  induction k as [|k IH]; [reflexivity|].
  cbn. rewrite IH. clear IH.
  induction k as [|k IH]; [reflexivity|]. cbn. now rewrite IH.
Qed.

Lemma rstrip_pads (c : ascii) (k : nat) (l : list ascii) :
  Forall (fun x => x <> c) l ->
  rstrip_char c (l ++ replicate k c) = l.
Proof.
  intros H. unfold rstrip_char.
  rewrite rev_app_distr, rev_replicate, lstrip_replicate.
  rewrite lstrip_noop; [apply rev_involutive|].
  now apply List.Forall_rev.
Qed.

(** Stripping the pads from the padded encoding gives the unpadded one. *)
Lemma rstrip_urlsafe (s : bytes) :
  rstrip_char pad (urlsafe_b64encode s) = base64url_nopad s.
Proof.
  destruct (urlsafe_split s) as [k ->].
  apply rstrip_pads, nopad_has_no_pad.
Qed.

Lemma translate_ascii (c : byte) :
  byte_in 0 127 c = true -> byte_in 0 127 (urlsafe_translate c) = true.
Proof.
  unfold urlsafe_translate. intros H.
  destruct (Ascii.eqb c "+"); [reflexivity|].
  destruct (Ascii.eqb c "/"); [reflexivity|exact H].
Qed.

Lemma urlsafe_ascii (s : bytes) :
  Forall (fun b => byte_in 0 127 b = true) (urlsafe_b64encode s).
Proof.
  unfold urlsafe_b64encode. apply List.Forall_forall. intros x Hx.
  apply in_map_iff in Hx as (y & <- & Hy). apply translate_ascii.
  pose proof (b64encode_ascii s) as H. rewrite List.Forall_forall in H.
  now apply H.
Qed.

Lemma strip_encoded (s : bytes) :
  (let? text := bytes_decode (urlsafe_b64encode s) in Ok (rstrip "=" text))
  = Ok (str_of_bytes (base64url_nopad s)).
Proof.
  unfold bytes_decode. rewrite utf8_valid_ascii by apply urlsafe_ascii.
  cbn [rbind]. unfold rstrip. rewrite str_encode_of_bytes.
  change (rstrip_char "="%char) with (rstrip_char pad).
  now rewrite (rstrip_urlsafe s).
Qed.

End PkceFacts.

Lemma append_assoc (a b c : string) : (a +:+ b) +:+ c = a +:+ (b +:+ c).
Proof.
  induction a as [|x a IH]; [reflexivity|].
  change (String x ((a +:+ b) +:+ c) = String x (a +:+ (b +:+ c))).
  now f_equal.
Qed.

Section Pkce.

Context (settings : Settings).
Context (sha256 : bytes -> bytes).

(** C9. The code verifier of [twitter_login] is the unpadded URL-safe
    base64 text of the 32 random bytes drawn for it, the code challenge is
    the unpadded URL-safe base64 text of the SHA-256 digest of the verifier,
    the verifier is kept in the session that the view stores, and the
    authorization URL carries the challenge with
    [code_challenge_method=S256]. *)
Theorem twitter_login_pkce (now : time) (rng : nat -> byte)
  (request : HttpRequest.t) (db : DB) :
  let random := token_bytes rng 32 in
  let code_verifier := str_of_bytes (base64url_nopad random) in
  let code_challenge :=
    str_of_bytes (base64url_nopad (sha256 (str_encode code_verifier))) in
  length random = 32
  /\ pkce_code_verifier random = Ok code_verifier
  /\ pkce_code_challenge sha256 code_verifier = Ok code_challenge
  /\ exists response db' state,
       twitter_login settings sha256 now rng request db = (Ok response, db')
       /\ redirect_to response =
          "https://twitter.com/i/oauth2/authorize?"
          +:+ urlencode
                (twitter_auth_params settings state code_challenge (pretty now))
       /\ In ("code_challenge", code_challenge)
             (twitter_auth_params settings state code_challenge (pretty now))
       /\ In ("code_challenge_method", "S256")
             (twitter_auth_params settings state code_challenge (pretty now))
       /\ (exists before after,
             redirect_to response =
             before +:+ "&code_challenge_method=S256&" +:+ after)
       /\ (exists s, In s (sessions db')
                     /\ SessionData.oauth_state s = state
                     /\ SessionData.code_verifier s = code_verifier
                     /\ SessionData.user s = HttpRequest.user request).
Proof.
  intros random code_verifier code_challenge.
  assert (Hv : pkce_code_verifier random = Ok code_verifier)
    by apply PkceFacts.strip_encoded.
  assert (Hc : pkce_code_challenge sha256 code_verifier = Ok code_challenge)
    by apply PkceFacts.strip_encoded.
  split; [reflexivity|]. split; [exact Hv|]. split; [exact Hc|].
  unfold twitter_login. unfold bind at 1. unfold modify at 1.
  unfold bind at 1. unfold lift at 1. fold random. rewrite Hv.
  unfold bind at 1. unfold lift at 1. rewrite Hc.
  set (state := token_urlsafe _ 32).
  assert (Hst : state <> "").
  { subst state. unfold token_urlsafe.
    change (rstrip_char "="%char) with (rstrip_char Base64.pad).
    rewrite PkceFacts.rstrip_urlsafe. discriminate. }
  unfold create_oauth_session. cbn [of_opt truthy default from_option id].
  rewrite (eqb_empty_false _ Hst). cbn [negb].
  unfold bind, fresh_pk, modify, ret.
  eexists _, _, state. split; [reflexivity|].
  cbn [redirect_to]. split; [reflexivity|].
  split; [cbn; tauto|]. split; [cbn; tauto|]. split.
  - unfold twitter_auth_params. cbn [urlencode].
    change (quote_plus "code_challenge_method") with "code_challenge_method".
    change (quote_plus "S256") with "S256".
    eexists
      ("https://twitter.com/i/oauth2/authorize?"
       +:+ quote_plus "response_type" +:+ "=" +:+ quote_plus "code"
       +:+ "&" +:+ quote_plus "client_id" +:+ "="
       +:+ quote_plus (TWITTER_CLIENT_ID settings)
       +:+ "&" +:+ quote_plus "redirect_uri" +:+ "="
       +:+ quote_plus (TWITTER_REDIRECT_URI settings)
       +:+ "&" +:+ quote_plus "scope" +:+ "="
       +:+ quote_plus "tweet.read users.read follows.read offline.access"
       +:+ "&" +:+ quote_plus "state" +:+ "=" +:+ quote_plus state
       +:+ "&" +:+ quote_plus "code_challenge" +:+ "="
       +:+ quote_plus code_challenge), _.
    rewrite !append_assoc. cbn [append]. reflexivity.
  - eexists. split; [|split; [|split]].
    + cbn [sessions set_sessions]. apply in_or_app. right. now left.
    + reflexivity.
    + cbn [SessionData.code_verifier].
      destruct (String.eqb code_verifier "") eqn:E; [|reflexivity].
      cbn [negb]. now apply String.eqb_eq in E.
    + reflexivity.
Qed.

End Pkce.

(** * The theorems at concrete data *)

Ltac no_dup := repeat constructor; cbn; intuition discriminate.

Ltac only_row :=
  let r := fresh "r" in
  let Hr := fresh "Hr" in
  let E := fresh "E" in
  intros r Hr E; cbn in Hr;
  repeat (destruct Hr as [<-|Hr]; [first [reflexivity|discriminate E]|]);
  destruct Hr.

Lemma get_oauth_session_expiry_witness :
  (exists db',
     get_oauth_session EX.now (SessionData.oauth_state EX.stale) EX.db
     = (Ok None, db')
     /\ (forall r, In r (sessions db') <-> In r (sessions EX.db) /\ r <> EX.stale)
     /\ accounts db' = accounts EX.db
     /\ api_call_logs db' = api_call_logs EX.db
     /\ related db' = related EX.db)
  /\ get_oauth_session EX.now (SessionData.oauth_state EX.live) EX.db
     = (Ok (Some EX.live), EX.db).
Proof.
  split.
  - apply (get_oauth_session_expiry EX.now EX.db EX.stale);
      [no_dup | cbn; tauto | only_row | reflexivity].
  - apply (get_oauth_session_expiry EX.now EX.db EX.live);
      [no_dup | cbn; tauto | only_row | discriminate].
Defined.

Lemma get_valid_token_expiry_witness :
  (exists db',
     get_valid_token EX.settings EX.now EX.bob EX.db =
       (Ok (None, SocialMediaAccount.set_status "expired" EX.bob), db')
     /\ In (SocialMediaAccount.set_status "expired" EX.bob) (accounts db')
     /\ (forall r, In r (accounts db') ->
                   SocialMediaAccount.pk r = SocialMediaAccount.pk EX.bob ->
                   SocialMediaAccount.status r = "expired")
     /\ (forall r, SocialMediaAccount.pk r <> SocialMediaAccount.pk EX.bob ->
                   (In r (accounts db') <-> In r (accounts EX.db))))
  /\ get_valid_token EX.settings EX.now EX.alice EX.db =
       (Ok (Some (decrypt_token EX.settings
                    (SocialMediaAccount.access_token EX.alice)), EX.alice),
        EX.db).
Proof.
  split.
  - apply (get_valid_token_expiry EX.settings EX.now EX.db EX.bob) with 900%Z;
      reflexivity.
  - apply (get_valid_token_expiry EX.settings EX.now EX.db EX.alice).
    right. exists 9000%Z. split; reflexivity.
Defined.

Lemma foreign_callback_example :
  foreign_callback EX.now EX.foreign_request EX.db EX.live.
Proof.
  constructor.
  - reflexivity.
  - exists "abc". split; [reflexivity|discriminate].
  - reflexivity.
  - discriminate.
  - no_dup.
  - cbn; tauto.
  - only_row.
  - discriminate.
  - discriminate.
Defined.

Lemma twitter_callback_foreign_session_witness :
  twitter_callback EX.settings EX.dict_repr EX.offline EX.now
    EX.foreign_request EX.db
  = (Ok (dashboard messages.error "Invalid session state"), EX.db)
  /\ In EX.live (sessions EX.db).
Proof.
  exact (twitter_callback_foreign_session EX.settings EX.dict_repr EX.offline
           EX.now EX.foreign_request EX.db EX.live foreign_callback_example).
Defined.

Lemma disconnect_account_several_matches_witness :
  disconnect_account EX.settings EX.offline 1 "linkedin" EX.db
  = (Ok false, EX.db).
Proof.
  apply (disconnect_account_several_matches EX.settings EX.offline 1
           "linkedin" EX.db EX.alice EX.alice_second);
    try reflexivity; try (cbn; tauto). discriminate.
Defined.

(** How the storage gets there: user 1, who has a LinkedIn account, goes
    through the flow again under another LinkedIn identity; [store_tokens]
    inserts a second row, and from then on [disconnect_account] answers
    false for the user and the platform. *)
Lemma second_identity_blocks_disconnect :
  exists acc db1,
    store_tokens EX.settings EX.dict_repr EX.now 1 "linkedin"
      (VStr "second-token") VNone VNone VNone
      (Some {[ "id" := VStr "li-2" ]}) EX.before = (Ok acc, db1)
    /\ map SocialMediaAccount.platform_user_id (accounts db1)
       = ["li-1"; "tw-7"; "li-2"]
    /\ disconnect_account EX.settings EX.offline 1 "linkedin" db1
       = (Ok false, db1).
Proof. eexists _, _. split; [|split]; vm_compute; reflexivity. Qed.

Lemma disconnect_survives_revocation_failure_witness :
  _revoke_platform_token EX.settings EX.offline EX.bob "twitter" EX.db
  = (Ok tt, EX.db)
  /\ exists db',
       disconnect_account EX.settings EX.offline 2 "twitter" EX.db
       = (Ok true, db')
       /\ (forall r, In r (accounts db') <-> In r (accounts EX.db) /\ r <> EX.bob)
       /\ (forall r, In r (api_call_logs db') <->
             In r (api_call_logs EX.db)
             /\ APICallLog.social_account r <> SocialMediaAccount.pk EX.bob)
       /\ (forall r, In r (related db') <->
             In r (related EX.db)
             /\ Related.social_account r <> SocialMediaAccount.pk EX.bob)
       /\ (forall r, In r (sessions db') <->
             In r (sessions EX.db)
             /\ SessionData.social_account r
                <> Some (SocialMediaAccount.pk EX.bob)
             /\ session_tagged 2 "twitter" r = false).
Proof.
  apply (disconnect_survives_revocation_failure EX.settings EX.offline 2
           "twitter" EX.db EX.bob).
  - no_dup.
  - cbn; tauto.
  - reflexivity.
  - reflexivity.
  - intros r Hr U P. cbn in Hr.
    repeat (destruct Hr as [<-|Hr]; [first [reflexivity|discriminate U]|]).
    destruct Hr.
Defined.

Lemma make_request_logs_twice_witness :
  exists db',
    make_request EX.settings EX.not_found EX.now 5 EX.alice "/me" "GET" None
      VNone None EX.db = (Ok None, db')
    /\ api_call_logs db' =
       (api_call_logs EX.db ++
        [plain_entry 40 EX.alice "/me" "GET" 404 5 "";
         plain_entry 41 EX.alice "/me" "GET" 404 5 "Not Found"])%list.
Proof.
  apply (make_request_logs_twice EX.settings EX.not_found EX.now 5 EX.alice
           "/me" None None
           {| Response.status_code := 404;
              Response.headers := ∅;
              Response.text := "Not Found";
              Response.json :=
                Raise (Exception JSONDecodeError "Expecting value") |} EX.db).
  - split; [reflexivity|]. vm_compute. discriminate.
  - intros rq. reflexivity.
  - discriminate.
  - reflexivity.
Defined.

(** A second departure on the same path: LinkedIn answers carry the header
    [X-Restli-Protocol-Version], whose value is not an integer; the first
    log call raises on it, and the call is logged with status 0 and no
    payload is returned although the answer was a 200. *)
Lemma make_request_linkedin_version_header :
  exists db',
    make_request EX.settings EX.restli EX.now 5 EX.alice "/me" "GET" None
      VNone None EX.db = (Ok None, db')
    /\ api_call_logs db' =
       (api_call_logs EX.db ++
        [plain_entry 40 EX.alice "/me" "GET" 0 5
           "invalid literal for int() with base 10: '2.0.0'"])%list.
Proof. eexists. split; vm_compute; reflexivity. Qed.

(** C8 as the specification words it fails: a profile that comes back with
    an empty name wipes the stored display name. *)
Lemma store_tokens_overwrites_with_empty : ~ overwrites_only_nonempty.
Proof.
  intros H.
  specialize (H EX.settings EX.dict_repr EX.now 1 "linkedin"
                (VStr "new-token") VNone VNone VNone EX.nameless EX.db
                (snd EX.reauth) EX.alice EX.reauth_account).
  cbv zeta in H.
  destruct H as (_ & H & _); [reflexivity|vm_compute; reflexivity|].
  vm_compute in H. discriminate H.
Qed.

Lemma store_tokens_updates_existing_witness :
  SocialMediaAccount.username EX.reauth_account = "alice"
  /\ SocialMediaAccount.display_name EX.reauth_account = ""
  /\ SocialMediaAccount.email EX.reauth_account = "alice@example.org"
  /\ SocialMediaAccount.status EX.reauth_account = "active"
  /\ In EX.reauth_account (accounts (snd EX.reauth)).
Proof.
  pose proof (store_tokens_updates_existing EX.settings EX.dict_repr EX.now 1
                "linkedin" (VStr "new-token") VNone VNone VNone EX.nameless
                EX.db (snd EX.reauth) EX.alice EX.reauth_account) as H.
  cbv zeta in H.
  destruct H as (H1 & H2 & H3 & _ & _ & _ & H7 & _ & H9 & _).
  - no_dup.
  - cbn; tauto.
  - reflexivity.
  - intros r Hr E. cbn in Hr.
    repeat (destruct Hr as [<-|Hr]; [first [reflexivity|discriminate E]|]).
    destruct Hr.
  - vm_compute. reflexivity.
  - repeat split; assumption.
Defined.

Lemma store_tokens_erases_refresh_token_witness :
  SocialMediaAccount.refresh_token EX.alice = Some (EX.cipher "refresh-1")
  /\ SocialMediaAccount.refresh_token EX.reauth_account = Some ""
  /\ In EX.reauth_account (accounts (snd EX.reauth)).
Proof.
  split; [reflexivity|].
  destruct (store_tokens_erases_refresh_token EX.settings EX.dict_repr EX.now
              1 "linkedin" (VStr "new-token") VNone VNone VNone
              (Some EX.nameless) EX.db (snd EX.reauth) EX.reauth_account)
    as ((H1 & H2 & _) & _).
  - reflexivity.
  - intros r Hr. cbn in Hr.
    repeat (destruct Hr as [<-|Hr]; [cbn; lia|]). destruct Hr.
  - vm_compute. reflexivity.
  - split; assumption.
Defined.

(** * More of the code *)

(** ** Tokens in storage *)

Section MoreTokens.

Context (settings : Settings).
Context (dict_repr : gmap string pyval -> string).

Lemma get_valid_token_expired (now : time) (db : DB)
  (a : SocialMediaAccount.t) :
  SocialMediaAccount.is_token_expired now a = true ->
  get_valid_token settings now a db
  = (Ok (None, SocialMediaAccount.set_status "expired" a),
     snd (save_account (SocialMediaAccount.set_status "expired" a) db)).
Proof.
  intros He. unfold get_valid_token. rewrite He.
  assert (Hnone :
    (if truthy (of_opt (SocialMediaAccount.refresh_token a))
     then match refresh_access_token a with
          | Some _ =>
            Some (decrypt_token settings (SocialMediaAccount.access_token a))
          | None => None
          end
     else None) = None) by now destruct (truthy _).
  rewrite Hnone. reflexivity.
Qed.

(** X1. An expired account gets no token and is marked expired whatever
    refresh token it holds: no platform has a refresh strategy. *)
Theorem get_valid_token_refresh_unavailable (now : time) (db : DB)
  (a : SocialMediaAccount.t) (e : time) :
  SocialMediaAccount.token_expires_at a = Some e -> (e < now)%Z ->
  exists db',
    get_valid_token settings now a db =
      (Ok (None, SocialMediaAccount.set_status "expired" a), db')
    /\ In (SocialMediaAccount.set_status "expired" a) (accounts db')
    /\ (forall r, In r (accounts db') ->
                  SocialMediaAccount.pk r = SocialMediaAccount.pk a ->
                  SocialMediaAccount.status r = "expired")
    /\ sessions db' = sessions db
    /\ api_call_logs db' = api_call_logs db.
Proof.
  intros He Hlt.
  assert (Hexp : SocialMediaAccount.is_token_expired now a = true).
  { unfold SocialMediaAccount.is_token_expired. rewrite He.
    now apply Z.ltb_lt. }
  rewrite (get_valid_token_expired now db a Hexp).
  pose proof (save_account_rows
                (SocialMediaAccount.set_status "expired" a) db) as H.
  cbv zeta in H. destruct H as (H1 & H2 & _ & H4 & H5 & _).
  eexists. split; [reflexivity|]. repeat split; auto.
  intros r Hin E. now rewrite (H2 r Hin E).
Qed.

(** X2. Without a platform user id ([user_data] missing, empty, or with a
    missing or false ["id"]) [store_tokens] raises and writes nothing; when
    no expiry is given the exception is the [ValueError] of the source. *)
Theorem store_tokens_missing_identity (now : time) (user : nat)
  (platform : string) (access_token refresh_token expires_in scope : pyval)
  (user_data : option (gmap string pyval)) (db : DB) :
  match user_data with
  | None => True
  | Some ud => truthy (dict_get ud "id" VNone) = false
  end ->
  exists e,
    store_tokens settings dict_repr now user platform access_token
      refresh_token expires_in scope user_data db = (Raise e, db)
    /\ (truthy expires_in = false ->
        e = Exception ValueError
              ("Missing user_data or platform user ID for " +:+ platform)).
Proof.
  intros H. unfold store_tokens. unfold bind at 1. unfold lift at 1.
  destruct (truthy expires_in) eqn:Et.
  - destruct (py_int expires_in) as [n|e0]; cbn [rbind].
    + destruct user_data as [ud|].
      * rewrite H. rewrite orb_true_r. eexists. split; [reflexivity|].
        discriminate.
      * eexists. split; [reflexivity|]. discriminate.
    + exists e0. split; [reflexivity|discriminate].
  - destruct user_data as [ud|].
    + rewrite H. rewrite orb_true_r. eexists. split; reflexivity.
    + eexists. split; reflexivity.
Qed.

(** Whatever [store_tokens] raises, it has written nothing. *)
Lemma store_tokens_raise (now : time) (user : nat) (platform : string)
  (access_token refresh_token expires_in scope : pyval)
  (user_data : option (gmap string pyval)) (db db' : DB) (e : exn) :
  store_tokens settings dict_repr now user platform access_token
    refresh_token expires_in scope user_data db = (Raise e, db') ->
  db' = db.
Proof.
  unfold store_tokens. unfold bind at 1. unfold lift at 1.
  destruct (if truthy expires_in then _ else _) as [expires_at|e0];
    [|now intros [= _ <-]].
  destruct user_data as [ud|]; [|now intros [= _ <-]].
  destruct (negb (truthy (VDict ud)) || _); [now intros [= _ <-]|].
  unfold try_except. unfold bind at 1. unfold get_db.
  unfold bind at 1. unfold lift at 1. unfold objects_get.
  destruct (List.filter _ (accounts db)) as [|old [|x rest]] eqn:Hf.
  - cbn [is_DoesNotExist exn_class_of]. unfold bind at 1.
    unfold bind at 1. unfold lift at 1.
    destruct (created_account _ _ _ _ _ _ _ _ _ _ _) as [created|e1];
      [|now intros [= _ <-]].
    unfold bind, fresh_pk, modify, ret. discriminate.
  - unfold bind at 1. unfold lift at 1.
    destruct (updated_account _ _ _ _ _ _ _ _ _) as [updated|e1] eqn:Eu.
    + unfold bind, ret.
      destruct (save_account updated db) as [[[]|e2] db1] eqn:Es;
        [discriminate|discriminate Es].
    + rewrite (updated_account_class _ _ _ _ _ _ _ _ _ _ Eu).
      now intros [= _ <-].
  - cbn [is_DoesNotExist exn_class_of]. now intros [= _ <-].
Qed.

End MoreTokens.

Section MoreStore.

Context (settings : Settings).
Context (dict_repr : gmap string pyval -> string).

Lemma updated_account_keys now access_token refresh_token scope expires_at
  (ud : gmap string pyval) (old acc : SocialMediaAccount.t) :
  updated_account settings dict_repr now access_token refresh_token scope
    expires_at ud old = Ok acc ->
  SocialMediaAccount.pk acc = SocialMediaAccount.pk old
  /\ natural_key_of acc = natural_key_of old
  /\ SocialMediaAccount.token_expires_at acc = expires_at
  /\ exists refresh,
       token_columns settings access_token refresh_token
       = Ok (SocialMediaAccount.access_token acc, refresh)
       /\ SocialMediaAccount.refresh_token acc = Some refresh.
Proof.
  unfold updated_account. intros H.
  destruct (token_columns settings access_token refresh_token)
    as [[access refresh]|e]; [|discriminate H].
  cbn [rbind] in H. invert_ok H. injection H as <-. cbn.
  repeat split. now exists refresh.
Qed.

Lemma created_account_keys pk user platform platform_user_id access_token
  refresh_token scope expires_at (ud : gmap string pyval)
  (acc : SocialMediaAccount.t) :
  created_account settings dict_repr pk user platform platform_user_id
    access_token refresh_token scope expires_at ud = Ok acc ->
  let text (key : string) :=
    match ud !! key with
    | Some v => py_str dict_repr v
    | None => ""
    end in
  SocialMediaAccount.pk acc = pk
  /\ natural_key_of acc = (user, platform, platform_user_id)
  /\ SocialMediaAccount.token_expires_at acc = expires_at
  /\ SocialMediaAccount.status acc = "active"
  /\ SocialMediaAccount.extra_data acc = ud
  /\ SocialMediaAccount.username acc = text "username"
  /\ SocialMediaAccount.display_name acc = text "name"
  /\ SocialMediaAccount.email acc = text "email"
  /\ SocialMediaAccount.profile_url acc = text "profile_url"
  /\ SocialMediaAccount.avatar_url acc = text "avatar_url"
  /\ exists refresh,
       token_columns settings access_token refresh_token
       = Ok (SocialMediaAccount.access_token acc, refresh)
       /\ SocialMediaAccount.refresh_token acc = Some refresh.
Proof.
  unfold created_account. intros H.
  destruct (token_columns settings access_token refresh_token)
    as [[access refresh]|e]; [|discriminate H].
  cbn [rbind] in H. invert_ok H. injection H as <-. cbn.
  apply char_column_text in E0, E1, E2, E3, E4.
  rewrite dict_get_lookup in E0, E1, E2, E3, E4.
  repeat split.
  - rewrite E0. now destruct (ud !! "username").
  - rewrite E1. now destruct (ud !! "name").
  - rewrite E2. now destruct (ud !! "email").
  - rewrite E3. now destruct (ud !! "profile_url").
  - rewrite E4. now destruct (ud !! "avatar_url").
  - now exists refresh.
Qed.

Lemma natural_key_spec (user : nat) (platform id : string)
  (a : SocialMediaAccount.t) :
  natural_key user platform id a = true
  <-> natural_key_of a = (user, platform, id).
Proof.
  unfold natural_key, natural_key_of.
  rewrite !andb_true_iff, Nat.eqb_eq, !String.eqb_eq.
  split; [intros [[-> ->] ->]; reflexivity|intros [= -> -> ->]; auto].
Qed.

Lemma filter_nil_none {A : Type} (cond : A -> bool) (l : list A) :
  List.filter cond l = [] -> forall r, In r l -> cond r = false.
Proof.
  intros Hf r Hr. destruct (cond r) eqn:E; [|reflexivity].
  assert (H : In r (List.filter cond l)) by now apply filter_In.
  rewrite Hf in H. destruct H.
Qed.

Lemma filter_one_in {A : Type} (cond : A -> bool) (l : list A) (x : A) :
  List.filter cond l = [x] -> In x l /\ cond x = true.
Proof.
  intros Hf. apply filter_In. rewrite Hf. now left.
Qed.

Lemma NoDup_snoc {A : Type} (l : list A) (x : A) :
  List.NoDup l -> ~ In x l -> List.NoDup (l ++ [x]).
Proof.
  induction l as [|y l IH]; cbn; intros Hnd Hx.
  - constructor; [tauto|constructor].
  - apply List.NoDup_cons_iff in Hnd as [Hy Hnd]. constructor.
    + intros Hin. apply in_app_or in Hin as [Hin|[->|[]]]; tauto.
    + apply IH; tauto.
Qed.

(** Replacing rows by a row with the same keys leaves the keys as they
    were. *)
Lemma map_replace_same {A B : Type} (key : A -> B) (same : A -> bool)
  (a : A) (l : list A) :
  (forall r, In r l -> same r = true -> key r = key a) ->
  map key (map (fun r => if same r then a else r) l) = map key l.
Proof.
  intros H. rewrite map_map. apply map_ext_in. intros r Hr.
  destruct (same r) eqn:E; [symmetry; now apply H|reflexivity].
Qed.

(** X3. [store_tokens] keeps the table of accounts well formed, whatever
    it is given and whether it succeeds or raises: primary keys stay
    distinct and below the counter, and there is still at most one row per
    (user, platform, platform user id). *)
Theorem store_tokens_keeps_accounts_ok (now : time) (user : nat)
  (platform : string) (access_token refresh_token expires_in scope : pyval)
  (user_data : option (gmap string pyval)) (db db' : DB)
  (r : result SocialMediaAccount.t) :
  accounts_ok db ->
  store_tokens settings dict_repr now user platform access_token
    refresh_token expires_in scope user_data db = (r, db') ->
  accounts_ok db'.
Proof.
  intros (Hpk & Hnk & Hlt) Hs. destruct r as [acc|e].
  2:{ apply store_tokens_raise in Hs as ->. now repeat split. }
  apply store_tokens_ok in Hs as (ud & expires_at & -> & Hs).
  destruct Hs as [(old & Hf & Hu & ->)|(Hf & Hc & ->)].
  - apply updated_account_keys in Hu as (Kpk & Knk & _).
    apply filter_one_in in Hf as [Hin _].
    unfold save_account, modify. cbn [snd].
    assert (Hex : existsb (fun r => Nat.eqb (SocialMediaAccount.pk r)
                                            (SocialMediaAccount.pk acc))
                          (accounts db) = true).
    { apply existsb_exists. exists old. split; [exact Hin|].
      apply Nat.eqb_eq. congruence. }
    rewrite Hex. unfold accounts_ok. cbn [accounts set_accounts next_pk].
    assert (Hsame : forall r, In r (accounts db) ->
              Nat.eqb (SocialMediaAccount.pk r) (SocialMediaAccount.pk acc)
              = true -> r = old).
    { intros r Hr E. apply Nat.eqb_eq in E.
      apply (key_injective_in SocialMediaAccount.pk (accounts db)); auto.
      congruence. }
    rewrite (map_replace_same SocialMediaAccount.pk),
            (map_replace_same natural_key_of).
    + repeat split; auto. intros r Hr. apply in_map_iff in Hr as (y & Ey & Hy).
      destruct (Nat.eqb _ _); [|subst; auto].
      subst r. rewrite Kpk. now apply Hlt.
    + intros r Hr E. rewrite (Hsame r Hr E). now symmetry.
    + intros r Hr E. rewrite (Hsame r Hr E). now symmetry.
  - apply created_account_keys in Hc. cbv zeta in Hc.
    destruct Hc as (Kpk & Knk & _).
    unfold accounts_ok. cbn [accounts set_accounts set_next_pk next_pk].
    rewrite !map_app. cbn [map]. repeat split.
    + apply NoDup_snoc; [exact Hpk|].
      intros Hin. apply in_map_iff in Hin as (y & Ey & Hy).
      apply Hlt in Hy. lia.
    + apply NoDup_snoc; [exact Hnk|].
      intros Hin. apply in_map_iff in Hin as (y & Ey & Hy).
      rewrite Knk in Ey. apply natural_key_spec in Ey.
      now rewrite (filter_nil_none _ _ Hf y Hy) in Ey.
    + intros r Hr. apply in_app_or in Hr as [Hr|[<-|[]]]; [|lia].
      apply Hlt in Hr. lia.
Qed.

(** The expiry and the token columns of the row that a successful
    [store_tokens] returns. *)
Lemma store_tokens_token_columns (now : time) (user : nat)
  (platform : string) (access_token refresh_token expires_in scope : pyval)
  (user_data : option (gmap string pyval)) (db db' : DB)
  (acc : SocialMediaAccount.t) :
  store_tokens settings dict_repr now user platform access_token
    refresh_token expires_in scope user_data db = (Ok acc, db') ->
  (if truthy expires_in
   then exists n, py_int expires_in = Ok n
                  /\ SocialMediaAccount.token_expires_at acc
                     = Some (now + n)%Z
   else SocialMediaAccount.token_expires_at acc = None)
  /\ exists refresh,
       token_columns settings access_token refresh_token
       = Ok (SocialMediaAccount.access_token acc, refresh)
       /\ SocialMediaAccount.refresh_token acc = Some refresh.
Proof.
  intros Hs.
  assert (Hexp : forall expires_at,
            (if truthy expires_in
             then let? n := py_int expires_in in Ok (Some (now + n)%Z)
             else Ok None) = Ok expires_at ->
            if truthy expires_in
            then exists n, py_int expires_in = Ok n
                           /\ expires_at = Some (now + n)%Z
            else expires_at = None).
  { intros x. destruct (truthy expires_in); [|now intros [= <-]].
    destruct (py_int expires_in) as [n|]; [|discriminate].
    intros [= <-]. now exists n. }
  revert Hs. unfold store_tokens. unfold bind at 1. unfold lift at 1.
  destruct (if truthy expires_in then _ else _) as [expires_at|e0] eqn:Ee;
    [|discriminate].
  specialize (Hexp _ eq_refl).
  intros Hs.
  assert (Hk : SocialMediaAccount.token_expires_at acc = expires_at
               /\ exists refresh,
                    token_columns settings access_token refresh_token
                    = Ok (SocialMediaAccount.access_token acc, refresh)
                    /\ SocialMediaAccount.refresh_token acc = Some refresh).
  { revert Hs. destruct user_data as [ud|]; [|discriminate].
    destruct (negb (truthy (VDict ud)) || _); [discriminate|].
    unfold try_except. unfold bind at 1. unfold get_db.
    unfold bind at 1. unfold lift at 1. unfold objects_get.
    destruct (List.filter _ (accounts db)) as [|old [|x rest]] eqn:Hf.
    - cbn [is_DoesNotExist exn_class_of]. unfold bind at 1.
      unfold bind at 1. unfold lift at 1.
      destruct (created_account _ _ _ _ _ _ _ _ _ _ _) as [created|e]
        eqn:Ec; [|discriminate].
      unfold bind, fresh_pk, modify, ret. intros [= <- <-].
      apply created_account_keys in Ec. cbv zeta in Ec. tauto.
    - unfold bind at 1. unfold lift at 1.
      destruct (updated_account _ _ _ _ _ _ _ _ _) as [updated|e] eqn:Eu.
      + unfold bind, ret.
        destruct (save_account updated db) as [[[]|e] db1] eqn:Es;
          [|discriminate Es].
        intros [= <- <-]. apply updated_account_keys in Eu. tauto.
      + rewrite (updated_account_class _ _ _ _ _ _ _ _ _ _ Eu). discriminate.
    - discriminate. }
  destruct Hk as [Hk1 Hk2]. split; [|exact Hk2].
  destruct (truthy expires_in).
  - destruct Hexp as (n & Hn & ->). now exists n.
  - now rewrite Hk1.
Qed.

(** X4. With no row under the natural key, a successful [store_tokens]
    appends exactly one account: fresh primary key, the natural key asked
    for, status "active", [user_data] as attribute bag, each display field
    the text of the value under its key or empty without the key; the other
    tables are untouched. *)
Theorem store_tokens_creates_account (now : time) (user : nat)
  (platform : string) (access_token refresh_token expires_in scope : pyval)
  (ud : gmap string pyval) (db db' : DB) (acc : SocialMediaAccount.t) :
  (forall r, In r (accounts db) ->
     natural_key_of r
     <> (user, platform, py_str dict_repr (dict_get ud "id" VNone))) ->
  store_tokens settings dict_repr now user platform access_token
    refresh_token expires_in scope (Some ud) db = (Ok acc, db') ->
  let text (key : string) :=
    match ud !! key with
    | Some v => py_str dict_repr v
    | None => ""
    end in
  accounts db' = (accounts db ++ [acc])%list
  /\ sessions db' = sessions db
  /\ api_call_logs db' = api_call_logs db
  /\ related db' = related db
  /\ SocialMediaAccount.pk acc = next_pk db
  /\ natural_key_of acc
     = (user, platform, py_str dict_repr (dict_get ud "id" VNone))
  /\ SocialMediaAccount.status acc = "active"
  /\ SocialMediaAccount.extra_data acc = ud
  /\ SocialMediaAccount.username acc = text "username"
  /\ SocialMediaAccount.display_name acc = text "name"
  /\ SocialMediaAccount.email acc = text "email"
  /\ SocialMediaAccount.profile_url acc = text "profile_url"
  /\ SocialMediaAccount.avatar_url acc = text "avatar_url".
Proof.
  intros Hnone Hs text.
  apply store_tokens_ok in Hs as (ud' & expires_at & [= <-] & Hs).
  destruct Hs as [(old & Hf & _)|(Hf & Hc & ->)].
  - apply filter_one_in in Hf as [Hin Hk].
    apply natural_key_spec in Hk. now apply Hnone in Hin.
  - apply created_account_keys in Hc. cbv zeta in Hc.
    destruct Hc as (K1 & K2 & _ & K4 & K5 & K6 & K7 & K8 & K9 & K10 & _).
    repeat split; assumption.
Qed.

(** X5. What [store_tokens] stored is what [get_valid_token] gives back:
    after a successful call with the access token [tok], the returned
    account yields [tok] at every instant up to the expiry that
    [expires_in] sets, and at every instant when no expiry was given; the
    read writes nothing. *)
Theorem stored_token_is_returned (now : time) (user : nat)
  (platform tok : string) (refresh_token expires_in scope : pyval)
  (user_data : option (gmap string pyval)) (db db' : DB)
  (acc : SocialMediaAccount.t) (now' : time) :
  SECRET_KEY settings <> "" ->
  tok <> "" ->
  utf8_valid (str_encode tok) = true ->
  store_tokens settings dict_repr now user platform (VStr tok)
    refresh_token expires_in scope user_data db = (Ok acc, db') ->
  (truthy expires_in = false
   \/ exists n, py_int expires_in = Ok n /\ (now' <= now + n)%Z) ->
  get_valid_token settings now' acc db' = (Ok (Some tok, acc), db').
Proof.
  intros Hkey Htok Hv Hs Hwin.
  apply store_tokens_token_columns in Hs as (Hexp & refresh & Hc & _).
  assert (Hd : decrypt_token settings (SocialMediaAccount.access_token acc)
               = tok).
  { destruct (encrypt_then_decrypt settings tok Hkey Htok Hv)
      as (c & Ec & _ & Dc).
    unfold token_columns in Hc. rewrite Ec in Hc. cbn [rbind] in Hc.
    destruct (if truthy refresh_token then _ else _); [|discriminate Hc].
    cbn [rbind] in Hc. now injection Hc as <- _. }
  unfold get_valid_token, SocialMediaAccount.is_token_expired.
  destruct (truthy expires_in).
  - destruct Hexp as (n & Hn & ->).
    destruct Hwin as [H|(n' & Hn' & Hle)]; [discriminate|].
    assert (n' = n) as -> by congruence.
    assert ((now + n <? now')%Z = false) as -> by (apply Z.ltb_ge; lia).
    now rewrite Hd.
  - rewrite Hexp. now rewrite Hd.
Qed.

End MoreStore.

(** ** Looking up the active account *)

Section MoreLookup.

Context (settings : Settings).

Lemma get_user_social_account_none (user : nat) (platform : string)
  (db : DB) :
  (forall r, In r (accounts db) ->
     Nat.eqb (SocialMediaAccount.user r) user
     && String.eqb (SocialMediaAccount.platform r) platform
     && String.eqb (SocialMediaAccount.status r) "active" = false) ->
  get_user_social_account user platform db = (Ok None, db).
Proof.
  intros H. unfold get_user_social_account, try_except, bind, get_db, lift,
    objects_get.
  now rewrite (filter_none _ _ H).
Qed.

(** X6. Once [get_valid_token] has marked the account of a user on a
    platform as expired, [get_user_social_account] no longer finds an
    account for that user and platform: the views treat the user as not
    connected. *)
Theorem expired_account_not_found (now : time) (db : DB)
  (a : SocialMediaAccount.t) :
  List.NoDup (map SocialMediaAccount.pk (accounts db)) ->
  In a (accounts db) ->
  (forall r, In r (accounts db) ->
     SocialMediaAccount.user r = SocialMediaAccount.user a ->
     SocialMediaAccount.platform r = SocialMediaAccount.platform a ->
     r = a) ->
  SocialMediaAccount.is_token_expired now a = true ->
  exists db',
    get_valid_token settings now a db =
      (Ok (None, SocialMediaAccount.set_status "expired" a), db')
    /\ get_user_social_account (SocialMediaAccount.user a)
         (SocialMediaAccount.platform a) db' = (Ok None, db').
Proof.
  intros Hnd Hin Huniq Hexp.
  rewrite (get_valid_token_expired settings now db a Hexp).
  eexists. split; [reflexivity|].
  pose proof (save_account_rows
                (SocialMediaAccount.set_status "expired" a) db) as S.
  cbv zeta in S. destruct S as (_ & S2 & S3 & _).
  apply get_user_social_account_none. intros r Hr.
  destruct (Nat.eq_dec (SocialMediaAccount.pk r) (SocialMediaAccount.pk a))
    as [E|E].
  - rewrite (S2 r Hr E). cbn. now rewrite andb_false_r.
  - apply (S3 r E) in Hr.
    destruct (Nat.eqb_spec (SocialMediaAccount.user r)
                           (SocialMediaAccount.user a)) as [U|U];
      [|reflexivity].
    destruct (String.eqb_spec (SocialMediaAccount.platform r)
                              (SocialMediaAccount.platform a)) as [P|P];
      [|reflexivity].
    exfalso. apply E. now rewrite (Huniq r Hr U P).
Qed.

(** X7. With two active accounts of the user on the platform,
    [get_user_social_account] does not answer: the lookup raises
    [MultipleObjectsReturned], which the function does not catch, and
    storage is left as it was. *)
Theorem get_user_social_account_ambiguous (user : nat) (platform : string)
  (db : DB) (a b : SocialMediaAccount.t) :
  In a (accounts db) -> In b (accounts db) -> a <> b ->
  SocialMediaAccount.user a = user ->
  SocialMediaAccount.platform a = platform ->
  SocialMediaAccount.status a = "active" ->
  SocialMediaAccount.user b = user ->
  SocialMediaAccount.platform b = platform ->
  SocialMediaAccount.status b = "active" ->
  exists e,
    get_user_social_account user platform db = (Raise e, db)
    /\ exn_class_of e = MultipleObjectsReturned.
Proof.
  intros Ha Hb Hne Ua Pa Sa Ub Pb Sb.
  set (cond := fun r =>
    Nat.eqb (SocialMediaAccount.user r) user
    && String.eqb (SocialMediaAccount.platform r) platform
    && String.eqb (SocialMediaAccount.status r) "active").
  assert (Ma : cond a = true).
  { unfold cond. now rewrite Ua, Pa, Sa, Nat.eqb_refl, String.eqb_refl. }
  assert (Mb : cond b = true).
  { unfold cond. now rewrite Ub, Pb, Sb, Nat.eqb_refl, String.eqb_refl. }
  assert (Fa : In a (List.filter cond (accounts db))) by now apply filter_In.
  assert (Fb : In b (List.filter cond (accounts db))) by now apply filter_In.
  unfold get_user_social_account, try_except, bind, get_db, lift, objects_get.
  fold cond.
  destruct (List.filter cond (accounts db)) as [|x [|y rest]].
  - destruct Fa.
  - destruct Fa as [<-|[]], Fb as [<-|[]]. congruence.
  - eexists. split; reflexivity.
Qed.

End MoreLookup.

(** ** More of the request client *)

Section MoreClient.

Context (settings : Settings).
Context (http : Request.t -> result Response.t).

Lemma get_valid_token_returns (now : time) (a : SocialMediaAccount.t)
  (db : DB) :
  exists t a' db',
    get_valid_token settings now a db = (Ok (t, a'), db')
    /\ api_call_logs db' = api_call_logs db
    /\ next_pk db' = next_pk db
    /\ SocialMediaAccount.platform a' = SocialMediaAccount.platform a.
Proof.
  unfold get_valid_token.
  destruct (SocialMediaAccount.is_token_expired now a).
  - assert (Hnone :
      (if truthy (of_opt (SocialMediaAccount.refresh_token a))
       then match refresh_access_token a with
            | Some _ =>
              Some (decrypt_token settings (SocialMediaAccount.access_token a))
            | None => None
            end
       else None) = None) by now destruct (truthy _).
    rewrite Hnone. unfold bind, ret, save_account, modify.
    destruct (existsb _ (accounts db)); eexists _, _, _;
      (split; [reflexivity|]); repeat split.
  - eexists _, _, _. split; [reflexivity|]. repeat split.
Qed.


(** X9. Without a usable token (the token has expired, or the stored
    ciphertext does not decrypt to a non-empty text) [make_request] returns
    [None], writes no call log row and does not depend on the network. *)
Theorem make_request_without_token (now : time) (response_time : Z)
  (a : SocialMediaAccount.t) (endpoint method : string)
  (params : option (gmap string pyval)) (data : pyval)
  (headers : option (gmap string string)) (db : DB) :
  SocialMediaAccount.is_token_expired now a = true
  \/ decrypt_token settings (SocialMediaAccount.access_token a) = "" ->
  exists db',
    make_request settings http now response_time a endpoint method params
      data headers db = (Ok None, db')
    /\ api_call_logs db' = api_call_logs db
    /\ forall http',
         make_request settings http' now response_time a endpoint method
           params data headers db = (Ok None, db').
Proof.
  intros H. unfold make_request. unfold bind at 1.
  assert (Hg : exists t a' db',
            get_valid_token settings now a db = (Ok (t, a'), db')
            /\ api_call_logs db' = api_call_logs db
            /\ truthy (of_opt t) = false).
  { destruct (get_valid_token_returns now a db) as (t & a' & db1 & E & L & _).
    exists t, a', db1. split; [exact E|]. split; [exact L|].
    revert E. unfold get_valid_token.
    destruct (SocialMediaAccount.is_token_expired now a) eqn:Ex.
    - assert (Hnone :
        (if truthy (of_opt (SocialMediaAccount.refresh_token a))
         then match refresh_access_token a with
              | Some _ =>
                Some (decrypt_token settings
                        (SocialMediaAccount.access_token a))
              | None => None
              end
         else None) = None) by now destruct (truthy _).
      rewrite Hnone. unfold bind, ret.
      destruct (save_account _ db) as [[[]|x] d]; [|discriminate].
      now intros [= <- _ _].
    - destruct H as [H|H]; [discriminate|]. rewrite H.
      unfold ret. now intros [= <- _ _]. }
  destruct Hg as (t & a' & db1 & E & L & Ht).
  rewrite E, Ht. cbn [negb]. exists db1. split; [reflexivity|].
  split; [exact L|]. intros http'. unfold bind. rewrite E, Ht. reflexivity.
Qed.





End MoreClient.

(** ** More of the session store *)

Section MoreSessions.

Lemma filter_app_snoc {A : Type} (cond : A -> bool) (l : list A) (x : A) :
  List.filter cond l = [] -> cond x = true ->
  List.filter cond (l ++ [x]) = [x].
Proof.
  intros Hl Hx. rewrite List.filter_app, Hl. cbn. now rewrite Hx.
Qed.

(** X12. A session created under a state that no stored session has is
    found again by that state until 30 minutes have passed, with the user,
    the platform tag and the code verifier it was created with; after that
    the lookup answers not-found and the session is gone. *)
Theorem created_session_is_found (now : time) (rng : nat -> byte)
  (user : nat) (platform redirect_uri st : string)
  (code_verifier : option string) (db : DB) (now' : time) :
  st <> "" ->
  (forall r, In r (sessions db) -> SessionData.oauth_state r <> st) ->
  exists s db1,
    create_oauth_session now rng user platform redirect_uri (Some st)
      code_verifier db = (Ok s, db1)
    /\ SessionData.oauth_state s = st
    /\ SessionData.user s = user
    /\ SessionData.temp_data s !! "platform" = Some (VStr platform)
    /\ SessionData.code_verifier s = default "" code_verifier
    /\ SessionData.expires_at s = (now + 1800)%Z
    /\ ((now' <= now + 1800)%Z ->
        get_oauth_session now' st db1 = (Ok (Some s), db1))
    /\ ((now + 1800 < now')%Z ->
        exists db2,
          get_oauth_session now' st db1 = (Ok None, db2)
          /\ ~ In s (sessions db2)
          /\ forall r, In r (sessions db2) -> In r (sessions db)).
Proof.
  intros Hst Hfree.
  unfold create_oauth_session. cbn [of_opt truthy default from_option id].
  rewrite (eqb_empty_false _ Hst). cbn [negb].
  unfold bind, fresh_pk, modify, ret.
  eexists _, _. split; [reflexivity|].
  cbn [SessionData.oauth_state SessionData.user SessionData.temp_data
       SessionData.code_verifier SessionData.expires_at].
  split; [reflexivity|]. split; [reflexivity|].
  split; [apply lookup_singleton_eq|].
  split.
  { destruct code_verifier as [v|]; [|reflexivity].
    cbn. destruct (String.eqb_spec v ""); [now subst|reflexivity]. }
  split; [reflexivity|].
  match goal with
  | |- context [set_sessions (sessions ?d ++ [?x]) ?d] => set (s := x)
  end.
  assert (Hf : List.filter
                 (fun r => String.eqb (SessionData.oauth_state r)
                                      (SessionData.oauth_state s))
                 (sessions db ++ [s]) = [s]).
  { apply filter_app_snoc; [|apply String.eqb_refl].
    apply filter_none. intros r Hr. apply String.eqb_neq.
    now apply Hfree. }
  change st with (SessionData.oauth_state s).
  split; intros Ht.
  - rewrite get_oauth_session_found by exact Hf.
    unfold SessionData.is_expired. cbn [SessionData.expires_at s].
    change (30 * 60)%Z with 1800%Z.
    now assert ((now + 1800 <? now')%Z = false) as -> by (apply Z.ltb_ge; lia).
  - rewrite get_oauth_session_found by exact Hf.
    unfold SessionData.is_expired. cbn [SessionData.expires_at s].
    change (30 * 60)%Z with 1800%Z.
    assert ((now + 1800 <? now')%Z = true) as -> by (apply Z.ltb_lt; lia).
    eexists. split; [reflexivity|].
    cbn [snd delete_session modify sessions set_sessions set_next_pk].
    split.
    + intros Hin. apply filter_In in Hin as [_ Hin].
      now rewrite Nat.eqb_refl in Hin.
    + intros r Hin. apply filter_In in Hin as [Hin Hne].
      apply in_app_or in Hin as [Hin|[<-|[]]]; [exact Hin|].
      now rewrite Nat.eqb_refl in Hne.
Qed.

Lemma filter_filter_comm {A : Type} (p q : A -> bool) (l : list A) :
  List.filter p (List.filter q l) = List.filter q (List.filter p l).
Proof.
  induction l as [|x l IH]; [reflexivity|]. cbn.
  destruct (p x) eqn:Ep, (q x) eqn:Eq; cbn; rewrite ?Ep, ?Eq, IH;
    reflexivity.
Qed.

(** X13. The sweep keeps exactly the sessions that have not expired, and
    it changes no answer: for a state that at most one session carries, a
    lookup after the sweep answers what a lookup before it answers, and
    finds nothing left to delete. *)
Theorem sweep_then_lookup (now : time) (st : string) (db : DB) :
  length (List.filter (fun r => String.eqb (SessionData.oauth_state r) st)
            (sessions db)) <= 1 ->
  let swept := snd (cleanup_expired_sessions now db) in
  (forall r, In r (sessions swept) <->
     In r (sessions db) /\ (now <= SessionData.expires_at r)%Z)
  /\ fst (get_oauth_session now st swept) = fst (get_oauth_session now st db)
  /\ snd (get_oauth_session now st swept) = swept.
Proof.
  intros Hlen swept. subst swept.
  unfold cleanup_expired_sessions, modify. cbn [snd]. split.
  { intros r. cbn [sessions set_sessions].
    rewrite filter_In, negb_true_iff, Z.ltb_ge. reflexivity. }
  unfold get_oauth_session, try_except, bind, get_db, lift, objects_get.
  cbn [sessions set_sessions]. rewrite filter_filter_comm.
  destruct (List.filter _ (sessions db)) as [|s [|x rest]];
    [| |cbn in Hlen; lia].
  - split; reflexivity.
  - cbn [List.filter]. unfold SessionData.is_expired.
    destruct (SessionData.expires_at s <? now)%Z eqn:E; cbn [negb];
      [|rewrite E]; split; reflexivity.
Qed.

End MoreSessions.

(** ** Random states *)

Module StateFacts.
Import Base64 Base64Check Base64Facts.

Lemma urlsafe_pair_ok_all (a b : byte) : urlsafe_pair_ok a b = true.
Proof. revert a b. apply forall_byte2. vm_compute. reflexivity. Qed.

Lemma urlsafe_pair_facts (a b : byte) :
  urlsafe_char_ok (hi6 a) = true /\ urlsafe_char_ok (lo6 a) = true
  /\ urlsafe_char_ok (mid1 a b) = true /\ urlsafe_char_ok (mid2 a b) = true.
Proof.
  pose proof (urlsafe_pair_ok_all a b) as H. unfold urlsafe_pair_ok in H.
  rewrite !andb_true_iff in H. tauto.
Qed.

Lemma nopad_unreserved (s : bytes) :
  Forall (fun c => is_unreserved c = true) (base64url_nopad s).
Proof.
  induction s as [|a|a b|a b c r IH] using triple_ind;
    cbn [base64url_nopad]; repeat constructor; try exact IH.
  - apply (urlsafe_pair_facts a a).
  - destruct (urlsafe_pair_facts a zero) as (_ & _ & H & _).
    unfold mid1 in H. now rewrite zero_hi4, N.lor_0_r in H.
  - apply (urlsafe_pair_facts a a).
  - apply (urlsafe_pair_facts a b).
  - destruct (urlsafe_pair_facts b zero) as (_ & _ & _ & H).
    unfold mid2 in H. now rewrite zero_hi2, N.lor_0_r in H.
  - apply (urlsafe_pair_facts a a).
  - apply (urlsafe_pair_facts a b).
  - apply (urlsafe_pair_facts b c).
  - apply (urlsafe_pair_facts c c).
Qed.

Lemma quote_plus_unreserved (l : bytes) :
  Forall (fun c => is_unreserved c = true) l ->
  quote_plus (str_of_bytes l) = str_of_bytes l.
Proof.
  intros H. unfold quote_plus. rewrite str_encode_of_bytes. f_equal.
  induction H as [|c l Hc _ IH]; [reflexivity|].
  cbn [map concat]. unfold quote_plus_char at 1. rewrite Hc, IH. reflexivity.
Qed.

Lemma length_str_of_bytes (l : bytes) :
  String.length (str_of_bytes l) = length l.
Proof.
  unfold str_of_bytes.
  induction l as [|c l IH]; cbn; [reflexivity|]. now f_equal.
Qed.

Lemma token_urlsafe_nonempty (rng : nat -> byte) : token_urlsafe rng 32 <> "".
Proof.
  unfold token_urlsafe.
  change (rstrip_char "="%char) with (rstrip_char Base64.pad).
  rewrite PkceFacts.rstrip_urlsafe. discriminate.
Qed.

End StateFacts.

(** X14. The state that [secrets.token_urlsafe(32)] gives, and with it
    every state of the login views, has 43 characters, all of them letters,
    digits, [-] or [_]: URL encoding leaves it as it is. *)
Theorem token_urlsafe_shape (rng : nat -> byte) :
  let state := token_urlsafe rng 32 in
  String.length state = 43
  /\ quote_plus state = state
  /\ Forall (fun c => is_unreserved c = true) (str_encode state).
Proof.
  intros state. subst state. unfold token_urlsafe.
  change (rstrip_char "="%char) with (rstrip_char Base64.pad).
  rewrite PkceFacts.rstrip_urlsafe. split; [|split].
  - rewrite StateFacts.length_str_of_bytes. reflexivity.
  - apply StateFacts.quote_plus_unreserved, StateFacts.nopad_unreserved.
  - rewrite str_encode_of_bytes. apply StateFacts.nopad_unreserved.
Qed.

(** ** More of the callbacks *)

Section MoreCallbacks.

Context (settings : Settings).
Context (dict_repr : gmap string pyval -> string).
Context (http : Request.t -> result Response.t).

(** X15. A callback that carries an error, or lacks the code or the state,
    is turned away with an error message before anything is looked up:
    storage is left as it was, whatever the network would answer. *)
Theorem callback_without_code_or_state (now : time)
  (request : HttpRequest.t) (db : DB) :
  truthy (of_opt (HttpRequest.GET request !! "error")) = true
  \/ truthy (of_opt (HttpRequest.GET request !! "code")) = false
  \/ truthy (of_opt (HttpRequest.GET request !! "state")) = false ->
  exists text text',
    linkedin_callback settings dict_repr http now request db
    = (Ok (dashboard messages.error text), db)
    /\ twitter_callback settings dict_repr http now request db
       = (Ok (dashboard messages.error text'), db)
    /\ (truthy (of_opt (HttpRequest.GET request !! "error")) = false ->
        text = "Invalid LinkedIn callback"
        /\ text' = "Invalid Twitter callback").
Proof.
  intros H. unfold linkedin_callback, twitter_callback.
  destruct (truthy (of_opt (HttpRequest.GET request !! "error"))) eqn:Ee.
  - eexists _, _. split; [reflexivity|]. split; [reflexivity|]. discriminate.
  - destruct H as [H|[H|H]]; [discriminate H| |];
      rewrite H; cbn [negb orb]; rewrite ?orb_true_r;
      eexists _, _; repeat split; reflexivity.
Qed.

(** X16. A callback whose state no stored session has is turned away, and
    storage is left as it was. *)
Theorem callback_unknown_state (now : time) (request : HttpRequest.t)
  (db : DB) (code state : string) :
  truthy (of_opt (HttpRequest.GET request !! "error")) = false ->
  HttpRequest.GET request !! "code" = Some code -> code <> "" ->
  HttpRequest.GET request !! "state" = Some state -> state <> "" ->
  (forall r, In r (sessions db) -> SessionData.oauth_state r <> state) ->
  linkedin_callback settings dict_repr http now request db
  = (Ok (dashboard messages.error "Invalid or expired session state"), db)
  /\ twitter_callback settings dict_repr http now request db
     = (Ok (dashboard messages.error "Invalid session state"), db).
Proof.
  intros He Hc Hcne Hs Hsne Hfree.
  assert (Hget : get_oauth_session now state db = (Ok None, db)).
  { apply get_oauth_session_missing, filter_none.
    intros r Hr. apply String.eqb_neq. now apply Hfree. }
  unfold linkedin_callback, twitter_callback. rewrite He, Hc, Hs.
  cbn [of_opt truthy default from_option id negb orb].
  rewrite !eqb_empty_false by assumption. cbn [negb orb].
  unfold bind. rewrite Hget. split; reflexivity.
Qed.

Lemma own_session_lookup now request db s :
  own_callback now request db s ->
  get_oauth_session now (SessionData.oauth_state s) db = (Ok (Some s), db).
Proof.
  intros [].
  rewrite get_oauth_session_found by now apply session_found_by_state.
  unfold SessionData.is_expired.
  now assert ((SessionData.expires_at s <? now)%Z = false) as ->
    by (apply Z.ltb_ge; lia).
Qed.

(** X17. The callback of the owner of a stored, unexpired session, when the
    token endpoint answers with another status than 200 or cannot be
    reached: an error message, nothing is stored, and the session is left
    in storage. *)
Theorem callback_token_exchange_fails (now : time) (request : HttpRequest.t)
  (db : DB) (s : SessionData.t) :
  own_callback now request db s ->
  (forall rq, Request.method rq = "POST" ->
     match http rq with
     | Ok response => Response.status_code response <> 200%Z
     | Raise _ => True
     end) ->
  exists text text',
    linkedin_callback settings dict_repr http now request db
    = (Ok (dashboard messages.error text), db)
    /\ twitter_callback settings dict_repr http now request db
       = (Ok (dashboard messages.error text'), db)
    /\ (text = "Failed to get access token from LinkedIn"
        \/ exists e, text = "Error connecting LinkedIn account: " +:+ exn_str e)
    /\ (text' = "Failed to get access token from Twitter"
        \/ exists e, text' = "Error connecting Twitter account: " +:+ exn_str e).
Proof.
  intros H Hhttp. pose proof (own_session_lookup _ _ _ _ H) as Hget.
  destruct H as [He (code & Hc & Hcne) Hs Hsne Hnd Hin Huniq Hlive Hown].
  assert (L : exists text,
    linkedin_callback settings dict_repr http now request db
    = (Ok (dashboard messages.error text), db)
    /\ (text = "Failed to get access token from LinkedIn"
        \/ exists e,
             text = "Error connecting LinkedIn account: " +:+ exn_str e)).
  { unfold linkedin_callback. rewrite He, Hc, Hs.
    cbn [of_opt truthy default from_option id negb orb].
    rewrite !eqb_empty_false by assumption. cbn [negb orb].
    unfold bind at 1. rewrite Hget, Hown, Nat.eqb_refl. cbn [negb].
    unfold try_except, bind, lift, requests_post_form.
    match goal with
    | |- context [http ?rq] =>
      pose proof (Hhttp rq eq_refl) as H1; destruct (http rq) as [r1|e1]
    end.
    - apply Z.eqb_neq in H1. rewrite H1. cbn [negb fst snd]. eauto.
    - cbn [fst snd]. eauto. }
  assert (T : exists text,
    twitter_callback settings dict_repr http now request db
    = (Ok (dashboard messages.error text), db)
    /\ (text = "Failed to get access token from Twitter"
        \/ exists e,
             text = "Error connecting Twitter account: " +:+ exn_str e)).
  { unfold twitter_callback. rewrite He, Hc, Hs.
    cbn [of_opt truthy default from_option id negb orb].
    rewrite !eqb_empty_false by assumption. cbn [negb orb].
    unfold bind at 1. rewrite Hget, Hown, Nat.eqb_refl. cbn [negb].
    unfold try_except, bind, lift, requests_post_form.
    match goal with
    | |- context [http ?rq] =>
      pose proof (Hhttp rq eq_refl) as H1; destruct (http rq) as [r1|e1]
    end.
    - apply Z.eqb_neq in H1. rewrite H1. cbn [negb fst snd]. eauto.
    - cbn [fst snd]. eauto. }
  destruct L as (text & L1 & L2), T as (text' & T1 & T2).
  exists text, text'. auto.
Qed.

End MoreCallbacks.

(** ** What the callbacks answer *)

Section Yields.

Lemma yields_ret {A : Type} (P : A -> Prop) (a : A) : P a -> yields P (ret a).
Proof. intros H db. exact H. Qed.

Lemma yields_bind {A B : Type} (P : B -> Prop) (m : M A) (k : A -> M B) :
  (forall a, yields P (k a)) -> yields P (bind m k).
Proof.
  intros H db. unfold bind. destruct (m db) as [[a|e] db']; [|exact I].
  apply H.
Qed.

Lemma try_total {A : Type} (P : A -> Prop) (m : M A) (h : exn -> A) :
  yields P m -> (forall e, P (h e)) ->
  forall db, exists a db',
    try_except m (fun e => Some (ret (h e))) db = (Ok a, db') /\ P a.
Proof.
  intros Hm Hh db. unfold try_except. specialize (Hm db).
  destruct (m db) as [[a|e] db']; cbn [fst] in Hm.
  - now exists a, db'.
  - exists (h e), db'. split; [reflexivity|apply Hh].
Qed.

Lemma get_oauth_session_answers (now : time) (state : string) (db : DB) :
  length (List.filter (fun r => String.eqb (SessionData.oauth_state r) state)
            (sessions db)) <= 1 ->
  exists o db', get_oauth_session now state db = (Ok o, db').
Proof.
  intros Hlen.
  unfold get_oauth_session, try_except, bind, get_db, lift, objects_get.
  destruct (List.filter _ (sessions db)) as [|s [|x rest]];
    [| |cbn in Hlen; lia].
  - now eexists _, _.
  - destruct (SessionData.is_expired now s); now eexists _, _.
Qed.

End Yields.

Ltac walk :=
  repeat first
    [ apply yields_ret; now eexists _, _
    | apply yields_bind; intros
    | match goal with
      | |- yields _ (if ?c then _ else _) => destruct c
      | |- yields _ (let '(_, _) := ?x in _) => destruct x
      | |- yields _ (match ?x with _ => _ end) => destruct x
      end ].

Section MoreAnswers.

Context (settings : Settings).
Context (dict_repr : gmap string pyval -> string).
Context (http : Request.t -> result Response.t).

(** X18. As long as at most one stored session carries the state of the
    request, a callback never raises: whatever the request holds and
    whatever the network answers, every exception of the exchange is turned
    into a message, and the answer is a redirect to the dashboard with a
    message. *)
Theorem callback_always_answers (now : time) (request : HttpRequest.t)
  (db : DB) :
  length
    (List.filter
       (fun r =>
          String.eqb (SessionData.oauth_state r)
            (default "" (HttpRequest.GET request !! "state")))
       (sessions db)) <= 1 ->
  (exists l text db',
     linkedin_callback settings dict_repr http now request db
     = (Ok (dashboard l text), db'))
  /\ (exists l text db',
        twitter_callback settings dict_repr http now request db
        = (Ok (dashboard l text), db')).
Proof.
  intros Hlen.
  destruct (get_oauth_session_answers now _ db Hlen) as (o & db1 & Hget).
  set (P := fun r : HttpResponse => exists l text, r = dashboard l text).
  split.
  - unfold linkedin_callback.
    destruct (truthy (of_opt (HttpRequest.GET request !! "error")));
      [now eexists _, _, _|].
    destruct (negb _ || negb _); [now eexists _, _, _|].
    unfold bind at 1. rewrite Hget.
    destruct o as [s|]; [|now eexists _, _, _].
    destruct (negb (Nat.eqb _ _)); [now eexists _, _, _|].
    match goal with
    | |- context [try_except ?m (fun e => Some (ret (@?h e)))] =>
      destruct (try_total P m h) with (db := db1)
        as (a & db' & E & l & text & ->)
    end.
    + walk.
    + intros e. now eexists _, _.
    + rewrite E. now eexists _, _, _.
  - unfold twitter_callback.
    destruct (truthy (of_opt (HttpRequest.GET request !! "error")));
      [now eexists _, _, _|].
    destruct (negb _ || negb _); [now eexists _, _, _|].
    unfold bind at 1. rewrite Hget.
    destruct o as [s|]; [|now eexists _, _, _].
    destruct (negb (Nat.eqb _ _)); [now eexists _, _, _|].
    match goal with
    | |- context [try_except ?m (fun e => Some (ret (@?h e)))] =>
      destruct (try_total P m h) with (db := db1)
        as (a & db' & E & l & text & ->)
    end.
    + walk.
    + intros e. now eexists _, _.
    + rewrite E. now eexists _, _, _.
Qed.

End MoreAnswers.

(** ** A callback that reports success *)

Section Steps.

Lemma bind_ok {A B : Type} (m : M A) (k : A -> M B) (db db' : DB) (b : B) :
  bind m k db = (Ok b, db') ->
  exists a db1, m db = (Ok a, db1) /\ k a db1 = (Ok b, db').
Proof.
  unfold bind. destruct (m db) as [[a|e] db1]; [|discriminate].
  intros H. now exists a, db1.
Qed.

Lemma lift_ok {A : Type} (r : result A) (db db' : DB) (a : A) :
  lift r db = (Ok a, db') -> r = Ok a /\ db' = db.
Proof. unfold lift. now intros [= -> ->]. Qed.

Lemma ret_ok {A : Type} (a b : A) (db db' : DB) :
  ret a db = (Ok b, db') -> b = a /\ db' = db.
Proof. unfold ret. now intros [= -> ->]. Qed.

Lemma try_ok {A : Type} (m : M A) (h : exn -> A) (db db' : DB) (a : A) :
  try_except m (fun e => Some (ret (h e))) db = (Ok a, db') ->
  m db = (Ok a, db') \/ exists e, a = h e.
Proof.
  unfold try_except. destruct (m db) as [[x|e] db1].
  - intros [= -> ->]. now left.
  - unfold ret. intros [= <- _]. right. now exists e.
Qed.

Lemma get_oauth_session_some (now : time) (state : string) (db db' : DB)
  (s : SessionData.t) :
  get_oauth_session now state db = (Ok (Some s), db') ->
  db' = db /\ In s (sessions db) /\ SessionData.oauth_state s = state
  /\ (now <= SessionData.expires_at s)%Z.
Proof.
  unfold get_oauth_session, try_except, bind, get_db, lift, objects_get.
  destruct (List.filter _ (sessions db)) as [|x [|y rest]] eqn:Hf;
    cbn [is_DoesNotExist exn_class_of]; try discriminate.
  unfold SessionData.is_expired.
  destruct (SessionData.expires_at x <? now)%Z eqn:Ex; [discriminate|].
  unfold ret. intros [= -> <-].
  assert (Hin : In s (List.filter
                        (fun r => String.eqb (SessionData.oauth_state r) state)
                        (sessions db))) by (rewrite Hf; now left).
  apply filter_In in Hin as [Hin Hst]. apply String.eqb_eq in Hst.
  apply Z.ltb_ge in Ex. auto.
Qed.

Lemma get_or_create_related_row (dict_repr : gmap string pyval -> string)
  (m : Related.model) (schema : list (string * column))
  (a : SocialMediaAccount.t) (defaults : gmap string pyval) (db db' : DB)
  (row : Related.t) (created : bool) :
  get_or_create_related dict_repr m schema a defaults db
  = (Ok (row, created), db') ->
  In row (related db') /\ related_to m a row = true
  /\ accounts db' = accounts db /\ sessions db' = sessions db
  /\ (forall r, In r (related db) -> In r (related db')).
Proof.
  unfold get_or_create_related, try_except. unfold bind at 1. unfold get_db.
  unfold bind at 1. unfold lift at 1, objects_get.
  destruct (List.filter _ (related db)) as [|x [|y rest]] eqn:Hf;
    cbn [is_DoesNotExist exn_class_of]; try discriminate.
  - unfold bind at 1. unfold lift at 1.
    destruct (store_columns dict_repr schema defaults) as [fields|e];
      [|discriminate].
    unfold bind, fresh_pk, modify, ret. intros [= <- <- <-].
    cbn [related set_related set_next_pk accounts sessions].
    repeat split.
    + apply in_or_app. right. now left.
    + unfold related_to. cbn.
      rewrite Nat.eqb_refl, andb_true_r. now destruct m.
    + intros r Hr. apply in_or_app. now left.
  - unfold ret. intros [= <- <- <-].
    assert (Hin : In x (List.filter (related_to m a) (related db)))
      by (rewrite Hf; now left).
    apply filter_In in Hin as [Hin Hrel]. auto.
Qed.

End Steps.

Section MoreSuccess.

Context (settings : Settings).
Context (dict_repr : gmap string pyval -> string).
Context (http : Request.t -> result Response.t).

Lemma updated_account_status now access_token refresh_token scope expires_at
  (ud : gmap string pyval) (old acc : SocialMediaAccount.t) :
  updated_account settings dict_repr now access_token refresh_token scope
    expires_at ud old = Ok acc ->
  SocialMediaAccount.status acc = "active".
Proof.
  unfold updated_account. intros H.
  destruct (token_columns settings access_token refresh_token)
    as [[access refresh]|e]; [|discriminate H].
  cbn [rbind] in H. invert_ok H. now injection H as <-.
Qed.

(** What [store_tokens] leaves behind when it returns an account. *)
Lemma store_tokens_stored (now : time) (user : nat) (platform : string)
  (access_token refresh_token expires_in scope : pyval)
  (user_data : option (gmap string pyval)) (db db' : DB)
  (acc : SocialMediaAccount.t) :
  store_tokens settings dict_repr now user platform access_token
    refresh_token expires_in scope user_data db = (Ok acc, db') ->
  In acc (accounts db')
  /\ SocialMediaAccount.user acc = user
  /\ SocialMediaAccount.platform acc = platform
  /\ SocialMediaAccount.status acc = "active"
  /\ sessions db' = sessions db
  /\ related db' = related db
  /\ api_call_logs db' = api_call_logs db.
Proof.
  intros H. apply store_tokens_ok in H
    as (ud & expires_at & -> & [(old & Hf & Hu & ->)|(Hf & Hc & ->)]).
  - pose proof (save_account_rows acc db) as S. cbv zeta in S.
    destruct S as (S1 & _ & _ & S4 & S5 & S6).
    pose proof (updated_account_status _ _ _ _ _ _ _ _ Hu) as St.
    apply updated_account_keys in Hu as (_ & Hk & _).
    assert (Hold : natural_key_of old
                   = (user, platform,
                      py_str dict_repr (dict_get ud "id" VNone))).
    { apply natural_key_spec. eapply proj2. apply filter_In.
      rewrite Hf. now left. }
    rewrite <- Hk in Hold. injection Hold as Hu' Hp' _.
    repeat split; auto.
  - apply created_account_keys in Hc. cbv zeta in Hc.
    destruct Hc as (_ & Hk & _ & St & _).
    injection Hk as Hu' Hp' _.
    cbn [accounts set_accounts set_next_pk sessions related api_call_logs].
    repeat split; auto.
    apply in_or_app. right. now left.
Qed.

Ltac step H :=
  let a := fresh "v" in
  let db1 := fresh "db" in
  let E := fresh "E" in
  apply bind_ok in H as (a & db1 & E & H);
  try (apply lift_ok in E as [E ->]).

Ltac wrong_message H Hmsg :=
  solve [apply ret_ok in H as [-> _]; discriminate Hmsg].

(** X19. The LinkedIn callback reports success only after it has done the
    work: the state of the request was that of a stored, unexpired session
    of the user, that session is gone, and storage holds an active LinkedIn
    account of the user together with its profile row. *)
Theorem linkedin_callback_success (now : time) (request : HttpRequest.t)
  (db db' : DB) (response : HttpResponse) (text : string) :
  linkedin_callback settings dict_repr http now request db
  = (Ok response, db') ->
  message response = Some (messages.success, text) ->
  exists s acc row,
    In s (sessions db)
    /\ SessionData.user s = HttpRequest.user request
    /\ HttpRequest.GET request !! "state" = Some (SessionData.oauth_state s)
    /\ (now <= SessionData.expires_at s)%Z
    /\ (forall r, In r (sessions db') -> SessionData.pk r <> SessionData.pk s)
    /\ In acc (accounts db')
    /\ SocialMediaAccount.user acc = HttpRequest.user request
    /\ SocialMediaAccount.platform acc = "linkedin"
    /\ SocialMediaAccount.status acc = "active"
    /\ In row (related db')
    /\ related_to Related.LinkedInProfile acc row = true.
Proof.
  intros H Hmsg. unfold linkedin_callback in H.
  destruct (truthy (of_opt (HttpRequest.GET request !! "error")));
    [wrong_message H Hmsg|].
  destruct (HttpRequest.GET request !! "state") as [state|] eqn:Hstate;
    [|cbn in H; rewrite orb_true_r in H; wrong_message H Hmsg].
  destruct (negb _ || negb _); [wrong_message H Hmsg|].
  cbn [default from_option id] in H.
  step H. destruct v as [s|]; [|wrong_message H Hmsg].
  apply get_oauth_session_some in E as (-> & Hin & Hst & Hlive).
  destruct (Nat.eqb_spec (SessionData.user s) (HttpRequest.user request))
    as [Hown|Hown]; cbn [negb] in H.
  2:{ step H. wrong_message H Hmsg. }
  apply try_ok in H as [H|[e ->]]; [|discriminate Hmsg].
  step H. destruct (negb (Z.eqb _ 200)); [wrong_message H Hmsg|].
  step H. step H. step H.
  destruct (negb (truthy _)); [wrong_message H Hmsg|].
  step H. destruct (negb (Z.eqb _ 200)); [wrong_message H Hmsg|].
  step H. step H. step H.
  apply bind_ok in H as (acc & db1 & Hstore & H).
  step H.
  apply bind_ok in H as ([row created] & db2 & Hrow & H).
  apply bind_ok in H as ([] & db3 & Hdel & H).
  apply ret_ok in H as [_ ->].
  apply store_tokens_stored in Hstore as (A1 & A2 & A3 & A4 & A5 & _).
  apply get_or_create_related_row in Hrow as (R1 & R2 & R3 & R4 & _).
  unfold delete_session, modify in Hdel. injection Hdel as <-.
  exists s, acc, row.
  cbn [sessions accounts related set_sessions].
  rewrite R3. subst state. repeat split; auto.
  intros r Hr. apply filter_In in Hr as [_ Hr].
  now apply negb_true_iff, Nat.eqb_neq in Hr.
Qed.



End MoreSuccess.

(** ** The login views *)

Section MoreLogin.

Context (settings : Settings).
Context (sha256 : bytes -> bytes).

Lemma create_oauth_session_given (now : time) (rng : nat -> byte) (user : nat)
  (platform redirect_uri state : string) (code_verifier : option string)
  (db : DB) :
  state <> "" ->
  exists s,
    create_oauth_session now rng user platform redirect_uri (Some state)
      code_verifier db
    = (Ok s, set_sessions (sessions db ++ [s])
               (set_next_pk (S (next_pk db)) db))
    /\ SessionData.pk s = next_pk db
    /\ SessionData.user s = user
    /\ SessionData.oauth_state s = state
    /\ SessionData.temp_data s = {[ "platform" := VStr platform ]}
    /\ SessionData.code_verifier s = default "" code_verifier
    /\ SessionData.expires_at s = (now + 1800)%Z.
Proof.
  intros Hst. unfold create_oauth_session.
  cbn [of_opt truthy default from_option id].
  rewrite (eqb_empty_false _ Hst). cbn [negb].
  unfold bind, fresh_pk, modify, ret. eexists. split; [reflexivity|].
  cbn [SessionData.pk SessionData.user SessionData.oauth_state
       SessionData.temp_data SessionData.code_verifier
       SessionData.expires_at].
  repeat split.
  destruct code_verifier as [v|]; [|reflexivity].
  cbn. destruct (String.eqb_spec v ""); [now subst|reflexivity].
Qed.

Lemma session_tagged_new (user : nat) (platform : string) (s : SessionData.t) :
  SessionData.user s = user ->
  SessionData.temp_data s = {[ "platform" := VStr platform ]} ->
  session_tagged user platform s = true.
Proof.
  intros Hu Ht. unfold session_tagged.
  rewrite Hu, Ht, Nat.eqb_refl, lookup_singleton_eq. apply String.eqb_refl.
Qed.

Lemma login_session_only (user : nat) (platform : string) (now : time)
  (db db' : DB) (s : SessionData.t) :
  login_session user platform now db db' s ->
  forall r, In r (sessions db') ->
    session_tagged user platform r = true -> r = s.
Proof.
  intros (-> & _) r Hr Ht. apply in_app_or in Hr as [Hr|[<-|[]]];
    [|reflexivity].
  apply filter_In in Hr as [_ Hr]. now rewrite Ht in Hr.
Qed.

(** X21. After a login view, the user has exactly one session tagged for
    the platform: the new one, which carries the state that the
    authorization URL names and runs out 30 minutes later. The sessions of
    other users and platforms, and every other table, are left as they
    were. *)
Theorem login_leaves_one_session (now : time) (rng : nat -> byte)
  (request : HttpRequest.t) (db : DB) :
  let user := HttpRequest.user request in
  (exists response db' s,
     linkedin_login settings now rng request db = (Ok response, db')
     /\ login_session user "linkedin" now db db' s
     /\ (forall r, In r (sessions db') ->
           session_tagged user "linkedin" r = true -> r = s)
     /\ redirect_to response
        = "https://www.linkedin.com/oauth/v2/authorization?response_type=code"
          +:+ "&client_id=" +:+ LINKEDIN_CLIENT_ID settings
          +:+ "&redirect_uri=" +:+ LINKEDIN_REDIRECT_URI settings
          +:+ "&scope=openid%20profile%20email"
          +:+ "&state=" +:+ SessionData.oauth_state s
          +:+ "&prompt=consent&approval_prompt=force&access_type=offline"
          +:+ "&_t=" +:+ pretty now)
  /\ (exists response db' s,
        twitter_login settings sha256 now rng request db = (Ok response, db')
        /\ login_session user "twitter" now db db' s
        /\ (forall r, In r (sessions db') ->
              session_tagged user "twitter" r = true -> r = s)
        /\ In ("state", SessionData.oauth_state s)
              (twitter_auth_params settings (SessionData.oauth_state s)
                 (str_of_bytes
                    (base64url_nopad
                       (sha256 (str_encode (SessionData.code_verifier s)))))
                 (pretty now))
        /\ redirect_to response
           = "https://twitter.com/i/oauth2/authorize?"
             +:+ urlencode
                   (twitter_auth_params settings (SessionData.oauth_state s)
                      (str_of_bytes
                         (base64url_nopad
                            (sha256
                               (str_encode (SessionData.code_verifier s)))))
                      (pretty now))).
Proof.
  intros user. split.
  - unfold linkedin_login. unfold bind at 1. unfold modify at 1.
    set (db0 := set_sessions _ db).
    match goal with
    | |- context [create_oauth_session ?n ?g ?u ?p ?uri (Some ?st) ?cv] =>
      destruct (create_oauth_session_given n g u p uri st cv db0
                  (StateFacts.token_urlsafe_nonempty rng))
        as (s & E & Hpk & Hu & Hst & Htag & _ & Hexp)
    end.
    unfold bind. rewrite E. unfold ret.
    assert (L : login_session user "linkedin" now db
                  (set_sessions (sessions db0 ++ [s])
                     (set_next_pk (S (next_pk db0)) db0)) s).
    { unfold login_session. subst db0.
      cbn [sessions set_sessions set_next_pk accounts api_call_logs related
           next_pk].
      repeat split; auto. now apply session_tagged_new. }
    eexists _, _, s. split; [reflexivity|]. split; [exact L|].
    split; [exact (login_session_only _ _ _ _ _ _ L)|].
    cbn [redirect_to]. rewrite Hst. cbn [append]. reflexivity.
  - set (code_verifier :=
           str_of_bytes (base64url_nopad (token_bytes rng 32))).
    assert (Hv : pkce_code_verifier (token_bytes rng 32) = Ok code_verifier)
      by apply PkceFacts.strip_encoded.
    assert (Hc : pkce_code_challenge sha256 code_verifier
                 = Ok (str_of_bytes
                         (base64url_nopad
                            (sha256 (str_encode code_verifier)))))
      by apply PkceFacts.strip_encoded.
    unfold twitter_login. unfold bind at 1. unfold modify at 1.
    unfold bind at 1. unfold lift at 1. rewrite Hv.
    unfold bind at 1. unfold lift at 1. rewrite Hc.
    set (db0 := set_sessions _ db).
    match goal with
    | |- context [create_oauth_session ?n ?g ?u ?p ?uri (Some ?st) ?cv] =>
      destruct (create_oauth_session_given n g u p uri st cv db0
                  (StateFacts.token_urlsafe_nonempty _))
        as (s & E & Hpk & Hu & Hst & Htag & Hcv & Hexp)
    end.
    unfold bind. rewrite E. unfold ret.
    assert (L : login_session user "twitter" now db
                  (set_sessions (sessions db0 ++ [s])
                     (set_next_pk (S (next_pk db0)) db0)) s).
    { unfold login_session. subst db0.
      cbn [sessions set_sessions set_next_pk accounts api_call_logs related
           next_pk].
      repeat split; auto. now apply session_tagged_new. }
    eexists _, _, s. split; [reflexivity|]. split; [exact L|].
    split; [exact (login_session_only _ _ _ _ _ _ L)|].
    cbn [default from_option id] in Hcv. rewrite Hst, Hcv.
    split; [cbn; tauto|]. reflexivity.
Qed.

End MoreLogin.

(** ** The disconnect views and [SocialMediaAccount.disconnect] *)

Section MoreDisconnect.

Context (settings : Settings).
Context (http : Request.t -> result Response.t).
Context (reverse : string -> string).

(** What [disconnect_account] answers, in every storage. *)
Lemma disconnect_account_cases (user : nat) (platform : string) (db : DB) :
  exists b db',
    disconnect_account settings http user platform db = (Ok b, db')
    /\ (b = false -> db' = db)
    /\ (b = true ->
        forall r, In r (accounts db') ->
          of_user_platform user platform r = false).
Proof.
  destruct (List.filter (of_user_platform user platform) (accounts db))
    as [|a [|b rest]] eqn:Hf.
  - exists false, db. split; [now apply disconnect_account_none|].
    split; [reflexivity|discriminate].
  - destruct (disconnect_account_one settings http user platform db a Hf)
      as (db' & E & Ha & _).
    exists true, db'. split; [exact E|]. split; [discriminate|].
    intros _ r Hr. apply Ha in Hr as [Hr Hpk].
    destruct (of_user_platform user platform r) eqn:Er; [|reflexivity].
    assert (Hin : In r (List.filter (of_user_platform user platform)
                          (accounts db))) by now apply filter_In.
    rewrite Hf in Hin. destruct Hin as [<-|[]]. now destruct Hpk.
  - exists false, db.
    split; [now apply (disconnect_account_several _ _ _ _ _ a b rest)|].
    split; [reflexivity|discriminate].
Qed.

(** X22. A disconnect view always answers with a redirect that deletes no
    cookie: the response on which the cookies were cleared is replaced
    before it is returned. A request that is not a POST gets the error
    message and changes nothing; after the success message no account of
    the user on the platform is left; the warning comes with unchanged
    storage. *)
Theorem disconnect_view_answers (now : time) (request : HttpRequest.t)
  (db : DB) :
  let answers (view : M (messages.level * string * HttpResponseRedirect))
              (platform : string) :=
    exists l text response db',
      view db = (Ok (l, text, response), db')
      /\ deleted_cookies response = []
      /\ redirect_headers response = no_cache_private
      /\ (HttpRequest.method request <> "POST" ->
          l = messages.error /\ db' = db)
      /\ (l = messages.success ->
          HttpRequest.method request = "POST"
          /\ forall r, In r (accounts db') ->
               of_user_platform (HttpRequest.user request) platform r = false)
      /\ (l = messages.warning -> db' = db) in
  answers (linkedin_disconnect settings http reverse now request) "linkedin"
  /\ answers (twitter_disconnect settings http reverse now request) "twitter".
Proof.
  cbv zeta. split.
  - unfold linkedin_disconnect.
    destruct (String.eqb_spec (HttpRequest.method request) "POST") as [Hm|Hm].
    + destruct (disconnect_account_cases (HttpRequest.user request)
                  "linkedin" db) as (b & db' & E & Hf & Ht).
      unfold bind. rewrite E. destruct b; unfold ret;
        eexists _, _, _, _; (split; [reflexivity|]);
        cbn [deleted_cookies redirect_headers];
        repeat split; try discriminate; try contradiction; auto.
    + unfold bind, ret. eexists _, _, _, _. split; [reflexivity|].
      cbn [deleted_cookies redirect_headers].
      repeat split; try discriminate; try contradiction; auto.
  - unfold twitter_disconnect.
    destruct (String.eqb_spec (HttpRequest.method request) "POST") as [Hm|Hm].
    + destruct (disconnect_account_cases (HttpRequest.user request)
                  "twitter" db) as (b & db' & E & Hf & Ht).
      unfold bind. rewrite E. destruct b; unfold ret;
        eexists _, _, _, _; (split; [reflexivity|]);
        cbn [deleted_cookies redirect_headers];
        repeat split; try discriminate; try contradiction; auto.
    + unfold bind, ret. eexists _, _, _, _. split; [reflexivity|].
      cbn [deleted_cookies redirect_headers].
      repeat split; try discriminate; try contradiction; auto.
Qed.

Lemma filter_replace_by_key {A : Type} (key : A -> nat) (i : nat) (a : A)
  (l : list A) :
  key a = i ->
  List.filter (fun r => negb (Nat.eqb (key r) i))
    (map (fun r => if Nat.eqb (key r) i then a else r) l)
  = List.filter (fun r => negb (Nat.eqb (key r) i)) l.
Proof.
  intros Ha. induction l as [|x l IH]; [reflexivity|]. cbn [map List.filter].
  destruct (Nat.eqb (key x) i) eqn:Ex.
  - rewrite Ha, Nat.eqb_refl. cbn [negb]. exact IH.
  - rewrite Ex. cbn [negb]. now rewrite IH.
Qed.

(** X23. [SocialMediaAccount.disconnect] leaves storage exactly as
    [delete()] alone would: the row with the emptied tokens and the status
    "inactive" is written and deleted in the same call, whether or not the
    account was in storage before. *)
Theorem disconnect_is_delete (self : SocialMediaAccount.t) (db : DB) :
  disconnect self db = delete_account self db
  /\ fst (disconnect self db) = Ok tt
  /\ forall r, In r (accounts (snd (disconnect self db))) ->
       SocialMediaAccount.pk r <> SocialMediaAccount.pk self.
Proof.
  assert (E : disconnect self db = delete_account self db).
  { unfold disconnect, bind, save_account, delete_account, modify.
    cbv zeta. cbn [SocialMediaAccount.pk]. f_equal.
    destruct (existsb _ (accounts db)) eqn:Ex;
      cbn [accounts sessions api_call_logs related next_pk set_accounts];
      f_equal.
    - now apply (filter_replace_by_key SocialMediaAccount.pk).
    - rewrite List.filter_app. cbn [List.filter SocialMediaAccount.pk].
      rewrite Nat.eqb_refl. cbn [negb]. apply app_nil_r. }
  split; [exact E|]. rewrite E. split; [reflexivity|].
  unfold delete_account, modify. cbn [snd accounts]. intros r Hr.
  apply filter_In in Hr as [_ Hr].
  now apply negb_true_iff, Nat.eqb_neq in Hr.
Qed.

End MoreDisconnect.

(** ** Metrics and analytics *)

Section MoreAnalytics.

Context (repr : pyval -> string).

Lemma not_null_ok (name : string) (v : option Z) (n : Z) :
  not_null name v = Ok n -> v = Some n.
Proof. destruct v; [now intros [= ->]|discriminate]. Qed.

(** X24. [update_profile_metrics] writes at most the three counters and
    the time of the last synchronisation: what it returns and stores is
    the account with these four columns set, the counters of a LinkedIn
    account other than the followers are kept, and an account of another
    platform than LinkedIn and Twitter keeps all three whatever the metrics
    hold. When a value cannot be stored the call raises and storage is left
    as it was. *)
Theorem update_profile_metrics_writes (now : time)
  (social_account : SocialMediaAccount.t) (metrics_data : pyval) (db : DB) :
  match update_profile_metrics repr now social_account metrics_data db with
  | (Raise _, db') => db' = db
  | (Ok acc, db') =>
    db' = snd (save_account acc db)
    /\ acc
       = with_metrics (SocialMediaAccount.follower_count acc)
           (SocialMediaAccount.following_count acc)
           (SocialMediaAccount.posts_count acc) (Some now) social_account
    /\ (SocialMediaAccount.platform social_account = "linkedin" ->
        SocialMediaAccount.following_count acc
        = SocialMediaAccount.following_count social_account
        /\ SocialMediaAccount.posts_count acc
           = SocialMediaAccount.posts_count social_account)
    /\ (SocialMediaAccount.platform social_account <> "linkedin" ->
        SocialMediaAccount.platform social_account <> "twitter" ->
        SocialMediaAccount.follower_count acc
        = SocialMediaAccount.follower_count social_account
        /\ SocialMediaAccount.following_count acc
           = SocialMediaAccount.following_count social_account
        /\ SocialMediaAccount.posts_count acc
           = SocialMediaAccount.posts_count social_account)
  end.
Proof.
  unfold update_profile_metrics.
  destruct (String.eqb_spec (SocialMediaAccount.platform social_account)
              "linkedin") as [Hl|Hl];
    [|destruct (String.eqb_spec (SocialMediaAccount.platform social_account)
                  "twitter") as [Ht|Ht]].
  - unfold bind at 1. unfold lift at 1.
    destruct (py_get metrics_data "connection_count" (VInt 0)) as [f|e];
      cbn [rbind]; [|reflexivity].
    unfold bind, lift.
    destruct (integer_prep repr "follower_count" f) as [f'|e];
      [|reflexivity].
    cbn [integer_prep py_int].
    destruct (not_null "follower_count" f') as [f''|e]; [|reflexivity].
    cbn [not_null]. unfold ret, save_account, modify. cbn [snd fst].
    repeat split; congruence.
  - unfold bind at 1. unfold lift at 1.
    destruct (py_get metrics_data "followers_count" (VInt 0)) as [f|e];
      cbn [rbind]; [|reflexivity].
    destruct (py_get metrics_data "following_count" (VInt 0)) as [g|e];
      cbn [rbind]; [|reflexivity].
    destruct (py_get metrics_data "tweet_count" (VInt 0)) as [p|e];
      cbn [rbind]; [|reflexivity].
    unfold bind, lift.
    destruct (integer_prep repr "follower_count" f) as [f'|e];
      [|reflexivity].
    destruct (integer_prep repr "following_count" g) as [g'|e];
      [|reflexivity].
    destruct (integer_prep repr "posts_count" p) as [p'|e];
      [|reflexivity].
    destruct (not_null "follower_count" f') as [f''|e]; [|reflexivity].
    destruct (not_null "following_count" g') as [g''|e]; [|reflexivity].
    destruct (not_null "posts_count" p') as [p''|e]; [|reflexivity].
    unfold ret, save_account, modify. cbn [snd fst].
    repeat split; congruence.
  - unfold bind, lift. cbn [integer_prep py_int not_null].
    unfold ret, save_account, modify. cbn [snd fst].
    repeat split; congruence.
Qed.

Lemma analytics_of_created (user account : nat) (date : Z) (pk : nat)
  (rest : gmap string pyval) :
  analytics_of user account date
    {| Related.table := Related.UserAnalytics;
       Related.pk := pk;
       Related.social_account := account;
       Related.fields :=
         <["user" := VInt (Z.of_nat user)]> (<["date" := VInt date]> rest) |}
  = true.
Proof.
  unfold analytics_of. cbn [Related.table Related.social_account
                            Related.fields Related.model_eqb].
  rewrite Nat.eqb_refl, lookup_insert_eq.
  rewrite lookup_insert_ne by discriminate. rewrite lookup_insert_eq.
  now rewrite !Z.eqb_refl.
Qed.

(** X25. [collect_daily_analytics] is idempotent: once it has answered
    with a row for an account and a day, every later call for that account
    and day answers with the same row and writes nothing. *)
Theorem collect_daily_analytics_again (now now' : time)
  (social_account : SocialMediaAccount.t) (date date' : option Z)
  (db db' : DB) (row : Related.t) :
  default (date_of now) date = default (date_of now') date' ->
  collect_daily_analytics now social_account date db = (Ok row, db') ->
  collect_daily_analytics now' social_account date' db' = (Ok row, db')
  /\ In row (related db')
  /\ Related.table row = Related.UserAnalytics
  /\ Related.social_account row = SocialMediaAccount.pk social_account
  /\ accounts db' = accounts db.
Proof.
  intros Hd. unfold collect_daily_analytics.
  replace (match date' with None => date_of now' | Some d => d end)
    with (match date with None => date_of now | Some d => d end)
    by (destruct date, date'; exact Hd).
  set (d := match date with None => date_of now | Some d => d end).
  set (cond := analytics_of (SocialMediaAccount.user social_account)
                 (SocialMediaAccount.pk social_account) d).
  unfold try_except, bind, get_db, lift, objects_get.
  destruct (List.filter cond (related db)) as [|x [|y rest]] eqn:Hf;
    cbn [is_DoesNotExist exn_class_of]; try discriminate.
  - unfold fresh_pk, modify, ret. intros [= <- <-].
    cbn [related set_related set_next_pk accounts].
    rewrite List.filter_app, Hf. cbn [List.filter app].
    unfold cond at 1. rewrite analytics_of_created.
    repeat split. apply in_or_app. right. now left.
  - unfold ret. intros [= <- <-]. rewrite Hf.
    assert (Hin : In x (List.filter cond (related db)))
      by (rewrite Hf; now left).
    apply filter_In in Hin as [Hin Hc]. unfold cond, analytics_of in Hc.
    rewrite !andb_true_iff in Hc. destruct Hc as [[[Ht Hs] _] _].
    apply Nat.eqb_eq in Hs. repeat split; auto.
    now destruct (Related.table x).
Qed.

End MoreAnalytics.

(** ** The profile views *)

Section MoreProfiles.

Lemma get_user_social_account_reads (user : nat) (platform : string)
  (db db' : DB) (o : option SocialMediaAccount.t) :
  get_user_social_account user platform db = (Ok o, db') -> db' = db.
Proof.
  unfold get_user_social_account, try_except, bind, get_db, lift, objects_get.
  destruct (List.filter _ (accounts db)) as [|x [|y rest]];
    cbn [is_DoesNotExist exn_class_of]; unfold ret; congruence.
Qed.


(** X27. For a user with a Twitter account that has no profile row, the
    Twitter view shows no profile but the message that the data is being
    loaded; a user without an active account is shown as not connected by
    both views. Storage is only read. *)
Theorem twitter_profile_without_row (request : HttpRequest.t) (db : DB) :
  (forall a,
     get_user_social_account (HttpRequest.user request) "twitter" db
     = (Ok (Some a), db) ->
     List.filter (related_to Related.TwitterProfile a) (related db) = [] ->
     exists context,
       twitter_profile request db = (Ok context, db)
       /\ is_connected context = true
       /\ success context = false
       /\ profile context = None
       /\ context_message context
          = Some "Twitter account connected but profile data is being loaded...")
  /\ (forall platform view,
        (platform, view) = ("linkedin", linkedin_profile request)
        \/ (platform, view) = ("twitter", twitter_profile request) ->
        get_user_social_account (HttpRequest.user request) platform db
        = (Ok None, db) ->
        exists context,
          view db = (Ok context, db)
          /\ is_connected context = false
          /\ success context = false
          /\ profile context = None).
Proof.
  split.
  - intros a Hget Hf. unfold twitter_profile. unfold bind at 1. rewrite Hget.
    unfold bind, related_profile, try_except, bind, get_db, lift, objects_get.
    rewrite Hf. cbn [is_DoesNotExist exn_class_of]. unfold ret.
    eexists. split; [reflexivity|]. repeat split.
  - intros platform view [[= -> ->]|[= -> ->]] Hget;
      [unfold linkedin_profile|unfold twitter_profile];
      unfold bind; rewrite Hget; unfold ret;
      eexists; (split; [reflexivity|]); repeat split.
Qed.

End MoreProfiles.

(** ** What the request client sends and logs *)

Section MoreRequests.

Context (settings : Settings).

(** X28. For a LinkedIn or Twitter account with a usable token, every
    request that [make_request] sends carries the decrypted token as
    bearer token and goes to the base URL of the platform followed by the
    endpoint without its leading slashes: two networks that agree on such
    requests give the same outcome. *)
Theorem make_request_sends_bearer (http http' : Request.t -> result Response.t)
  (now : time) (response_time : Z) (a : SocialMediaAccount.t)
  (endpoint method : string) (params : option (gmap string pyval))
  (data : pyval) (headers : option (gmap string string)) (db : DB) :
  token_usable settings now a ->
  SocialMediaAccount.platform a = "linkedin"
  \/ SocialMediaAccount.platform a = "twitter" ->
  (forall rq,
     Request.headers rq !! "Authorization"
     = Some ("Bearer "
             +:+ decrypt_token settings (SocialMediaAccount.access_token a)) ->
     Request.url rq
     = _get_base_url a +:+ "/" +:+ lstrip "/" endpoint ->
     Request.params rq = params ->
     http rq = http' rq) ->
  make_request settings http now response_time a endpoint method params data
    headers db
  = make_request settings http' now response_time a endpoint method params
      data headers db.
Proof.
  intros Ha Hp Hsame. unfold make_request, bind.
  rewrite !(valid_token_obtained _ _ _ _ Ha).
  destruct Ha as [_ Hd].
  cbn [of_opt truthy default from_option id].
  rewrite (eqb_empty_false _ Hd). cbn [negb].
  assert (Hor : String.eqb (SocialMediaAccount.platform a) "linkedin"
                || String.eqb (SocialMediaAccount.platform a) "twitter"
                = true).
  { destruct Hp as [-> | ->]; reflexivity. }
  rewrite Hor. unfold try_except, lift.
  destruct (String.eqb (upper method) "GET");
    [|destruct (String.eqb (upper method) "POST");
      [|destruct (String.eqb (upper method) "PUT");
        [|destruct (String.eqb (upper method) "DELETE");
          [|reflexivity]]]];
    match goal with
    | |- context [http ?rq] =>
      rewrite (Hsame rq)
        by first [apply lookup_insert_eq|reflexivity]
    end; reflexivity.
Qed.


End MoreRequests.

(** * More of the code at concrete data *)

Ltac row_by_row Hr :=
  cbn in Hr;
  repeat (destruct Hr as [<-|Hr];
          [first [reflexivity|discriminate|cbn; lia]|]);
  destruct Hr.

Lemma accounts_ok_example : accounts_ok EX.db.
Proof.
  split; [no_dup|]. split; [no_dup|].
  intros r Hr. row_by_row Hr.
Defined.

Lemma get_valid_token_refresh_unavailable_witness :
  SocialMediaAccount.refresh_token EX.alice = Some (EX.cipher "refresh-1")
  /\ exists db',
       get_valid_token EX.settings Sample.later EX.alice EX.db =
         (Ok (None, SocialMediaAccount.set_status "expired" EX.alice), db')
       /\ In (SocialMediaAccount.set_status "expired" EX.alice) (accounts db')
       /\ (forall r, In r (accounts db') ->
                     SocialMediaAccount.pk r = SocialMediaAccount.pk EX.alice ->
                     SocialMediaAccount.status r = "expired")
       /\ sessions db' = sessions EX.db
       /\ api_call_logs db' = api_call_logs EX.db.
Proof.
  split; [reflexivity|].
  apply (get_valid_token_refresh_unavailable EX.settings Sample.later EX.db
           EX.alice 9000%Z); reflexivity.
Defined.

Lemma store_tokens_missing_identity_witness :
  exists e,
    store_tokens EX.settings EX.dict_repr EX.now 2 "linkedin"
      (VStr "fresh-token") VNone VNone VNone (Some Sample.anonymous) EX.db
    = (Raise e, EX.db)
    /\ (truthy VNone = false ->
        e = Exception ValueError
              ("Missing user_data or platform user ID for " +:+ "linkedin")).
Proof.
  apply (store_tokens_missing_identity EX.settings EX.dict_repr EX.now 2
           "linkedin" (VStr "fresh-token") VNone VNone VNone
           (Some Sample.anonymous) EX.db).
  vm_compute. reflexivity.
Defined.

Lemma store_tokens_keeps_accounts_ok_witness :
  accounts_ok (snd Sample.connect).
Proof.
  apply (store_tokens_keeps_accounts_ok EX.settings EX.dict_repr EX.now 2
           "linkedin" (VStr "fresh-token") VNone (VInt 3600) (VStr "openid")
           (Some Sample.newcomer) EX.db (snd Sample.connect)
           (fst Sample.connect)).
  - exact accounts_ok_example.
  - vm_compute. reflexivity.
Defined.

Lemma store_tokens_creates_account_witness :
  accounts (snd Sample.connect)
  = [EX.alice; EX.alice_second; EX.bob; Sample.connect_account]
  /\ SocialMediaAccount.pk Sample.connect_account = 40
  /\ natural_key_of Sample.connect_account = (2, "linkedin", "li-9")
  /\ SocialMediaAccount.display_name Sample.connect_account = "Bob B."
  /\ SocialMediaAccount.email Sample.connect_account = "".
Proof.
  pose proof (store_tokens_creates_account EX.settings EX.dict_repr EX.now 2
                "linkedin" (VStr "fresh-token") VNone (VInt 3600)
                (VStr "openid") Sample.newcomer EX.db (snd Sample.connect)
                Sample.connect_account) as H.
  cbv zeta in H.
  destruct H as (H1 & _ & _ & _ & H5 & H6 & _ & _ & _ & H10 & H11 & _).
  - intros r Hr. cbn in Hr.
    repeat (destruct Hr as [<-|Hr]; [discriminate|]). destruct Hr.
  - vm_compute. reflexivity.
  - repeat split; assumption.
Defined.

Lemma stored_token_is_returned_witness :
  get_valid_token EX.settings (EX.now + 3600)%Z Sample.connect_account
    (snd Sample.connect)
  = (Ok (Some "fresh-token", Sample.connect_account), snd Sample.connect).
Proof.
  apply (stored_token_is_returned EX.settings EX.dict_repr EX.now 2
           "linkedin" "fresh-token" VNone (VInt 3600) (VStr "openid")
           (Some Sample.newcomer) EX.db).
  - discriminate.
  - discriminate.
  - reflexivity.
  - vm_compute. reflexivity.
  - right. exists 3600%Z. split; [reflexivity|]. vm_compute. discriminate.
Defined.

Lemma expired_account_not_found_witness :
  exists db',
    get_valid_token EX.settings EX.now EX.bob EX.db =
      (Ok (None, SocialMediaAccount.set_status "expired" EX.bob), db')
    /\ get_user_social_account 2 "twitter" db' = (Ok None, db').
Proof.
  apply (expired_account_not_found EX.settings EX.now EX.db EX.bob).
  - no_dup.
  - cbn; tauto.
  - intros r Hr U P. cbn in Hr.
    repeat (destruct Hr as [<-|Hr]; [first [reflexivity|discriminate U]|]).
    destruct Hr.
  - reflexivity.
Defined.

Lemma get_user_social_account_ambiguous_witness :
  exists e,
    get_user_social_account 1 "linkedin" EX.db = (Raise e, EX.db)
    /\ exn_class_of e = MultipleObjectsReturned.
Proof.
  apply (get_user_social_account_ambiguous 1 "linkedin" EX.db EX.alice
           EX.alice_second);
    try reflexivity; try (cbn; tauto). discriminate.
Defined.

Lemma make_request_without_token_witness :
  exists db',
    make_request EX.settings EX.restli EX.now 5 EX.bob "/users/me" "GET" None
      VNone None EX.db = (Ok None, db')
    /\ api_call_logs db' = api_call_logs EX.db
    /\ forall http',
         make_request EX.settings http' EX.now 5 EX.bob "/users/me" "GET"
           None VNone None EX.db = (Ok None, db').
Proof.
  apply (make_request_without_token EX.settings EX.restli EX.now 5 EX.bob
           "/users/me" "GET" None VNone None EX.db).
  left. reflexivity.
Defined.

Lemma token_usable_example : token_usable EX.settings EX.now EX.alice.
Proof. split; [reflexivity|]. vm_compute. discriminate. Defined.



Lemma created_session_is_found_witness :
  exists s db1,
    create_oauth_session EX.now EX.rng 2 "twitter"
      (TWITTER_REDIRECT_URI EX.settings) (Some "state-new") (Some "verifier-2")
      EX.db = (Ok s, db1)
    /\ SessionData.code_verifier s = "verifier-2"
    /\ get_oauth_session (EX.now + 1800)%Z "state-new" db1 = (Ok (Some s), db1)
    /\ exists db2,
         get_oauth_session (EX.now + 1801)%Z "state-new" db1 = (Ok None, db2)
         /\ ~ In s (sessions db2).
Proof.
  destruct (created_session_is_found EX.now EX.rng 2 "twitter"
              (TWITTER_REDIRECT_URI EX.settings) "state-new"
              (Some "verifier-2") EX.db (EX.now + 1800)%Z)
    as (s & db1 & E & _ & _ & _ & Hcv & _ & Hfound & _).
  - discriminate.
  - intros r Hr. cbn in Hr.
    repeat (destruct Hr as [<-|Hr]; [discriminate|]). destruct Hr.
  - destruct (created_session_is_found EX.now EX.rng 2 "twitter"
                (TWITTER_REDIRECT_URI EX.settings) "state-new"
                (Some "verifier-2") EX.db (EX.now + 1801)%Z)
      as (s' & db1' & E' & _ & _ & _ & _ & _ & _ & Hgone).
    + discriminate.
    + intros r Hr. cbn in Hr.
      repeat (destruct Hr as [<-|Hr]; [discriminate|]). destruct Hr.
    + rewrite E in E'. injection E' as <- <-.
      exists s, db1. split; [exact E|]. split; [exact Hcv|].
      split; [apply Hfound; vm_compute; discriminate|].
      destruct Hgone as (db2 & G1 & G2 & _); [reflexivity|].
      exists db2. split; assumption.
Defined.

Lemma sweep_then_lookup_witness :
  let swept := snd (cleanup_expired_sessions EX.now EX.db) in
  (forall r, In r (sessions swept) <->
     In r (sessions EX.db) /\ (EX.now <= SessionData.expires_at r)%Z)
  /\ fst (get_oauth_session EX.now "state-stale" swept)
     = fst (get_oauth_session EX.now "state-stale" EX.db)
  /\ snd (get_oauth_session EX.now "state-stale" swept) = swept.
Proof.
  apply (sweep_then_lookup EX.now "state-stale" EX.db). cbn. lia.
Defined.

Lemma callback_without_code_or_state_witness :
  exists text text',
    linkedin_callback EX.settings EX.dict_repr EX.offline EX.now
      Sample.denied_request EX.db
    = (Ok (dashboard messages.error text), EX.db)
    /\ twitter_callback EX.settings EX.dict_repr EX.offline EX.now
         Sample.denied_request EX.db
       = (Ok (dashboard messages.error text'), EX.db).
Proof.
  destruct (callback_without_code_or_state EX.settings EX.dict_repr
              EX.offline EX.now Sample.denied_request EX.db)
    as (text & text' & H1 & H2 & _).
  - left. reflexivity.
  - exists text, text'. split; assumption.
Defined.

Lemma callback_unknown_state_witness :
  linkedin_callback EX.settings EX.dict_repr EX.offline EX.now
    Sample.unknown_request EX.db
  = (Ok (dashboard messages.error "Invalid or expired session state"), EX.db)
  /\ twitter_callback EX.settings EX.dict_repr EX.offline EX.now
       Sample.unknown_request EX.db
     = (Ok (dashboard messages.error "Invalid session state"), EX.db).
Proof.
  apply (callback_unknown_state EX.settings EX.dict_repr EX.offline EX.now
           Sample.unknown_request EX.db "abc" "state-unknown").
  - reflexivity.
  - reflexivity.
  - discriminate.
  - reflexivity.
  - discriminate.
  - intros r Hr. cbn in Hr.
    repeat (destruct Hr as [<-|Hr]; [discriminate|]). destruct Hr.
Defined.

Lemma own_callback_example :
  own_callback EX.now Sample.own_request EX.db EX.live.
Proof.
  constructor.
  - reflexivity.
  - exists "abc". split; [reflexivity|discriminate].
  - reflexivity.
  - discriminate.
  - no_dup.
  - cbn; tauto.
  - only_row.
  - discriminate.
  - reflexivity.
Defined.

Lemma callback_token_exchange_fails_witness :
  exists text text',
    linkedin_callback EX.settings EX.dict_repr EX.not_found EX.now
      Sample.own_request EX.db
    = (Ok (dashboard messages.error text), EX.db)
    /\ twitter_callback EX.settings EX.dict_repr EX.not_found EX.now
         Sample.own_request EX.db
       = (Ok (dashboard messages.error text'), EX.db)
    /\ (text = "Failed to get access token from LinkedIn"
        \/ exists e, text = "Error connecting LinkedIn account: " +:+ exn_str e)
    /\ (text' = "Failed to get access token from Twitter"
        \/ exists e, text' = "Error connecting Twitter account: " +:+ exn_str e).
Proof.
  apply (callback_token_exchange_fails EX.settings EX.dict_repr
           EX.not_found EX.now Sample.own_request EX.db EX.live).
  - exact own_callback_example.
  - intros rq _. cbn. discriminate.
Defined.

Lemma callback_always_answers_witness :
  (exists l text db',
     linkedin_callback EX.settings EX.dict_repr EX.offline EX.now
       Sample.own_request EX.db = (Ok (dashboard l text), db'))
  /\ (exists l text db',
        twitter_callback EX.settings EX.dict_repr EX.offline EX.now
          Sample.own_request EX.db = (Ok (dashboard l text), db')).
Proof.
  apply (callback_always_answers EX.settings EX.dict_repr EX.offline EX.now
           Sample.own_request EX.db).
  vm_compute. lia.
Defined.

Lemma linkedin_callback_success_witness :
  exists acc row,
    In acc (accounts (snd Sample.linkedin_connected))
    /\ SocialMediaAccount.user acc = 1
    /\ SocialMediaAccount.platform acc = "linkedin"
    /\ SocialMediaAccount.status acc = "active"
    /\ In row (related (snd Sample.linkedin_connected))
    /\ related_to Related.LinkedInProfile acc row = true.
Proof.
  destruct (linkedin_callback_success EX.settings EX.dict_repr
              Sample.linkedin_api EX.now Sample.own_request EX.db
              (snd Sample.linkedin_connected)
              (dashboard messages.success
                 "LinkedIn account connected successfully!")
              "LinkedIn account connected successfully!")
    as (s & acc & row & _ & _ & _ & _ & _ & H).
  - vm_compute. reflexivity.
  - reflexivity.
  - now exists acc, row.
Defined.


Lemma collect_daily_analytics_again_witness :
  collect_daily_analytics (EX.now + 3600)%Z EX.alice (Some 0%Z)
    (snd Sample.collected)
  = (Ok Sample.collected_row, snd Sample.collected)
  /\ In Sample.collected_row (related (snd Sample.collected))
  /\ Related.table Sample.collected_row = Related.UserAnalytics
  /\ Related.social_account Sample.collected_row = 1
  /\ accounts (snd Sample.collected) = accounts EX.db.
Proof.
  apply (collect_daily_analytics_again EX.now (EX.now + 3600)%Z EX.alice None
           (Some 0%Z) EX.db).
  - reflexivity.
  - vm_compute. reflexivity.
Defined.


Lemma twitter_profile_without_row_witness :
  exists context,
    twitter_profile Sample.bob_request Sample.loading
    = (Ok context, Sample.loading)
    /\ is_connected context = true
    /\ success context = false
    /\ profile context = None
    /\ context_message context
       = Some "Twitter account connected but profile data is being loaded...".
Proof.
  apply (twitter_profile_without_row Sample.bob_request Sample.loading)
    with (a := EX.bob).
  - vm_compute. reflexivity.
  - reflexivity.
Defined.

Lemma make_request_sends_bearer_witness :
  make_request EX.settings EX.restli EX.now 5 EX.alice "/me" "GET" None VNone
    None EX.db
  = make_request EX.settings
      (fun rq =>
         if String.eqb (Request.url rq) "https://api.linkedin.com/v2/me"
         then EX.restli rq else EX.offline rq)
      EX.now 5 EX.alice "/me" "GET" None VNone None EX.db.
Proof.
  apply (make_request_sends_bearer EX.settings EX.restli
           (fun rq =>
              if String.eqb (Request.url rq) "https://api.linkedin.com/v2/me"
              then EX.restli rq else EX.offline rq)
           EX.now 5 EX.alice "/me" "GET" None VNone None EX.db).
  - exact token_usable_example.
  - left. reflexivity.
  - intros rq _ Hurl _. rewrite Hurl. vm_compute. reflexivity.
Defined.

